(** * NRV cellular-level post-processing: spike-train extraction and queries

    A shallow embedding of [nrv/CL_postprocessing.py].

    Conventions of the embedding.
    - A Python float of the data (a voltage, a time, a coordinate, a
      parameter) is the rational it denotes, of type [Q]; the tests [<],
      [<=], [==] on floats are exact, and are the decision procedures of
      [Q].
    - The arithmetic of the spike detector and of [rasterize] ([1/dt],
      [t_start*(1/dt)], [j*dt - t_last_spike], [tstop/dt], [int]) is the
      binary64 arithmetic of the machine, on Rocq's primitive floats: [b64]
      is the float nearest to a rational, and every operation rounds.  The
      queries on a raster only compare, select and subtract the recorded
      values; their arithmetic is written on [Q], a float division with its
      zero-divisor cases.
    - Integer indices are [Z]; reading a sequence at an index follows the
      Python rule (negative indices count from the end, anything else out of
      range raises [IndexError]).  The spike detector is compiled without
      bounds checks: what its reads outside an array do is a parameter of
      the detector ([Detector.access]).
    - The simulation record is a string-keyed finite map of tagged values.
    - A Python exception is the [Raise] branch of the [result] monad. *)

From Stdlib Require Import ZArith QArith Qround Lqa Lia List Bool String Sorted.
From Stdlib Require Import Floats.
From stdpp Require Import base gmap strings.
Import ListNotations.

Open Scope string_scope.

(** ** Exceptions and the result monad *)

Inductive exn :=
| IndexError (what : string)
| KeyError (key : string)
| ValueError (what : string)
| TypeError (what : string)
| NameError (name : string)
| ZeroDivisionError
| OverflowError (what : string).

Inductive result (A : Type) :=
| Ok (a : A)
| Raise (e : exn).
Arguments Ok {A} a.
Arguments Raise {A} e.

Definition bind {A B} (m : result A) (k : A -> result B) : result B :=
  match m with
  | Ok a => k a
  | Raise e => Raise e
  end.

Notation "'do' x <- m ; k" := (bind m (fun x => k))
  (at level 10, x pattern, m at level 100, k at level 200,
   format "'[v' 'do'  x  <-  m ; '/' k ']'").

(** [for x in l: st = body(st, x)], stopping at the first exception. *)
Fixpoint for_each {A S} (l : list A) (body : S -> A -> result S) (st : S)
  : result S :=
  match l with
  | [] => Ok st
  | a :: l' => do st' <- body st a; for_each l' body st'
  end.

(** ** Numbers *)

Definition Qltb (a b : Q) : bool :=
  match (a ?= b)%Q with Lt => true | _ => false end.
Definition Qgtb (a b : Q) : bool := Qltb b a.
Definition Qgeb (a b : Q) : bool := Qle_bool b a.

(** Python [int(q)]: truncation towards zero. *)
Definition py_int (q : Q) : Z := Z.quot (Qnum q) (Z.pos (Qden q)).

(** Rounding to the nearest integer, ties to even (Python [round]). *)
Definition py_round (q : Q) : Z :=
  let f := Qfloor q in
  let r := (q - inject_Z f)%Q in
  match (r ?= 1 # 2)%Q with
  | Lt => f
  | Gt => (f + 1)%Z
  | Eq => if Z.even f then f else (f + 1)%Z
  end.

(** *** Binary64

    [b64 q] is the float nearest to the rational [q] (ties to even): the
    correctly rounded quotient of its numerator by its denominator. *)
Definition b64 (q : Q) : float :=
  SF2Prim
    (SFdiv prec emax
       match Qnum q with
       | Z0 => S754_zero false
       | Zpos n => S754_finite false n 0
       | Zneg n => S754_finite true n 0
       end
       (S754_finite false (Qden q) 0)).

(** An integer as a float, rounded to nearest when it has more than 53
    bits. *)
Definition float_of_Z (z : Z) : float :=
  SF2Prim (binary_normalize prec emax z 0 false).

(** The rational that a finite float denotes. *)
Definition float_value (f : float) : option Q :=
  match Prim2SF f with
  | S754_zero _ => Some 0%Q
  | S754_finite s m e =>
      let z := if s then Z.neg m else Z.pos m in
      Some (match e with
            | Zneg k => Qmake z (2 ^ k)
            | _ => inject_Z (z * 2 ^ e)
            end)
  | S754_infinity _ | S754_nan => None
  end.

(** [a / b] on Python floats *)
Definition float_div (a b : float) : result float :=
  if (b =? 0)%float then Raise ZeroDivisionError else Ok (a / b)%float.

(** [int(f)] in Python: truncation towards zero, of any size. *)
Definition py_int_float (f : float) : result Z :=
  match float_value f with
  | Some q => Ok (py_int q)
  | None =>
      if is_nan f
      then Raise (ValueError "cannot convert float NaN to integer")
      else Raise (OverflowError "cannot convert float infinity to integer")
  end.

Definition int64_min : Z := (- 2 ^ 63)%Z.
Definition int64_max : Z := (2 ^ 63 - 1)%Z.

(** [int(f)] in compiled code: the conversion of the machine to a 64-bit
    integer, truncation towards zero; a NaN, an infinity or a value outside
    the 64-bit range gives the smallest integer (x86-64). *)
Definition nb_int (f : float) : Z :=
  match float_value f with
  | Some q =>
      let z := py_int q in
      if ((int64_min <=? z) && (z <=? int64_max))%Z then z else int64_min
  | None => int64_min
  end.

(** [round(f)] of a finite float, as an integer. *)
Definition py_round_float (f : float) : Z :=
  match float_value f with
  | Some q => py_round q
  | None => 0%Z
  end.

(** ** Sequences *)

(** [l[k]] with Python's index rule. *)
Definition py_get {A} (what : string) (l : list A) (k : Z) : result A :=
  let n := Z.of_nat (length l) in
  let k' := if (k <? 0)%Z then (k + n)%Z else k in
  if ((0 <=? k') && (k' <? n))%Z
  then match nth_error l (Z.to_nat k') with
       | Some a => Ok a
       | None => Raise (IndexError what)
       end
  else Raise (IndexError what).

(** [range(a, b)] *)
Definition py_range (a b : Z) : list Z :=
  map (fun k => (a + Z.of_nat k)%Z) (seq 0 (Z.to_nat (b - a))).

(** Python [min] of a non-empty sequence given as head and tail. *)
Definition Qmin_list (a : Q) (l : list Q) : Q :=
  fold_left (fun m v => if Qltb v m then v else m) l a.
Definition Qmax_list (a : Q) (l : list Q) : Q :=
  fold_left (fun m v => if Qltb m v then v else m) l a.

(** The built-in [min] and [max]. *)
Definition py_min (l : list Q) : result Q :=
  match l with
  | [] => Raise (ValueError "min() arg is an empty sequence")
  | a :: rest => Ok (Qmin_list a rest)
  end.

Definition py_max (l : list Q) : result Q :=
  match l with
  | [] => Raise (ValueError "max() arg is an empty sequence")
  | a :: rest => Ok (Qmax_list a rest)
  end.

(** ** NumPy arrays *)

(** A float array of dimension 0 or 1. *)
Inductive ndarray :=
| Scalar (q : Q)
| Arr1 (a : list Q).

(** A float as NumPy computes it: division by zero gives a NaN or an
    infinity, not an exception. *)
Inductive npfloat :=
| Fin (q : Q)
| NaN
| PInf
| NInf.

Definition np_div (a b : Q) : npfloat :=
  if Qeq_bool b 0 then
    if Qeq_bool a 0 then NaN else if Qltb 0 a then PInf else NInf
  else Fin (a / b)%Q.

Fixpoint map_result {A B} (f : A -> result B) (l : list A)
  : result (list B) :=
  match l with
  | [] => Ok []
  | a :: l' => do b <- f a; do bs <- map_result f l'; Ok (b :: bs)
  end.

Fixpoint where_from (k : Z) (mask : list bool) : list Z :=
  match mask with
  | [] => []
  | b :: mask' =>
      if b then k :: where_from (k + 1) mask' else where_from (k + 1) mask'
  end.

(** [np.where(mask)]: the indices at which a 1-d mask holds. *)
Definition np_where (mask : list bool) : list Z := where_from 0 mask.

(** [np.arange(n)] *)
Definition np_arange (n : nat) : list Z := py_range 0 (Z.of_nat n).

Fixpoint insert_unique (k : Z) (l : list Z) : list Z :=
  match l with
  | [] => [k]
  | h :: l' =>
      if (k <? h)%Z then k :: l
      else if (k =? h)%Z then l
      else h :: insert_unique k l'
  end.

(** [np.unique]: sorted, without repetition. *)
Definition np_unique (l : list Z) : list Z := fold_right insert_unique [] l.

(** [np.intersect1d(a, b)]: the sorted values found in both. *)
Definition np_intersect1d (a b : list Z) : list Z :=
  List.filter (fun k => existsb (Z.eqb k) (np_unique b)) (np_unique a).

(** [arr[idx]] for an index array. *)
Definition np_take {A} (what : string) (arr : list A) (idx : list Z)
  : result (list A) :=
  map_result (py_get what arr) idx.

(** [np.amin], [np.amax] *)
Definition np_amin (a : list Q) : result Q :=
  match a with
  | [] => Raise (ValueError "zero-size array to reduction operation")
  | v :: a' => Ok (Qmin_list v a')
  end.

Definition np_amax (a : list Q) : result Q :=
  match a with
  | [] => Raise (ValueError "zero-size array to reduction operation")
  | v :: a' => Ok (Qmax_list v a')
  end.

(** Index of the first largest (smallest) element, from a running best. *)
Fixpoint argmax_from (best_i : Z) (best : Q) (i : Z) (a : list Q) : Z :=
  match a with
  | [] => best_i
  | v :: a' =>
      if Qltb best v then argmax_from i v (i + 1) a'
      else argmax_from best_i best (i + 1) a'
  end.

Fixpoint argmin_from (best_i : Z) (best : Q) (i : Z) (a : list Q) : Z :=
  match a with
  | [] => best_i
  | v :: a' =>
      if Qltb v best then argmin_from i v (i + 1) a'
      else argmin_from best_i best (i + 1) a'
  end.

(** [np.argmax], [np.argmin] *)
Definition np_argmax (a : list Q) : result Z :=
  match a with
  | [] => Raise (ValueError "attempt to get argmax of an empty sequence")
  | v :: a' => Ok (argmax_from 0 v 1 a')
  end.

Definition np_argmin (a : list Q) : result Z :=
  match a with
  | [] => Raise (ValueError "attempt to get argmin of an empty sequence")
  | v :: a' => Ok (argmin_from 0 v 1 a')
  end.

Fixpoint zip_with_bool (op : Q -> Q -> bool) (a b : list Q) : list bool :=
  match a, b with
  | v :: a', w :: b' => op v w :: zip_with_bool op a' b'
  | _, _ => []
  end.

(** [np.where(a OP b)] for a 1-d [a] and a 0-d or 1-d [b]: shapes [(n,)]
    and [(k,)] broadcast when they are equal or one of them is 1. *)
Definition np_where_cmp (op : Q -> Q -> bool) (a : list Q) (b : ndarray)
  : result (list Z) :=
  match b with
  | Scalar s => Ok (np_where (map (fun v => op v s) a))
  | Arr1 bs =>
      match bs, a with
      | [s], _ => Ok (np_where (map (fun v => op v s) a))
      | _, [v] => Ok (np_where (map (fun w => op v w) bs))
      | _, _ =>
          if (length a =? length bs)%nat
          then Ok (np_where (zip_with_bool op a bs))
          else Raise (ValueError "operands could not be broadcast together")
      end
  end.

(** Result of [array == list] and of [array != list]: an array of booleans
    when the shapes broadcast, and otherwise the single boolean that NumPy
    1.x falls back to (with a warning). *)
Inductive ndbool :=
| BScalar (b : bool)
| BArr (m : list bool).

Definition np_eq_list (a b : list Q) : ndbool :=
  match a, b with
  | [v], _ => BArr (map (fun w => Qeq_bool v w) b)
  | _, [w] => BArr (map (fun v => Qeq_bool v w) a)
  | _, _ =>
      if (length a =? length b)%nat then BArr (zip_with_bool Qeq_bool a b)
      else BScalar false
  end.

Definition np_ne_list (a b : list Q) : ndbool :=
  match np_eq_list a b with
  | BArr m => BArr (map negb m)
  | BScalar e => BScalar (negb e)
  end.

(** Truth value in an [if]; an empty array is false in NumPy 1.x. *)
Definition np_truth (m : ndbool) : result bool :=
  match m with
  | BScalar b => Ok b
  | BArr [] => Ok false
  | BArr [b] => Ok b
  | BArr _ =>
      Raise (ValueError "the truth value of an array is ambiguous")
  end.

(** ** The simulation record *)

Inductive pyval :=
| VFloat (q : Q)
| VBool (b : bool)
| VStr (s : string)
| VList (l : list Q)
| VArr (a : list Q)
| VIntArr (a : list Z)
| VMat (m : list (list Q)).

Definition get (my_dict : gmap string pyval) (key : string) : result pyval :=
  match my_dict !! key with
  | Some v => Ok v
  | None => Raise (KeyError key)
  end.

Definition get_float (my_dict : gmap string pyval) (key : string)
  : result Q :=
  do v <- get my_dict key;
  match v with VFloat q => Ok q | _ => Raise (TypeError key) end.

Definition get_arr (my_dict : gmap string pyval) (key : string)
  : result (list Q) :=
  do v <- get my_dict key;
  match v with VArr a => Ok a | _ => Raise (TypeError key) end.

Definition get_int_arr (my_dict : gmap string pyval) (key : string)
  : result (list Z) :=
  do v <- get my_dict key;
  match v with VIntArr a => Ok a | _ => Raise (TypeError key) end.

Definition get_mat (my_dict : gmap string pyval) (key : string)
  : result (list (list Q)) :=
  do v <- get my_dict key;
  match v with VMat m => Ok m | _ => Raise (TypeError key) end.

(** [if t_stop == 0: t_stop = my_dict['tstop']] *)
Definition default_t_stop (my_dict : gmap string pyval) (t_stop : Q)
  : result Q :=
  if Qeq_bool t_stop 0 then get_float my_dict "tstop" else Ok t_stop.

(** [if t_start == 0: if 'intra_stim_starts' in my_dict and
    my_dict['intra_stim_starts'] != []: t_start = ...[0]] *)
Definition default_t_start (my_dict : gmap string pyval) (t_start : Q)
  : result Q :=
  if Qeq_bool t_start 0 then
    match my_dict !! "intra_stim_starts" with
    | Some (VList l) =>
        match l with [] => Ok t_start | s :: _ => Ok s end
    | Some (VArr a) =>
        do ne <- np_truth (np_ne_list a []);
        if ne then py_get "intra_stim_starts" a 0 else Ok t_start
    | Some _ => Raise (TypeError "intra_stim_starts")
    | None => Ok t_start
    end
  else Ok t_start.

(** The choice of the raster when no key is given: the filtered one if
    present, else the raw one, else none. *)
Definition best_raster (my_dict : gmap string pyval) : option string :=
  match my_dict !! "V_mem_filtered_raster_position" with
  | Some _ => Some "V_mem_filtered_raster"
  | None =>
      match my_dict !! "V_mem_raster_position" with
      | Some _ => Some "V_mem_raster"
      | None => None
      end
  end.

(** ** Spike counter *)

Module Counter.

(** Body of the loop on [i]. *)
Definition count_step (onset_position : list Q) (spike_number i : Z)
  : result Z :=
  do oi <- py_get "onset_position" onset_position i;
  do lowest <- py_min onset_position;
  if Qeq_bool oi lowest then
    do oj <- py_get "onset_position" onset_position (i + 1);
    if Qeq_bool oi oj then Ok (spike_number + 1)%Z else Ok spike_number
  else Ok spike_number.

(** [count_spike(onset_position)] *)
Definition count_spike (onset_position : list Q) : result Z :=
  if (length onset_position =? 0)%nat then Ok 0%Z
  else
    for_each (py_range 0 (Z.of_nat (length onset_position) - 1))
             (count_step onset_position) 1%Z.

(** [lowest] is the minimum of the list. *)
Definition is_minimum (lowest : Q) (l : list Q) : Prop :=
  (exists v, In v l /\ (v == lowest)%Q) /\
  (forall v, In v l -> (lowest <= v)%Q).

(** Number of indices [i < len - 1] with [l[i] == lowest] and
    [l[i] == l[i+1]]. *)
Definition repeats_of (lowest : Q) (l : list Q) : nat :=
  length
    (List.filter
       (fun i => Qeq_bool (nth i l 0%Q) lowest
                 && Qeq_bool (nth i l 0%Q) (nth (S i) l 0%Q))
       (seq 0 (length l - 1))).

End Counter.

(** ** Spike detector *)

Module Detector.

(** The four parallel output sequences. *)
Record raster := mk_raster {
  raster_position : list Z;
  raster_x_position : list Q;
  raster_time_index : list Z;
  raster_time : list Q
}.

Definition empty_raster : raster := mk_raster [] [] [] [].

(** One [append] on each of the four lists. *)
Definition record_spike (r : raster) (i : Z) (xi : Q) (j : Z) (tj : Q)
  : raster :=
  mk_raster (raster_position r ++ [i]) (raster_x_position r ++ [xi])
            (raster_time_index r ++ [j]) (raster_time r ++ [tj]).

Definition raster_app (r1 r2 : raster) : raster :=
  mk_raster (raster_position r1 ++ raster_position r2)
            (raster_x_position r1 ++ raster_x_position r2)
            (raster_time_index r1 ++ raster_time_index r2)
            (raster_time r1 ++ raster_time r2).

Definition raster_concat (l : list raster) : raster :=
  fold_right raster_app empty_raster l.

(** What a read outside an array does.  [spike_detection] is compiled
    ([@jit(nopython=True)]) and does not check its indices: a read outside
    an array raises nothing and returns what the memory holds there, a value
    the program does not determine, [wild what idx] ([Unchecked]).  Run with
    bounds checking, or interpreted, the same read raises [IndexError]
    ([Checked]).  In both cases a negative index counts from the end.

    The arithmetic is binary64, each operation of the source rounded once,
    in the order the source writes them ([fastmath=True] lets the compiler
    contract or reorder them, which the embedding does not follow).  The
    division [1/dt] raises on a zero divisor, as compiled code does by
    default. *)
Inductive access :=
| Unchecked (wild : string -> list Z -> Q)
| Checked.

Definition outside (mode : access) (what : string) (idx : list Z)
  : result Q :=
  match mode with
  | Unchecked wild => Ok (wild what idx)
  | Checked => Raise (IndexError what)
  end.

Section SpikeDetection.

Variable mode : access.
Variable Voltage : list (list Q).
Variables t x : list Q.
Variable list_to_parse : list Z.
Variables thr dt t_start : Q.
Variable t_stop : Z.
Variables t_refractory t_min_spike : Q.

(** [1/dt] *)
Definition inv_dt : result float := float_div 1 (b64 dt).

(** The division [1/dt] does not raise: [dt] is not zero. *)
Definition dt_divides : Prop := inv_dt = Ok (1 / b64 dt)%float.

(** [Voltage[i][j]] *)
Definition Voltage_at (i j : Z) : result Q :=
  match py_get "Voltage" Voltage i with
  | Ok row =>
      match py_get "Voltage" row j with
      | Ok v => Ok v
      | Raise _ => outside mode "Voltage" [i; j]
      end
  | Raise _ => outside mode "Voltage" [i; j]
  end.

(** [a[k]] on a 1-d array *)
Definition item (what : string) (a : list Q) (k : Z) : result Q :=
  match py_get what a k with
  | Ok v => Ok v
  | Raise _ => outside mode what [k]
  end.

(** The condition of the [if], a chain of short-circuit [and]s. *)
Definition is_spike (i j : Z) (t_last_spike : float) : result bool :=
  do v0 <- Voltage_at i j;
  if Qle_bool v0 thr then
    do v1 <- Voltage_at i (j + 1);
    if Qgeb v1 thr then
      do k <- inv_dt;
      do v2 <- Voltage_at i
                 (Z.min (j + nb_int (b64 t_min_spike * k)%float) t_stop);
      if Qgeb v2 thr then
        Ok (b64 t_refractory <? float_of_Z j * b64 dt - t_last_spike)%float
      else Ok false
    else Ok false
  else Ok false.

(** Body of the loop on [j]; the state is the output and [t_last_spike]. *)
Definition scan_sample (i : Z) (st : raster * float) (j : Z)
  : result (raster * float) :=
  do b <- is_spike i j (snd st);
  if b then
    do xi <- item "x" x i;
    do tj <- item "t" t j;
    Ok (record_spike (fst st) i xi j tj, (float_of_Z j * b64 dt)%float)
  else Ok st.

(** Body of the loop on [i]. *)
Definition scan_row (r : raster) (i : Z) : result raster :=
  let t_last_spike := (b64 t_start - b64 t_refractory)%float in
  do k <- inv_dt;
  do st <- for_each (py_range (nb_int (b64 t_start * k)%float) t_stop)
                    (scan_sample i) (r, t_last_spike);
  Ok (fst st).

Definition spike_detection : result raster :=
  for_each list_to_parse scan_row empty_raster.

(** *** What the detector is expected to record

    [samples] is the conversion of a duration to a number of samples: the
    source computes [int(d*(1/dt))], the specification reads
    [round(d/dt)]. *)

Definition samples_int (d : Q) : Z := nb_int (b64 d * (1 / b64 dt))%float.

Definition samples_round (d : Q) : Z := py_round_float (b64 d / b64 dt)%float.

(** More than [t_refractory] after [t_last_spike] at sample [j]:
    [j*dt - t_last_spike > t_refractory], every operation rounded. *)
Definition after_refractory (j : Z) (t_last_spike : float) : bool :=
  (b64 t_refractory <? float_of_Z j * b64 dt - t_last_spike)%float.

(** The four tests of the condition, at sample [j] of row [i]. *)
Definition Spike (samples : Q -> Z) (i j : Z) (t_last_spike : float)
  : Prop :=
  exists v0 v1 v2 : Q,
    Voltage_at i j = Ok v0 /\ (v0 <= thr)%Q /\
    Voltage_at i (j + 1) = Ok v1 /\ (thr <= v1)%Q /\
    Voltage_at i (Z.min (j + samples t_min_spike) t_stop) = Ok v2 /\
    (thr <= v2)%Q /\
    after_refractory j t_last_spike = true.

(** Value of [t_last_spike] when the scan reaches [j], the indices of [js]
    having been recorded: [j' * dt] for the latest [j' < j] of [js], and
    [t0] when there is none. *)
Definition t_last_from (t0 : float) (js : list Z) (j : Z) : float :=
  match rev (List.filter (fun j' => (j' <? j)%Z) js) with
  | j' :: _ => (float_of_Z j' * b64 dt)%float
  | [] => t0
  end.

Definition t_last_at (js : list Z) (j : Z) : float :=
  t_last_from (b64 t_start - b64 t_refractory)%float js j.

(** [js] is what one scan of row [i] records. *)
Definition row_spec (samples : Q -> Z) (i : Z) (js : list Z) : Prop :=
  StronglySorted Z.lt js /\
  forall j : Z,
    In j js <->
    (samples t_start <= j < t_stop)%Z /\
    Spike samples i j (t_last_at js j).

(** The four lists of [seg] describe the spikes of row [i] at the indices
    [raster_time_index seg]. *)
Definition row_events (i : Z) (seg : raster) : Prop :=
  raster_position seg = map (fun _ => i) (raster_time_index seg) /\
  Forall2 (fun (_ : Z) v => item "x" x i = Ok v)
          (raster_time_index seg) (raster_x_position seg) /\
  Forall2 (fun j v => item "t" t j = Ok v)
          (raster_time_index seg) (raster_time seg).

(** The output is made of one segment per scanned row, in scan order. *)
Definition records (samples : Q -> Z) (r : raster) : Prop :=
  exists segs : list raster,
    r = raster_concat segs /\
    Forall2 (fun i seg =>
               row_events i seg /\ row_spec samples i (raster_time_index seg))
            list_to_parse segs.

(** Big-step reading of the loop on [j] from index [a] with
    [t_last_spike = tl]: the list of the indices it records. *)
Inductive accepted (i : Z) : Z -> float -> list Z -> Prop :=
| accepted_done a tl :
    (t_stop <= a)%Z -> accepted i a tl []
| accepted_skip a tl js :
    (a < t_stop)%Z -> is_spike i a tl = Ok false ->
    accepted i (a + 1) tl js -> accepted i a tl js
| accepted_take a tl js :
    (a < t_stop)%Z -> is_spike i a tl = Ok true ->
    accepted i (a + 1) (float_of_Z a * b64 dt)%float js ->
    accepted i a tl (a :: js).

(** Two consecutive recorded indices: later, and more than the refractory
    period apart as the source measures it, on [j * dt]. *)
Definition index_gap (j1 j2 : Z) : Prop :=
  (j1 < j2)%Z /\ after_refractory j2 (float_of_Z j1 * b64 dt)%float = true.

(** Two consecutive recorded times, as the specification has them:
    increasing, and more than the refractory period apart. *)
Definition time_gap (t1 t2 : Q) : Prop :=
  (t1 < t2)%Q /\ (t_refractory < t2 - t1)%Q.

(** The same distance between two recorded times, measured as the source
    measures it on [j * dt]. *)
Definition time_gap_b64 (t1 t2 : Q) : Prop :=
  (b64 t_refractory <? b64 t2 - b64 t1)%float = true.

(** The time vector holds [j * dt], as the source computes it, at [j]. *)
Definition on_grid (j : Z) : Prop :=
  exists v : Q, py_get "t" t j = Ok v /\ b64 v = (float_of_Z j * b64 dt)%float.

(** Every scanned row exists and has at least [t_stop + 1] samples. *)
Definition rows_cover_t_stop : Prop :=
  forall i : Z, In i list_to_parse ->
    exists row, py_get "Voltage" Voltage i = Ok row /\
                (t_stop + 1 <= Z.of_nat (length row))%Z.

End SpikeDetection.

(** A read of the voltage matrix outside its bounds, in a run that checks
    them. *)
Definition voltage_fault {A} (m : result A) : Prop :=
  m = Raise (IndexError "Voltage").

End Detector.


(** ** Rasterization *)

(** [int(stop/dt)], handed to the compiled detector as a 64-bit integer;
    the call refuses an integer that is not one. *)
Definition stop_index (stop dt : Q) : result Z :=
  do q <- float_div (b64 stop) (b64 dt);
  do n <- py_int_float q;
  if ((int64_min <=? n) && (n <=? int64_max))%Z then Ok n
  else Raise (ValueError "Int value is too large").

(** [rasterize(my_dict, my_key, ...)]: the record with the four raster
    fields added.  [mode] is the way the compiled detector reads outside
    its arrays. *)
Definition rasterize (mode : Detector.access)
    (my_dict : gmap string pyval) (my_key : string)
    (t_start t_stop t_min_spike t_refractory threshold : Q)
  : result (gmap string pyval) :=
  do tstop_or_t_stop <-
    (if Qeq_bool t_stop 0 then get_float my_dict "tstop" else Ok t_stop);
  do dt <- get_float my_dict "dt";
  do t_stop <- stop_index tstop_or_t_stop dt;
  do thr <-
    (if Qeq_bool threshold 0 then get_float my_dict "threshold"
     else Ok threshold);
  do myelinated <- get my_dict "myelinated";
  do rec_all <-
    (match myelinated with
     | VBool true =>
         do rec <- get my_dict "rec";
         Ok (match rec with VStr "all" => true | _ => false end)
     | _ => Ok false
     end);
  do geometry <-
    (if rec_all : bool then
       do node_index <- get_int_arr my_dict "node_index";
       do x <- get_arr my_dict "x";
       Ok (node_index, x)
     else
       do x_rec <- get_arr my_dict "x_rec";
       Ok (np_arange (length x_rec), x_rec));
  do Voltage <- get_mat my_dict my_key;
  do t <- get_arr my_dict "t";
  do r <- Detector.spike_detection mode Voltage t (snd geometry)
            (fst geometry) thr dt t_start t_stop t_refractory t_min_spike;
  Ok (<[my_key +:+ "_raster_time" := VArr (Detector.raster_time r)]>
      (<[my_key +:+ "_raster_time_index" :=
           VIntArr (Detector.raster_time_index r)]>
      (<[my_key +:+ "_raster_x_position" :=
           VArr (Detector.raster_x_position r)]>
      (<[my_key +:+ "_raster_position" :=
           VIntArr (Detector.raster_position r)]> my_dict)))).

(** The geometry that [rasterize] reads: the nodes of a myelinated fibre
    recorded in full, with the coordinates [x], and otherwise every index
    of [x_rec]. *)
Definition geometry_of (my_dict : gmap string pyval)
    (list_to_parse : list Z) (x : list Q) : Prop :=
  (my_dict !! "myelinated" = Some (VBool true) /\
   my_dict !! "rec" = Some (VStr "all") /\
   my_dict !! "node_index" = Some (VIntArr list_to_parse) /\
   my_dict !! "x" = Some (VArr x))
  \/
  (~ (my_dict !! "myelinated" = Some (VBool true) /\
      my_dict !! "rec" = Some (VStr "all")) /\
   my_dict !! "x_rec" = Some (VArr x) /\
   list_to_parse = np_arange (length x)).

(** ** Record clean-up *)

(** [remove_key(my_dict, key)]: [del my_dict[key]]. *)
Definition remove_key (my_dict : gmap string pyval) (key : string)
  : result (gmap string pyval) :=
  match my_dict !! key with
  | Some _ => Ok (delete key my_dict)
  | None => Raise (KeyError key)
  end.

(** ['V_mem' in key] *)
Definition names_V_mem (key : string) : bool :=
  match String.index 0 "V_mem" key with
  | Some _ => true
  | None => false
  end.

(** [remove_non_NoR_zones(my_dict, key)]: the warning raised, if any, and
    the record. *)
Definition remove_non_NoR_zones (my_dict : gmap string pyval) (key : string)
  : result (option string * gmap string pyval) :=
  if names_V_mem key then
    do axon_type <- get my_dict "Axon_type";
    match axon_type with
    | VStr "Myelinated" =>
        do nodes <- get_int_arr my_dict "Nodes_of_Ranvier_indexes";
        do new_entry <-
          map_result
            (fun i => do quantity <- get_mat my_dict key;
                      py_get key quantity i)
            nodes;
        Ok (None, <[key := VMat new_entry]> my_dict)
    | _ =>
        Ok (Some "Warning, remove_non_NoR_zones only applicable to Myelinated axons",
            my_dict)
    end
  else
    Ok (Some "Warning, remove_non_NoR_zones only applicable to membrane voltage or current",
        my_dict).

(** ** Spike train queries *)

Module Queries.

(** What a query returns: [False], or a pair of arrays. *)
Inductive query_result :=
| QFalse
| QFound (time x_position : ndarray).

(** [find_spike_origin(my_dict, my_key, t_start, t_stop, x_min, x_max)] *)
Definition find_spike_origin (my_dict : gmap string pyval)
    (my_key : option string) (t_start t_stop : Q) (x_min x_max : option Q)
  : result query_result :=
  do t_stop <- default_t_stop my_dict t_stop;
  match (match my_key with None => best_raster my_dict | Some k => Some k end)
  with
  | None => Ok QFalse
  | Some good_key_prefix =>
      do time <- get_arr my_dict (good_key_prefix +:+ "_time");
      let sup_indexes := np_where (map (fun v => Qgtb v t_start) time) in
      let inf_indexes := np_where (map (fun v => Qltb v t_stop) time) in
      let good_indexes := np_intersect1d sup_indexes inf_indexes in
      do good_spike_times <- np_take "time" time good_indexes;
      do x_position <- get_arr my_dict (good_key_prefix +:+ "_x_position");
      do good_spike_positions <- np_take "x_position" x_position good_indexes;
      let sup_xmin_indexes :=
        match x_min with
        | Some x_min =>
            np_where (map (fun v => Qgtb v x_min) good_spike_positions)
        | None => np_arange (length good_spike_positions)
        end in
      let inf_xmax_indexes :=
        match x_max with
        | Some x_max =>
            np_where (map (fun v => Qltb v x_max) good_spike_positions)
        | None => np_arange (length good_spike_positions)
        end in
      let good_x_indexes := np_intersect1d sup_xmin_indexes inf_xmax_indexes in
      do considered_spike_times <-
        np_take "time" good_spike_times good_x_indexes;
      do considered_spike_positions <-
        np_take "x_position" good_spike_positions good_x_indexes;
      do earliest <- np_amin considered_spike_times;
      let start_index :=
        np_where (map (fun v => Qeq_bool v earliest) considered_spike_times) in
      do start_time <- np_take "time" considered_spike_times start_index;
      do start_x_position <-
        np_take "x_position" considered_spike_positions start_index;
      Ok (QFound (Arr1 start_time) (Arr1 start_x_position))
  end.

(** The event [(time, x_position)] is strictly inside the time window and
    inside the coordinate bounds that are set. *)
Definition in_window (t_start t_stop : Q) (x_min x_max : option Q)
    (e : Q * Q) : bool :=
  (Qgtb (fst e) t_start && Qltb (fst e) t_stop) &&
  (match x_min with Some x_min => Qgtb (snd e) x_min | None => true end &&
   match x_max with Some x_max => Qltb (snd e) x_max | None => true end).

(** No event of [selected] is earlier than [e]. *)
Definition earliest_in (selected : list (Q * Q)) (e : Q * Q) : bool :=
  forallb (fun e' => Qle_bool (fst e) (fst e')) selected.

(** The events of the windows that have the minimum time, all of them. *)
Definition origin_events (t_start t_stop : Q) (x_min x_max : option Q)
    (events : list (Q * Q)) : list (Q * Q) :=
  let selected := List.filter (in_window t_start t_stop x_min x_max) events in
  List.filter (earliest_in selected) selected.

(** The events of one partition that carry its latest time. *)
Definition last_of (times positions : list Q)
  : result (list Z * list Q * list Q) :=
  do latest <- np_amax times;
  let last_spike_index := np_where (map (fun v => Qeq_bool v latest) times) in
  do t_last <- np_take "time" times last_spike_index;
  do x_last <- np_take "x_position" positions last_spike_index;
  Ok (last_spike_index, t_last, x_last).

(** [find_spike_last_occurance(my_dict, my_key, t_start, t_stop,
    direction, x_start)] *)
Definition find_spike_last_occurance (my_dict : gmap string pyval)
    (my_key : option string) (t_start t_stop : Q) (direction : string)
    (x_start : Q) : result query_result :=
  do t_stop <- default_t_stop my_dict t_stop;
  match (match my_key with None => best_raster my_dict | Some k => Some k end)
  with
  | None => Ok QFalse
  | Some good_key_prefix =>
      do start <-
        (if Qeq_bool x_start 0 then
           do origin <- find_spike_origin my_dict (Some good_key_prefix)
                          t_start t_stop None None;
           match origin with
           | QFound start_time start_x => Ok (start_time, start_x)
           | QFalse => Raise (TypeError "cannot unpack non-iterable bool")
           end
         else Ok (Scalar t_start, Scalar x_start));
      let t_start := fst start in
      let x_start := snd start in
      do time <- get_arr my_dict (good_key_prefix +:+ "_time");
      do sup_indexes <- np_where_cmp Qgtb time t_start;
      let inf_indexes := np_where (map (fun v => Qltb v t_stop) time) in
      let good_indexes := np_intersect1d sup_indexes inf_indexes in
      do considered_spike_times <- np_take "time" time good_indexes;
      do x_position <- get_arr my_dict (good_key_prefix +:+ "_x_position");
      do considered_spike_positions <-
        np_take "x_position" x_position good_indexes;
      if String.eqb direction "up" then
        do upper_spike_index <-
          np_where_cmp Qgtb considered_spike_positions x_start;
        do upper_spike_times <-
          np_take "time" considered_spike_times upper_spike_index;
        do upper_spike_positions <-
          np_take "x_position" considered_spike_positions upper_spike_index;
        do last <- last_of upper_spike_times upper_spike_positions;
        Ok (QFound (Arr1 (snd (fst last))) (Arr1 (snd last)))
      else if String.eqb direction "down" then
        do lower_spike_index <-
          np_where_cmp Qltb considered_spike_positions x_start;
        do lower_spike_times <-
          np_take "time" considered_spike_times lower_spike_index;
        do lower_spike_positions <-
          np_take "x_position" considered_spike_positions lower_spike_index;
        do last <- last_of lower_spike_times lower_spike_positions;
        Ok (QFound (Arr1 (snd (fst last))) (Arr1 (snd last)))
      else
        do upper_spike_index <-
          np_where_cmp Qgtb considered_spike_positions x_start;
        do upper_spike_times <-
          np_take "time" considered_spike_times upper_spike_index;
        do upper_spike_positions <-
          np_take "x_position" considered_spike_positions upper_spike_index;
        do lower_spike_index <-
          np_where_cmp Qltb considered_spike_positions x_start;
        do lower_spike_times <-
          np_take "time" considered_spike_times lower_spike_index;
        do lower_spike_positions <-
          np_take "x_position" considered_spike_positions lower_spike_index;
        do latest_upper <- np_amax upper_spike_times;
        let last_upper_spike_index :=
          np_where (map (fun v => Qeq_bool v latest_upper) upper_spike_times)
        in
        do latest_lower <- np_amax lower_spike_times;
        let last_lower_spike_index :=
          np_where (map (fun v => Qeq_bool v latest_lower) lower_spike_times)
        in
        (* t_last = np.asarray([a[0], b][0]), the list being built first *)
        do a <- np_take "time" lower_spike_times last_lower_spike_index;
        do a0 <- py_get "time" a 0;
        do b <- np_take "time" lower_spike_times last_upper_spike_index;
        let t_last := Scalar a0 in
        do c <- np_take "x_position" lower_spike_positions
                  last_lower_spike_index;
        do c0 <- py_get "x_position" c 0;
        do d <- np_take "x_position" lower_spike_positions
                  last_upper_spike_index;
        let x_last := Scalar c0 in
        Ok (QFound t_last x_last)
  end.

(** No event of [selected] is later than [e]. *)
Definition latest_in (selected : list (Q * Q)) (e : Q * Q) : bool :=
  forallb (fun e' => Qle_bool (fst e') (fst e)) selected.

(** The events strictly inside the time window, on the side of [x_start]
    that [side] tests, that have the maximum time, all of them. *)
Definition last_events (side : Q -> Q -> bool) (t_start t_stop x_start : Q)
    (events : list (Q * Q)) : list (Q * Q) :=
  let selected :=
    List.filter
      (fun e => (Qgtb (fst e) t_start && Qltb (fst e) t_stop)
                && side (snd e) x_start)
      events in
  List.filter (latest_in selected) selected.

End Queries.

(** ** Conduction metrics *)

Module Metrics.

(** What [speed] returns: [False], or a float. *)
Inductive speed_result :=
| SFalse
| SVal (v : npfloat).

(** [speed(my_dict, position_key, t_start, t_stop, x_start, x_stop)] *)
Definition speed (my_dict : gmap string pyval) (position_key : option string)
    (t_start t_stop x_start x_stop : Q) : result speed_result :=
  do t_stop <- default_t_stop my_dict t_stop;
  do t_start <- default_t_start my_dict t_start;
  do window <-
    (if Qeq_bool x_start 0 then
       do L <- get_float my_dict "L"; Ok (x_start, L)
     else if Qeq_bool x_stop 0 then
       do L <- get_float my_dict "L"; Ok (L, x_stop)
     else Ok (x_start, x_stop));
  let x_start := fst window in
  let x_stop := snd window in
  match position_key with
  | Some _ => Raise (NameError "my_key")
  | None =>
      match best_raster my_dict with
      | None => Ok SFalse
      | Some good_key_prefix =>
          do time <- get_arr my_dict (good_key_prefix +:+ "_time");
          let sup_time_indexes :=
            np_where (map (fun v => Qgtb v t_start) time) in
          let inf_time_indexes :=
            np_where (map (fun v => Qltb v t_stop) time) in
          let good_indexes_time :=
            np_intersect1d sup_time_indexes inf_time_indexes in
          do x_position <-
            get_arr my_dict (good_key_prefix +:+ "_x_position");
          do in_time <- np_take "x_position" x_position good_indexes_time;
          let sup_position_indexes :=
            np_where (map (fun v => Qgeb v x_start) in_time) in
          let inf_position_indexes :=
            np_where (map (fun v => Qle_bool v x_stop) in_time) in
          let good_indexes_position :=
            np_intersect1d sup_position_indexes inf_position_indexes in
          let good_indexes :=
            np_intersect1d good_indexes_position good_indexes_time in
          do good_spike_times <- np_take "time" time good_indexes;
          do good_spike_positions <-
            np_take "x_position" x_position good_indexes;
          do max_time <- np_argmax good_spike_times;
          do min_time <- np_argmin good_spike_times;
          do x_max <- py_get "x_position" good_spike_positions max_time;
          do x_min <- py_get "x_position" good_spike_positions min_time;
          do t_max <- py_get "time" good_spike_times max_time;
          do t_min <- py_get "time" good_spike_times min_time;
          Ok (SVal (np_div ((x_max - x_min) * (1 # 1000)) (t_max - t_min)))
      end
  end.

(** The events inside the time window and inside the coordinate window,
    as the description of [speed] selects them. *)
Definition in_both_windows (t_start t_stop x_start x_stop : Q)
    (e : Q * Q) : bool :=
  Qgtb (fst e) t_start && Qltb (fst e) t_stop &&
  Qgeb (snd e) x_start && Qle_bool (snd e) x_stop.

(** The velocity between the earliest and the latest of [events]. *)
Definition velocity_of (events : list (Q * Q)) : result speed_result :=
  do max_time <- np_argmax (map fst events);
  do min_time <- np_argmin (map fst events);
  do e_max <- py_get "events" events max_time;
  do e_min <- py_get "events" events min_time;
  Ok (SVal (np_div ((snd e_max - snd e_min) * (1 # 1000))
                   (fst e_max - fst e_min))).

(** The coordinate window that [speed] uses: [x_start = 0] stands for the
    whole fibre, whatever [x_stop]; otherwise [x_stop = 0] moves the start
    to [L]. *)
Definition coordinate_window (L x_start x_stop : Q) : Q * Q :=
  if Qeq_bool x_start 0 then (x_start, L)
  else if Qeq_bool x_stop 0 then (L, x_stop)
  else (x_start, x_stop).

(** [v] is a time strictly inside the time window. *)
Definition in_time_window (t_start t_stop v : Q) : bool :=
  Qgtb v t_start && Qltb v t_stop.

(** Fewer than two distinct event times fall inside the time window. *)
Definition at_most_one_time (t_start t_stop : Q) (time : list Q) : Prop :=
  forall v w : Q,
    In v time -> In w time ->
    in_time_window t_start t_stop v = true ->
    in_time_window t_start t_stop w = true ->
    (v == w)%Q.

(** [speed] returns a float, that is, neither [False] nor an exception. *)
Definition computes_a_float (r : result speed_result) : Prop :=
  exists v, r = Ok (SVal v).

(** [block(my_dict, position_key, t_start, t_stop)]: [Some b] is the
    boolean [b], [None] is Python's [None]. *)
Definition block (my_dict : gmap string pyval) (position_key : option string)
    (t_start t_stop : Q) : result (option bool) :=
  do t_stop <- default_t_stop my_dict t_stop;
  do t_start <- default_t_start my_dict t_start;
  match position_key with
  | Some _ => Raise (NameError "good_key_prefix")
  | None =>
      match best_raster my_dict with
      | None => Ok (Some false)
      | Some good_key_prefix =>
          do time <- get_arr my_dict (good_key_prefix +:+ "_time");
          let sup_time_indexes :=
            np_where (map (fun v => Qgtb v t_start) time) in
          let inf_time_indexes :=
            np_where (map (fun v => Qltb v t_stop) time) in
          let good_indexes_time :=
            np_intersect1d sup_time_indexes inf_time_indexes in
          do good_spike_times <- np_take "time" time good_indexes_time;
          do x_position <-
            get_arr my_dict (good_key_prefix +:+ "_x_position");
          do blocked_spike_positionlist <-
            np_take "x_position" x_position good_indexes_time;
          do is_empty <- np_truth (np_eq_list blocked_spike_positionlist []);
          if is_empty then Ok None
          else
            match my_dict !! "intra_stim_positions" with
            | None => Ok None
            | Some _ =>
                do stim <- get_float my_dict "intra_stim_positions";
                do electrode <- get_float my_dict "extracellular_electrode_x";
                if Qltb stim electrode then
                  do furthest <- py_max blocked_spike_positionlist;
                  do L <- get_float my_dict "L";
                  Ok (Some (Qltb furthest (9 / 10 * L)))
                else
                  do nearest <- py_min blocked_spike_positionlist;
                  do L <- get_float my_dict "L";
                  Ok (Some (Qgtb nearest (1 / 10 * L)))
            end
      end
  end.

End Metrics.

(** The fields that the queries and metrics read when no key is given. *)
Definition query_fields : list string :=
  ["tstop"; "intra_stim_starts"; "L"; "intra_stim_positions";
   "extracellular_electrode_x";
   "V_mem_filtered_raster_position"; "V_mem_filtered_raster_time";
   "V_mem_filtered_raster_x_position";
   "V_mem_raster_position"; "V_mem_raster_time"; "V_mem_raster_x_position"].

(** The loop on [k] read as a traversal of the rows: [body k row] for the
    row of index [k], from the index [k] on. *)
Fixpoint rows_from {B} (body : Z -> list Q -> result B) (k : Z)
    (sig : list (list Q)) : result (list B) :=
  match sig with
  | [] => Ok []
  | row :: sig' =>
      do new <- body k row;
      do rest <- rows_from body (k + 1) sig';
      Ok (new :: rest)
  end.

(** ** Notch filter stage *)

Module Filter.

(** [freq] is one frequency or a sequence of frequencies. *)
Inductive freq_arg :=
| FreqScalar (f : Q)
| FreqSeq (fs : list Q).

Section Scipy.

(** The two SciPy functions the stage calls: [signal.iirnotch(w0, Q, fs)]
    gives the coefficients [(b, a)] of the notch, and
    [signal.lfilter(b, a, x)] runs the filter on the signal [x]. *)
Variable coeffs : Type.
Variable iirnotch : Q -> Q -> Q -> result coeffs.
Variable lfilter : coeffs -> ndarray -> result ndarray.

(** [new_sig[k,:] = value] on a row of [n] samples. *)
Definition assign_row (n : nat) (value : ndarray) : result (list Q) :=
  match value with
  | Scalar q => Ok (repeat q n)
  | Arr1 [q] => Ok (repeat q n)
  | Arr1 a =>
      if (length a =? n)%nat then Ok a
      else Raise (ValueError "could not broadcast input array")
  end.

(** The body of the loop on [f], in the branch of a sequence of
    frequencies, for the row [k]. *)
Definition notch_step (Q_factor fs : Q) (k : Z) (row : list Q) (f : Q)
  : result (list Q) :=
  do c <- iirnotch f Q_factor fs;
  do sample <- py_get "new_sig" row k;
  do y <- lfilter c (Scalar sample);
  assign_row (length row) y.

(** [filter_freq(my_dict, my_key, freq, Q)]: the returned value ([False]
    or [None]) and the record. *)
Definition filter_freq (my_dict : gmap string pyval) (my_key : string)
    (freq : freq_arg) (Q_factor : Q)
  : result (option bool * gmap string pyval) :=
  do dt <- get_float my_dict "dt";
  if Qeq_bool dt 0 then Ok (Some false, my_dict)
  else
    let fs := (1 / dt)%Q in
    do new_sig <-
      (match freq with
       | FreqSeq f0 =>
           do sig <- get_mat my_dict my_key;
           map_result
             (fun k => do row <- py_get my_key sig k;
                       for_each f0 (notch_step Q_factor fs k) row)
             (py_range 0 (Z.of_nat (length sig)))
       | FreqScalar f0 =>
           do c <- iirnotch f0 Q_factor fs;
           do sig <- get_mat my_dict my_key;
           map_result
             (fun k => do row <- py_get my_key sig k;
                       do y <- lfilter c (Arr1 row);
                       assign_row (length row) y)
             (py_range 0 (Z.of_nat (length sig)))
       end);
    Ok (None, <[my_key +:+ "_filtered" := VMat new_sig]> my_dict).

(** The stage as described: every notch runs on the whole row that the
    previous one produced. *)
Definition notch_step_full_row (Q_factor fs : Q) (row : list Q) (f : Q)
  : result (list Q) :=
  do c <- iirnotch f Q_factor fs;
  do y <- lfilter c (Arr1 row);
  assign_row (length row) y.

End Scipy.

End Filter.

(** * Properties *)

(** ** Generic facts *)

Lemma py_range_nil (a b : Z) : (b <= a)%Z -> py_range a b = [].
Proof.
  intros H. unfold py_range.
  replace (Z.to_nat (b - a)) with 0%nat by lia. reflexivity.
Qed.

Lemma py_range_cons (a b : Z) :
  (a < b)%Z -> py_range a b = a :: py_range (a + 1) b.
Proof.
  intros H. unfold py_range.
  replace (Z.to_nat (b - a)) with (S (Z.to_nat (b - (a + 1)))) by lia.
  cbn [seq map]. f_equal; [lia|].
  rewrite <- seq_shift, map_map. apply map_ext. intros k. lia.
Qed.

Lemma Qltb_lt (a b : Q) : Qltb a b = true <-> (a < b)%Q.
Proof.
  unfold Qltb. rewrite Qlt_alt. destruct (a ?= b)%Q; split; congruence.
Qed.

Lemma Qltb_ge (a b : Q) : Qltb a b = false <-> (b <= a)%Q.
Proof.
  rewrite <- not_true_iff_false, Qltb_lt. split.
  - apply Qnot_lt_le.
  - apply Qle_not_lt.
Qed.

Lemma Qgeb_le (a b : Q) : Qgeb a b = true <-> (b <= a)%Q.
Proof. apply Qle_bool_iff. Qed.

Lemma bind_Ok {A B} (m : result A) (k : A -> result B) (b : B) :
  bind m k = Ok b -> exists a, m = Ok a /\ k a = Ok b.
Proof. destruct m; cbn; intros H; [eauto | discriminate]. Qed.


Lemma py_get_in_range {A} (what : string) (l : list A) (k : Z) :
  (0 <= k < Z.of_nat (length l))%Z -> exists a, py_get what l k = Ok a.
Proof.
  intros H. unfold py_get.
  destruct (Z.ltb_spec k 0); [lia|].
  destruct (Z.leb_spec 0 k); [|lia].
  destruct (Z.ltb_spec k (Z.of_nat (length l))); [|lia]. cbn.
  destruct (nth_error l (Z.to_nat k)) eqn:E; [eauto|].
  apply nth_error_None in E. lia.
Qed.

Lemma py_get_nth {A} (what : string) (l : list A) (k : Z) (a : A) :
  (0 <= k)%Z -> py_get what l k = Ok a -> nth_error l (Z.to_nat k) = Some a.
Proof.
  intros Hk. unfold py_get.
  destruct (Z.ltb_spec k 0); [lia|].
  destruct (_ && _); [|discriminate].
  destruct (nth_error l (Z.to_nat k)); congruence.
Qed.

Lemma py_get_above {A} (what : string) (l : list A) (k : Z) :
  (Z.of_nat (length l) <= k)%Z -> py_get what l k = Raise (IndexError what).
Proof.
  intros H. unfold py_get.
  destruct (Z.ltb_spec k 0); [lia|].
  destruct (Z.ltb_spec k (Z.of_nat (length l))); [lia|].
  now rewrite andb_false_r.
Qed.

Lemma py_get_raise {A} (what : string) (l : list A) (k : Z) (e : exn) :
  py_get what l k = Raise e -> e = IndexError what.
Proof.
  unfold py_get. destruct (_ && _); [|congruence].
  destruct (nth_error l _); congruence.
Qed.

Lemma py_int_nonneg (q : Q) : (0 <= q)%Q -> (0 <= py_int q)%Z.
Proof.
  destruct q as [n d]. unfold Qle, py_int; cbn. intros H.
  apply Z.quot_pos; lia.
Qed.

Lemma for_each_no_raise {A S} (e : exn) (I : A -> Prop)
      (body : S -> A -> result S) :
  (forall st a, I a -> body st a <> Raise e) ->
  forall (l : list A) (st : S),
    Forall I l -> for_each l body st <> Raise e.
Proof.
  intros Hbody l. induction l as [|a l IH]; intros st HI; [discriminate|].
  inversion HI as [|? ? Ha Hl]; subst.
  cbn. destruct (body st a) eqn:E; cbn.
  - now apply IH.
  - intros [= ->]. now apply (Hbody st a).
Qed.

Lemma py_range_bounds (a b : Z) :
  Forall (fun j => (a <= j < b)%Z) (py_range a b).
Proof.
  unfold py_range. apply List.Forall_forall. intros j Hin.
  apply in_map_iff in Hin as (k & <- & Hk). apply in_seq in Hk. lia.
Qed.

Lemma py_get_nat {A} (what : string) (l : list A) (i : nat) (d : A) :
  (i < length l)%nat -> py_get what l (Z.of_nat i) = Ok (nth i l d).
Proof.
  intros H. unfold py_get.
  destruct (Z.ltb_spec (Z.of_nat i) 0); [lia|].
  destruct (Z.leb_spec 0 (Z.of_nat i)); [|lia].
  destruct (Z.ltb_spec (Z.of_nat i) (Z.of_nat (length l))); [|lia]. cbn.
  rewrite Nat2Z.id. now rewrite (nth_error_nth' l d H).
Qed.

Lemma py_range_nat (n : nat) :
  py_range 0 (Z.of_nat n) = map Z.of_nat (seq 0 n).
Proof.
  unfold py_range. rewrite Z.sub_0_r, Nat2Z.id. reflexivity.
Qed.

(** ** Index arrays *)

Lemma where_from_ge (mask : list bool) :
  forall (k x : Z), In x (where_from k mask) -> (k <= x)%Z.
Proof.
  induction mask as [|b mask IH]; intros k x Hin; [contradiction|].
  cbn in Hin. destruct b; [destruct Hin as [<-|Hin]; [lia|]|];
    apply IH in Hin; lia.
Qed.

Lemma where_from_sorted (mask : list bool) :
  forall k : Z, StronglySorted Z.lt (where_from k mask).
Proof.
  induction mask as [|b mask IH]; intros k; [constructor|].
  cbn. destruct b; [|apply IH].
  constructor; [apply IH|].
  apply List.Forall_forall. intros x Hin. apply where_from_ge in Hin. lia.
Qed.

Lemma np_unique_sorted (l : list Z) :
  StronglySorted Z.lt l -> np_unique l = l.
Proof.
  unfold np_unique. induction 1 as [|h l Hs IH Hh]; [reflexivity|].
  cbn [fold_right]. rewrite IH. destruct Hh as [|h' l Hlt _]; [reflexivity|].
  cbn. now destruct (Z.ltb_spec h h'); [|lia].
Qed.

Lemma existsb_eqb_In (x : Z) (l : list Z) :
  existsb (Z.eqb x) l = true <-> In x l.
Proof.
  rewrite existsb_exists. split.
  - intros (y & Hin & E). apply Z.eqb_eq in E. now subst.
  - intros Hin. exists x. split; [assumption|apply Z.eqb_refl].
Qed.

Lemma existsb_eqb_above (x k : Z) (mask : list bool) :
  (x < k)%Z -> existsb (Z.eqb x) (where_from k mask) = false.
Proof.
  intros H. apply not_true_iff_false. rewrite existsb_eqb_In.
  intros Hin. apply where_from_ge in Hin. lia.
Qed.

Lemma filter_member_skip (k : Z) (mask : list bool) (l : list Z) :
  List.filter (fun x => existsb (Z.eqb x) (k :: l))
              (where_from (k + 1) mask)
  = List.filter (fun x => existsb (Z.eqb x) l) (where_from (k + 1) mask).
Proof.
  apply filter_ext_in. intros x Hin. apply where_from_ge in Hin. cbn.
  now destruct (Z.eqb_spec x k); [lia|].
Qed.

Lemma intersect_where {A} (p1 p2 : A -> bool) (es : list A) (k : Z) :
  np_intersect1d (where_from k (map p1 es)) (where_from k (map p2 es))
  = where_from k (map (fun e => p1 e && p2 e) es).
Proof.
  unfold np_intersect1d.
  rewrite !np_unique_sorted by apply where_from_sorted.
  revert k. induction es as [|e es IH]; intros k; [reflexivity|].
  cbn [map where_from].
  destruct (p1 e), (p2 e); cbn [andb List.filter].
  - replace (existsb (Z.eqb k) (k :: where_from (k + 1) (map p2 es)))
      with true by (symmetry; apply existsb_eqb_In; now left).
    f_equal. rewrite filter_member_skip. apply IH.
  - rewrite existsb_eqb_above by lia. apply IH.
  - rewrite filter_member_skip. apply IH.
  - apply IH.
Qed.

Lemma where_from_all {A} (es : list A) :
  forall k : Z,
    where_from k (map (fun _ => true) es)
    = map (fun i => (k + Z.of_nat i)%Z) (seq 0 (length es)).
Proof.
  induction es as [|e es IH]; intros k; [reflexivity|].
  cbn [map where_from length seq]. f_equal; [lia|].
  rewrite IH, <- seq_shift, map_map. apply map_ext. intros i. lia.
Qed.

Lemma arange_where {A} (es : list A) :
  np_arange (length es) = np_where (map (fun _ => true) es).
Proof.
  unfold np_arange, np_where, py_range. rewrite where_from_all.
  now rewrite Z.sub_0_r, Nat2Z.id.
Qed.

Lemma take_where_from {A B} (what : string) (f : A -> B) (p : A -> bool)
      (es : list A) :
  forall pre : list A,
    np_take what (map f (pre ++ es))
            (where_from (Z.of_nat (length pre)) (map p es))
    = Ok (map f (List.filter p es)).
Proof.
  unfold np_take. induction es as [|e es IH]; intros pre; [reflexivity|].
  cbn [map where_from List.filter].
  assert (where_from (Z.of_nat (length pre) + 1) (map p es)
          = where_from (Z.of_nat (length (pre ++ [e]))) (map p es)) as Ek.
  { f_equal. rewrite length_app. cbn. lia. }
  assert (map f (pre ++ e :: es) = map f ((pre ++ [e]) ++ es)) as El.
  { now rewrite <- app_assoc. }
  assert (py_get what (map f (pre ++ e :: es)) (Z.of_nat (length pre))
          = Ok (f e)) as Eg.
  { rewrite (py_get_nat what _ _ (f e))
      by (rewrite length_map, length_app; cbn; lia).
    rewrite map_app, app_nth2 by (rewrite length_map; lia).
    now rewrite length_map, Nat.sub_diag. }
  destruct (p e).
  - cbn [map_result]. rewrite Eg. cbn [bind].
    rewrite Ek, El, IH. reflexivity.
  - rewrite Ek, El. apply IH.
Qed.

Lemma take_where {A B} (what : string) (f : A -> B) (p : A -> bool)
      (es : list A) :
  np_take what (map f es) (np_where (map p es))
  = Ok (map f (List.filter p es)).
Proof. exact (take_where_from what f p es []). Qed.

Lemma insert_unique_In (k x : Z) (l : list Z) :
  In x (insert_unique k l) <-> x = k \/ In x l.
Proof.
  induction l as [|h l IH]; cbn.
  - intuition.
  - destruct (Z.ltb_spec k h); [cbn; intuition|].
    destruct (Z.eqb_spec k h); cbn; [subst; intuition|].
    rewrite IH. intuition.
Qed.

Lemma np_unique_In (x : Z) (l : list Z) : In x (np_unique l) <-> In x l.
Proof.
  unfold np_unique. induction l as [|h l IH]; [reflexivity|].
  cbn [fold_right]. rewrite insert_unique_In, IH. cbn. intuition.
Qed.

Lemma intersect_In (a b : list Z) (x : Z) :
  In x (np_intersect1d a b) -> In x a /\ In x b.
Proof.
  unfold np_intersect1d. rewrite filter_In, existsb_eqb_In, !np_unique_In.
  tauto.
Qed.

Lemma where_from_In {A} (p : A -> bool) (d : A) (es : list A) :
  forall (k x : Z),
    In x (where_from k (map p es)) ->
    (k <= x < k + Z.of_nat (length es))%Z /\
    p (nth (Z.to_nat (x - k)) es d) = true.
Proof.
  induction es as [|e es IH]; intros k x Hin; [contradiction|].
  cbn [map where_from] in Hin.
  assert (In x (where_from (k + 1) (map p es)) ->
          (k <= x < k + Z.of_nat (length (e :: es)))%Z /\
          p (nth (Z.to_nat (x - k)) (e :: es) d) = true) as Hrec.
  { intros H. apply IH in H as [Hr Hp]. split; [cbn [length]; lia|].
    replace (Z.to_nat (x - k)) with (S (Z.to_nat (x - (k + 1)))) by lia.
    exact Hp. }
  destruct (p e) eqn:Ep; [destruct Hin as [<-|Hin]|]; auto.
  split; [cbn [length]; lia|]. now rewrite Z.sub_diag.
Qed.

Lemma np_take_valid {A} (what : string) (d : A) (l : list A) (idx : list Z) :
  (forall k, In k idx -> (0 <= k < Z.of_nat (length l))%Z) ->
  np_take what l idx = Ok (map (fun k => nth (Z.to_nat k) l d) idx).
Proof.
  unfold np_take. induction idx as [|k idx IH]; intros H; [reflexivity|].
  cbn [map_result map].
  pose proof (H k (or_introl eq_refl)) as Hk.
  rewrite <- (Z2Nat.id k) at 1 by lia.
  rewrite (py_get_nat what l _ d) by lia. cbn [bind].
  rewrite IH; [reflexivity|]. intros k' Hin. apply H. now right.
Qed.

Lemma argmax_from_ties {best : Q} {a : list Q} :
  Forall (fun v => (v == best)%Q) a ->
  forall best_i i : Z, argmax_from best_i best i a = best_i.
Proof.
  induction 1 as [|v a Hv _ IH]; intros best_i i; [reflexivity|].
  cbn. assert (Qltb best v = false) as ->; [|apply IH].
  apply Qltb_ge. rewrite Hv. apply Qle_refl.
Qed.

Lemma argmin_from_ties {best : Q} {a : list Q} :
  Forall (fun v => (v == best)%Q) a ->
  forall best_i i : Z, argmin_from best_i best i a = best_i.
Proof.
  induction 1 as [|v a Hv _ IH]; intros best_i i; [reflexivity|].
  cbn. assert (Qltb v best = false) as ->; [|apply IH].
  apply Qltb_ge. rewrite Hv. apply Qle_refl.
Qed.

(** ** Spike counter *)

Lemma Qmin_list_le (l : list Q) :
  forall (a v : Q), In v (a :: l) -> (Qmin_list a l <= v)%Q.
Proof.
  unfold Qmin_list. induction l as [|w l IH]; intros a v Hin.
  - destruct Hin as [<-|[]]. apply Qle_refl.
  - cbn [fold_left].
    pose proof (IH (if Qltb w a then w else a) _ (or_introl eq_refl)) as Hm.
    destruct Hin as [<-|[<-|Hin]].
    + eapply Qle_trans; [exact Hm|].
      destruct (Qltb w a) eqn:E; [|apply Qle_refl].
      apply Qltb_lt in E. now apply Qlt_le_weak.
    + eapply Qle_trans; [exact Hm|].
      destruct (Qltb w a) eqn:E; [apply Qle_refl|]. now apply Qltb_ge in E.
    + apply IH. now right.
Qed.

Lemma Qmin_list_In (l : list Q) :
  forall a : Q, In (Qmin_list a l) (a :: l).
Proof.
  unfold Qmin_list. induction l as [|w l IH]; intros a.
  - now left.
  - cbn [fold_left].
    destruct (IH (if Qltb w a then w else a)) as [E|Hin].
    + rewrite <- E. destruct (Qltb w a); [right; now left|now left].
    + right. now right.
Qed.

Lemma is_minimum_Qmin_list {lowest a : Q} {l : list Q} :
  Counter.is_minimum lowest (a :: l) -> (Qmin_list a l == lowest)%Q.
Proof.
  intros [(v & Hv & Ev) Hle]. apply Qle_antisym.
  - rewrite <- Ev. now apply Qmin_list_le.
  - apply Hle, Qmin_list_In.
Qed.

Lemma Qeq_bool_compat_r (a b c : Q) :
  (b == c)%Q -> Qeq_bool a b = Qeq_bool a c.
Proof.
  intros E. destruct (Qeq_bool a c) eqn:H.
  - apply Qeq_bool_iff. apply Qeq_bool_iff in H. now rewrite E.
  - apply not_true_iff_false. rewrite Qeq_bool_iff. intros H'.
    apply not_true_iff_false in H. apply H, Qeq_bool_iff. now rewrite <- E.
Qed.

Lemma count_loop {lowest a : Q} {l : list Q} :
  Counter.is_minimum lowest (a :: l) ->
  forall (n s : nat) (acc : Z),
    (s + n < length (a :: l))%nat ->
    for_each (map Z.of_nat (seq s n)) (Counter.count_step (a :: l)) acc
    = Ok (acc + Z.of_nat
            (length
               (List.filter
                  (fun i => Qeq_bool (nth i (a :: l) 0%Q) lowest
                            && Qeq_bool (nth i (a :: l) 0%Q)
                                        (nth (S i) (a :: l) 0%Q))
                  (seq s n))))%Z.
Proof.
  intros Hmin. induction n as [|n IH]; intros s acc Hs.
  - cbn. f_equal. lia.
  - cbn [seq map for_each List.filter]. unfold Counter.count_step at 1.
    rewrite (py_get_nat _ _ _ 0%Q) by lia.
    cbn [bind py_min].
    rewrite (Qeq_bool_compat_r _ _ _ (is_minimum_Qmin_list Hmin)).
    replace (Z.of_nat s + 1)%Z with (Z.of_nat (S s)) by lia.
    rewrite (py_get_nat _ _ _ 0%Q) by lia. cbn [bind].
    destruct (Qeq_bool (nth s (a :: l) 0%Q) lowest); cbn [andb];
      [destruct (Qeq_bool (nth s (a :: l) 0%Q) (nth (S s) (a :: l) 0%Q))|];
      cbn [bind]; rewrite IH by lia; cbn [length]; f_equal; lia.
Qed.

(** C9: [count_spike] returns 0 on the empty list; on a non-empty list it
    returns 1 plus the number of indices [i < len - 1] at which
    [onset_position[i]] equals the minimum of the list and
    [onset_position[i] == onset_position[i+1]]. *)
Theorem count_spike_counts :
  Counter.count_spike [] = Ok 0%Z /\
  forall (onset_position : list Q) (lowest : Q),
    onset_position <> [] ->
    Counter.is_minimum lowest onset_position ->
    Counter.count_spike onset_position
    = Ok (1 + Z.of_nat (Counter.repeats_of lowest onset_position))%Z.
Proof.
  split; [reflexivity|].
  intros [|a l] lowest Hne Hmin; [congruence|].
  unfold Counter.count_spike, Counter.repeats_of.
  cbn [length Nat.eqb].
  replace (Z.of_nat (S (length l)) - 1)%Z with (Z.of_nat (length l)) by lia.
  rewrite py_range_nat, (count_loop Hmin) by (cbn; lia).
  cbn [length]. now rewrite Nat.sub_1_r.
Qed.

(** C9 on a list whose minimum 1 is repeated at the indices 1, 4 and 5. *)
Lemma count_spike_counts_witness :
  Counter.count_spike [3; 1; 1; 2; 1; 1; 1]%Q = Ok 4%Z.
Proof.
  apply (proj2 count_spike_counts [3; 1; 1; 2; 1; 1; 1]%Q 1%Q).
  - discriminate.
  - split.
    + exists 1%Q. split; [simpl; tauto|reflexivity].
    + intros v Hin. simpl in Hin.
      decompose [or] Hin; subst; try contradiction;
        unfold Qle; simpl; lia.
Defined.

(** ** Origin query *)

Lemma map_fst_combine {A B} (l : list A) (l' : list B) :
  length l = length l' -> map fst (combine l l') = l.
Proof.
  revert l'. induction l as [|a l IH]; intros [|b l'] H; try discriminate;
    [reflexivity|]. cbn. f_equal. apply IH. now injection H.
Qed.

Lemma map_snd_combine {A B} (l : list A) (l' : list B) :
  length l = length l' -> map snd (combine l l') = l'.
Proof.
  revert l'. induction l as [|a l IH]; intros [|b l'] H; try discriminate;
    [reflexivity|]. cbn. f_equal. apply IH. now injection H.
Qed.

Lemma filter_twice {A} (f g : A -> bool) (l : list A) :
  List.filter g (List.filter f l) = List.filter (fun a => f a && g a) l.
Proof.
  induction l as [|a l IH]; [reflexivity|]. cbn.
  destruct (f a); cbn; [destruct (g a)|]; now rewrite IH.
Qed.

Lemma intersect_np_where {A} (p1 p2 : A -> bool) (es : list A) :
  np_intersect1d (np_where (map p1 es)) (np_where (map p2 es))
  = np_where (map (fun e => p1 e && p2 e) es).
Proof. apply intersect_where. Qed.

Lemma earliest_is_minimum (e0 e : Q * Q) (rest : list (Q * Q)) :
  In e (e0 :: rest) ->
  Qeq_bool (fst e) (Qmin_list (fst e0) (map fst rest))
  = Queries.earliest_in (e0 :: rest) e.
Proof.
  intros Hin. apply eq_true_iff_eq.
  unfold Queries.earliest_in. rewrite Qeq_bool_iff, forallb_forall.
  change (fst e0 :: map fst rest) with (map fst (e0 :: rest)) in *.
  split.
  - intros E e' Hin'. apply Qle_bool_iff. rewrite E.
    apply Qmin_list_le. change (In (fst e') (map fst (e0 :: rest))).
    now apply in_map.
  - intros Hall. apply Qle_antisym.
    + pose proof (Qmin_list_In (map fst rest) (fst e0)) as Hm.
      change (In (Qmin_list (fst e0) (map fst rest)) (map fst (e0 :: rest)))
        in Hm.
      apply in_map_iff in Hm as (e' & <- & Hin').
      apply Qle_bool_iff. now apply Hall.
    + apply Qmin_list_le. change (In (fst e) (map fst (e0 :: rest))).
      now apply in_map.
Qed.

Lemma earliest_exists (e0 : Q * Q) (rest : list (Q * Q)) :
  List.filter (Queries.earliest_in (e0 :: rest)) (e0 :: rest) <> [].
Proof.
  pose proof (Qmin_list_In (map fst rest) (fst e0)) as Hm.
  change (In (Qmin_list (fst e0) (map fst rest)) (map fst (e0 :: rest))) in Hm.
  apply in_map_iff in Hm as (e & E & Hin).
  assert (In e (List.filter (Queries.earliest_in (e0 :: rest)) (e0 :: rest)))
    as Hf.
  { apply filter_In. split; [assumption|].
    rewrite <- (earliest_is_minimum e0 e rest Hin), E.
    apply Qeq_bool_iff. reflexivity. }
  intros E'. rewrite E' in Hf. contradiction.
Qed.

Lemma position_mask {A} (f : A -> Q) (test : Q -> Q -> bool)
      (bound : option Q) (es : list A) :
  match bound with
  | Some b => np_where (map (fun v => test v b) (map f es))
  | None => np_arange (length (map f es))
  end
  = np_where
      (map (fun e => match bound with Some b => test (f e) b | None => true end)
           es).
Proof.
  destruct bound; [now rewrite map_map|].
  now rewrite length_map, arange_where.
Qed.

(** C3: on a raster whose time and coordinate sequences have the same
    length, the origin query returns exactly the events that are strictly
    inside the time window ([t_stop = 0] standing for [tstop]) and strictly
    inside the coordinate bounds that are set, and whose time is the
    minimum over these events: all of them when several tie, in raster
    order, with their coordinates.  When no event is in the windows there
    is no minimum and [np.amin] raises. *)
Theorem find_spike_origin_earliest
    (my_dict : gmap string pyval) (my_key : option string) (prefix : string)
    (time x_position : list Q) (tstop t_start t_stop : Q)
    (x_min x_max : option Q) :
  match my_key with None => best_raster my_dict | Some k => Some k end
  = Some prefix ->
  my_dict !! (prefix +:+ "_time") = Some (VArr time) ->
  my_dict !! (prefix +:+ "_x_position") = Some (VArr x_position) ->
  length time = length x_position ->
  my_dict !! "tstop" = Some (VFloat tstop) ->
  Queries.find_spike_origin my_dict my_key t_start t_stop x_min x_max
  = match
      Queries.origin_events t_start
        (if Qeq_bool t_stop 0 then tstop else t_stop) x_min x_max
        (combine time x_position)
    with
    | [] => Raise (ValueError "zero-size array to reduction operation")
    | found =>
        Ok (Queries.QFound (Arr1 (map fst found)) (Arr1 (map snd found)))
    end.
Proof.
  intros Hp Ht Hx Hlen Htstop.
  pose proof (map_fst_combine _ _ Hlen) as Ef.
  pose proof (map_snd_combine _ _ Hlen) as Es.
  set (es := combine time x_position) in *. clearbody es. subst time x_position.
  unfold Queries.find_spike_origin, default_t_stop, get_float, get_arr, get.
  rewrite Hp, Htstop.
  destruct (Qeq_bool t_stop 0); cbn [bind]; rewrite Ht; cbn [bind]; cbv zeta;
    rewrite !map_map, intersect_np_where, take_where; cbn [bind];
    rewrite Hx; cbn [bind]; rewrite take_where; cbn [bind];
    rewrite !position_mask, intersect_np_where, !take_where; cbn [bind];
    rewrite filter_twice;
    unfold Queries.origin_events; cbv zeta;
    match goal with
    | |- context [Queries.in_window ?a ?b ?c ?d] =>
        change (List.filter _ es)
          with (List.filter (Queries.in_window a b c d) es)
    end;
    destruct (List.filter _ es) as [|e0 rest]; try reflexivity;
    change (np_amin (map fst (e0 :: rest)))
      with (@Ok Q (Qmin_list (fst e0) (map fst rest)));
    cbn [bind]; rewrite map_map, !take_where; cbn [bind];
    rewrite (filter_ext_in _ _ _
               (fun e Hin => earliest_is_minimum e0 e rest Hin));
    pose proof (earliest_exists e0 rest) as Hne;
    (destruct (List.filter _ (e0 :: rest)); [contradiction|reflexivity]).
Qed.

(** ** Conduction velocity *)

Lemma speed_window (my_dict : gmap string pyval) (L x_start x_stop : Q) :
  my_dict !! "L" = Some (VFloat L) ->
  exists w : Q * Q,
    (if Qeq_bool x_start 0 then
       do L <- get_float my_dict "L"; Ok (x_start, L)
     else if Qeq_bool x_stop 0 then
       do L <- get_float my_dict "L"; Ok (L, x_stop)
     else Ok (x_start, x_stop)) = Ok w.
Proof.
  intros HL. unfold get_float, get. rewrite HL. cbn [bind].
  destruct (Qeq_bool x_start 0); [eauto|].
  destruct (Qeq_bool x_stop 0); eauto.
Qed.

(** C6 (amended): [speed] has no insufficient-data result.  On a raster
    whose sequences have the same length, when fewer than two distinct
    event times fall inside the time window, either no event is kept and
    [argmax] raises on the empty sequence, or the kept events all have one
    time and the quotient is 0/0: the value returned is NaN. *)
Theorem speed_degenerate_window
    (my_dict : gmap string pyval) (prefix : string)
    (time x_position : list Q) (T0 T1 L t_start t_stop x_start x_stop : Q) :
  best_raster my_dict = Some prefix ->
  my_dict !! (prefix +:+ "_time") = Some (VArr time) ->
  my_dict !! (prefix +:+ "_x_position") = Some (VArr x_position) ->
  length time = length x_position ->
  default_t_stop my_dict t_stop = Ok T1 ->
  default_t_start my_dict t_start = Ok T0 ->
  my_dict !! "L" = Some (VFloat L) ->
  Metrics.at_most_one_time T0 T1 time ->
  Metrics.speed my_dict None t_start t_stop x_start x_stop
  = Raise (ValueError "attempt to get argmax of an empty sequence") \/
  Metrics.speed my_dict None t_start t_stop x_start x_stop
  = Ok (Metrics.SVal NaN).
Proof.
  intros Hp Ht Hx Hlen Hstop Hstart HL Hone.
  unfold Metrics.speed. rewrite Hstop, Hstart. cbn [bind].
  destruct (speed_window my_dict L x_start x_stop HL) as [w ->].
  cbn [bind]. cbv zeta. rewrite Hp. unfold get_arr, get.
  rewrite Ht. cbn [bind]. rewrite Hx. cbn [bind].
  rewrite (intersect_np_where (fun v => Qgtb v T0) (fun v => Qltb v T1)).
  fold (Metrics.in_time_window T0 T1).
  assert (forall k, In k (np_where (map (Metrics.in_time_window T0 T1) time)) ->
            (0 <= k < Z.of_nat (length time))%Z /\
            Metrics.in_time_window T0 T1 (nth (Z.to_nat k) time 0%Q) = true)
    as Hwin.
  { intros k Hin. apply (where_from_In _ 0%Q) in Hin as [Hr Hk].
    rewrite Z.sub_0_r in Hk. split; [lia|exact Hk]. }
  rewrite (np_take_valid "x_position" 0%Q x_position)
    by (intros k Hin; apply Hwin in Hin; lia).
  cbn [bind].
  match goal with
  | |- context [np_intersect1d ?P (np_where (map _ time))] =>
      set (good_indexes := np_intersect1d P (np_where (map _ time)))
  end.
  assert (forall k, In k good_indexes ->
            (0 <= k < Z.of_nat (length time))%Z /\
            Metrics.in_time_window T0 T1 (nth (Z.to_nat k) time 0%Q) = true)
    as Hgood.
  { intros k Hin. apply intersect_In in Hin as [_ Hin]. now apply Hwin. }
  rewrite (np_take_valid "time" 0%Q time)
    by (intros k Hin; now apply Hgood in Hin).
  rewrite (np_take_valid "x_position" 0%Q x_position)
    by (intros k Hin; apply Hgood in Hin; lia).
  cbn [bind].
  destruct good_indexes as [|k0 rest]; [left; reflexivity|right].
  cbn [map np_argmax np_argmin bind].
  assert (Forall (fun v => (v == nth (Z.to_nat k0) time 0)%Q)
                 (map (fun k => nth (Z.to_nat k) time 0%Q) rest)) as Hties.
  { apply List.Forall_forall. intros v Hin.
    apply in_map_iff in Hin as (k & <- & Hin).
    destruct (Hgood k (or_intror Hin)) as [Hk Hwk].
    destruct (Hgood k0 (or_introl eq_refl)) as [Hk0 Hwk0].
    apply Hone; try assumption; apply nth_In; lia. }
  rewrite (argmax_from_ties Hties), (argmin_from_ties Hties).
  cbn [bind].
  change (py_get "x_position" (?a :: ?l) 0) with (@Ok Q a).
  change (py_get "time" (?a :: ?l) 0) with (@Ok Q a).
  cbn [bind]. unfold np_div.
  assert (forall q : Q, Qeq_bool (q - q) 0 = true) as Hz.
  { intros q. apply Qeq_bool_iff. ring. }
  rewrite Hz.
  assert (forall q : Q, Qeq_bool ((q - q) * (1 # 1000)) 0 = true) as Hz'.
  { intros q. apply Qeq_bool_iff. ring. }
  now rewrite Hz'.
Qed.

(** ** Spike detector *)

(** [b64] on a few decimals, against the floats the machine reads for
    them (written in hexadecimal, which is exact), and the two conversions
    to an integer. *)
Example b64_nearest :
  b64 (1 # 10) = 0x1.999999999999ap-4%float /\
  b64 (3 # 10) = 0x1.3333333333333p-2%float /\
  b64 (3 # 50) = 0x1.eb851eb851eb8p-5%float /\
  b64 (- 5 # 2) = (-0x1.4p+1)%float /\
  b64 (1 # 3) = (1 / 3)%float /\
  float_of_Z 9007199254740993 = 0x1p+53%float /\
  nb_int (-0x1.599999999999ap+1)%float = (-2)%Z /\
  nb_int infinity = int64_min /\
  py_round_float 0x1.4p+1%float = 2%Z.
Proof. repeat split; vm_compute; reflexivity. Qed.

Lemma py_get_In {A} (what : string) (l : list A) (k : Z) (a : A) :
  py_get what l k = Ok a -> In a l.
Proof.
  unfold py_get. destruct (_ && _); [|discriminate].
  destruct (nth_error l _) as [a'|] eqn:E; [|discriminate].
  intros [= <-]. exact (nth_error_In _ _ E).
Qed.

Section DetectionFacts.

Import Detector.

Variable mode : access.
Variable Voltage : list (list Q).
Variables t x : list Q.
Variable list_to_parse : list Z.
Variables thr dt t_start : Q.
Variable t_stop : Z.
Variables t_refractory t_min_spike : Q.

Local Abbreviation is_spike :=
  (is_spike mode Voltage thr dt t_stop t_refractory t_min_spike).
Local Abbreviation Voltage_at := (Voltage_at mode Voltage).
Local Abbreviation item := (item mode).
Local Abbreviation Spike :=
  (Spike mode Voltage thr dt t_stop t_refractory t_min_spike).
Local Abbreviation scan_sample :=
  (scan_sample mode Voltage t x thr dt t_stop t_refractory t_min_spike).
Local Abbreviation scan_row :=
  (scan_row mode Voltage t x thr dt t_start t_stop t_refractory t_min_spike).
Local Abbreviation accepted :=
  (accepted mode Voltage thr dt t_stop t_refractory t_min_spike).
Local Abbreviation t_last_from := (t_last_from dt).
Local Abbreviation row_events := (row_events mode t x).
Local Abbreviation index_gap := (index_gap dt t_refractory).
Local Abbreviation after_refractory := (after_refractory dt t_refractory).
Local Abbreviation time_gap_b64 := (time_gap_b64 t_refractory).
Local Abbreviation on_grid := (on_grid t dt).

Lemma raster_app_assoc (r1 r2 r3 : raster) :
  raster_app (raster_app r1 r2) r3 = raster_app r1 (raster_app r2 r3).
Proof. unfold raster_app; cbn. now rewrite <- !app_assoc. Qed.

Lemma raster_app_empty_r (r : raster) : raster_app r empty_raster = r.
Proof. destruct r; unfold raster_app; cbn. now rewrite !app_nil_r. Qed.

Lemma raster_app_empty_l (r : raster) : raster_app empty_raster r = r.
Proof. now destruct r. Qed.

Lemma record_spike_app (r : raster) i xi j tj :
  record_spike r i xi j tj = raster_app r (mk_raster [i] [xi] [j] [tj]).
Proof. reflexivity. Qed.

Lemma inv_dt_Ok (k : float) : inv_dt dt = Ok k -> dt_divides dt.
Proof.
  unfold dt_divides, inv_dt, float_div.
  destruct (b64 dt =? 0)%float; [discriminate|reflexivity].
Qed.

Lemma is_spike_true (i j : Z) (tl : float) :
  dt_divides dt ->
  is_spike i j tl = Ok true <-> Spike (samples_int dt) i j tl.
Proof.
  intros Hdt. unfold Detector.is_spike, Detector.Spike, samples_int.
  rewrite Hdt. split.
  - intros H.
    destruct (Voltage_at i j) as [v0|] eqn:E0; cbn in H; [|discriminate].
    destruct (Qle_bool v0 thr) eqn:C0; [|discriminate].
    destruct (Voltage_at i (j + 1)) as [v1|] eqn:E1; cbn in H; [|discriminate].
    destruct (Qgeb v1 thr) eqn:C1; [|discriminate].
    destruct (Voltage_at i _) as [v2|] eqn:E2 in H; cbn in H; [|discriminate].
    destruct (Qgeb v2 thr) eqn:C2; [|discriminate].
    exists v0, v1, v2.
    apply Qle_bool_iff in C0. apply Qgeb_le in C1, C2.
    injection H as H. auto 10.
  - intros (v0 & v1 & v2 & E0 & C0 & E1 & C1 & E2 & C2 & Hr).
    rewrite E0; cbn. apply Qle_bool_iff in C0. rewrite C0.
    rewrite E1; cbn. apply Qgeb_le in C1. rewrite C1.
    cbn. rewrite E2; cbn. apply Qgeb_le in C2. rewrite C2.
    now f_equal.
Qed.

Lemma is_spike_false (i j : Z) (tl : float) :
  dt_divides dt ->
  is_spike i j tl = Ok false -> ~ Spike (samples_int dt) i j tl.
Proof.
  intros Hdt H HS. apply (is_spike_true i j tl Hdt) in HS. congruence.
Qed.

Lemma scan_sample_cases (i : Z) (r : raster) (tl : float) (j : Z) st' :
  scan_sample i (r, tl) j = Ok st' ->
  (is_spike i j tl = Ok false /\ st' = (r, tl)) \/
  (is_spike i j tl = Ok true /\
   exists xi tj, item "x" x i = Ok xi /\ item "t" t j = Ok tj /\
     st' = (record_spike r i xi j tj, (float_of_Z j * b64 dt)%float)).
Proof.
  unfold Detector.scan_sample. cbn [fst snd]. intros H.
  apply bind_Ok in H as ([|] & Hb & H).
  - right. split; [exact Hb|].
    apply bind_Ok in H as (xi & Hx & H).
    apply bind_Ok in H as (tj & Ht & H).
    exists xi, tj. repeat split; congruence.
  - left. split; congruence.
Qed.

Lemma run_accepted (i : Z) :
  forall (n : nat) (a : Z) (r : raster) (tl : float) st',
    Z.to_nat (t_stop - a) = n ->
    for_each (py_range a t_stop) (scan_sample i) (r, tl) = Ok st' ->
    exists seg, fst st' = raster_app r seg /\ row_events i seg /\
                accepted i a tl (raster_time_index seg).
Proof.
  induction n as [|n IH]; intros a r tl st' Hn Hrun.
  - rewrite py_range_nil in Hrun by lia. injection Hrun as <-.
    exists empty_raster. rewrite raster_app_empty_r.
    repeat split; try constructor. lia.
  - rewrite py_range_cons in Hrun by lia. cbn [for_each] in Hrun.
    apply bind_Ok in Hrun as (st1 & H1 & Hrun).
    apply scan_sample_cases in H1 as [[Hb ->]|(Hb & xi & tj & Hx & Ht & ->)].
    + apply IH in Hrun as (seg & Hr & Hev & Hacc); [|lia].
      exists seg. repeat split; try apply Hev; auto.
      apply accepted_skip; [lia|assumption..].
    + apply IH in Hrun as (seg & Hr & (Hp & Hxs & Hts) & Hacc); [|lia].
      exists (raster_app (mk_raster [i] [xi] [a] [tj]) seg).
      rewrite Hr, record_spike_app, raster_app_assoc.
      split; [reflexivity|]. split.
      * repeat split; cbn; [now rewrite Hp | now constructor..].
      * cbn. apply accepted_take; [lia|assumption..].
Qed.

Lemma accepted_bounds {i : Z} {a tl js} :
  accepted i a tl js -> Forall (fun j => (a <= j < t_stop)%Z) js.
Proof.
  induction 1 as [| a tl js Ha Hb Hacc IH | a tl js Ha Hb Hacc IH].
  - constructor.
  - eapply List.Forall_impl; [|exact IH]. cbn; intros; lia.
  - constructor; [lia|]. eapply List.Forall_impl; [|exact IH]. cbn; intros; lia.
Qed.

Lemma accepted_sorted {i : Z} {a tl js} :
  accepted i a tl js -> StronglySorted Z.lt js.
Proof.
  induction 1 as [| a tl js Ha Hb Hacc IH | a tl js Ha Hb Hacc IH].
  - constructor.
  - exact IH.
  - constructor; [exact IH|].
    apply accepted_bounds in Hacc.
    eapply List.Forall_impl; [|exact Hacc]. cbn; intros; lia.
Qed.

Lemma t_last_from_above (t0 : float) (js : list Z) (j : Z) :
  Forall (fun j' => (j <= j')%Z) js -> t_last_from t0 js j = t0.
Proof.
  intros H. unfold Detector.t_last_from.
  replace (List.filter (fun j' => (j' <? j)%Z) js) with (@nil Z); [reflexivity|].
  induction H as [|j' js Hj _ IH]; [reflexivity|].
  cbn. destruct (Z.ltb_spec j' j); [lia|exact IH].
Qed.

Lemma t_last_from_cons (t0 : float) (a : Z) (js : list Z) (j : Z) :
  (a < j)%Z ->
  t_last_from t0 (a :: js) j
  = t_last_from (float_of_Z a * b64 dt)%float js j.
Proof.
  intros H. unfold Detector.t_last_from. cbn [List.filter].
  destruct (Z.ltb_spec a j); [|lia]. cbn [rev].
  destruct (rev (List.filter (fun j' => (j' <? j)%Z) js)); reflexivity.
Qed.

Lemma accepted_iff {i : Z} {a tl js} :
  dt_divides dt ->
  accepted i a tl js ->
  forall j : Z,
    In j js <->
    (a <= j < t_stop)%Z /\ Spike (samples_int dt) i j (t_last_from tl js j).
Proof.
  intros Hdt.
  induction 1 as [| a tl js Ha Hb Hacc IH | a tl js Ha Hb Hacc IH]; intros j.
  - cbn. split; [tauto|]. intros [? _]; lia.
  - pose proof (accepted_bounds Hacc) as Hbd.
    destruct (Z.eq_dec j a) as [->|Hne].
    + rewrite t_last_from_above
        by (eapply List.Forall_impl; [|exact Hbd]; cbn; intros; lia).
      split.
      * intros Hin. rewrite List.Forall_forall in Hbd. apply Hbd in Hin. lia.
      * intros [_ HS]. now apply is_spike_false in Hb.
    + rewrite IH. split; intros [Hr HS]; (split; [lia|exact HS]).
  - pose proof (accepted_bounds Hacc) as Hbd.
    destruct (Z.eq_dec j a) as [->|Hne].
    + rewrite t_last_from_above.
      * split; [|intros; now left].
        intros _. split; [lia|]. now apply is_spike_true.
      * constructor; [lia|].
        eapply List.Forall_impl; [|exact Hbd]. cbn; intros; lia.
    + cbn [In]. split.
      * intros [Heq|Hin]; [congruence|].
        pose proof Hin as Hin'. rewrite List.Forall_forall in Hbd.
        apply Hbd in Hin'. apply IH in Hin as [Hr HS].
        split; [lia|]. rewrite t_last_from_cons by lia. exact HS.
      * intros [Hr HS]. right. apply IH. split; [lia|].
        rewrite t_last_from_cons in HS by lia. exact HS.
Qed.

Lemma is_spike_refractory (i j : Z) (tl : float) :
  is_spike i j tl = Ok true -> after_refractory j tl = true.
Proof.
  unfold Detector.is_spike. intros H.
  apply bind_Ok in H as (v0 & _ & H).
  destruct (Qle_bool v0 thr); [|discriminate].
  apply bind_Ok in H as (v1 & _ & H).
  destruct (Qgeb v1 thr); [|discriminate].
  apply bind_Ok in H as (k & _ & H).
  apply bind_Ok in H as (v2 & _ & H).
  destruct (Qgeb v2 thr); [|discriminate].
  now injection H as H.
Qed.

Lemma accepted_head {i : Z} {a tl js} :
  accepted i a tl js ->
  forall j js', js = j :: js' ->
    (a <= j)%Z /\ after_refractory j tl = true.
Proof.
  induction 1 as [| a tl js Ha Hb Hacc IH | a tl js Ha Hb Hacc IH];
    intros j js' E.
  - discriminate.
  - destruct (IH _ _ E). split; [lia|assumption].
  - injection E as <- <-. split; [lia|]. now apply (is_spike_refractory i).
Qed.

Lemma accepted_gap {i : Z} {a tl js} :
  accepted i a tl js -> Sorted index_gap js.
Proof.
  induction 1 as [| a tl js Ha Hb Hacc IH | a tl js Ha Hb Hacc IH].
  - constructor.
  - exact IH.
  - constructor; [exact IH|].
    destruct js as [|j js']; constructor.
    destruct (accepted_head Hacc _ _ eq_refl) as [Hj Hr].
    split; [lia|exact Hr].
Qed.

Lemma item_in_range (what : string) (a : list Q) (k : Z) (v : Q) :
  py_get what a k = Ok v -> item what a k = Ok v.
Proof. unfold Detector.item. now intros ->. Qed.

Lemma gap_times {js : list Z} {ts : list Q} :
  Forall2 (fun j v => item "t" t j = Ok v) js ts ->
  Forall on_grid js ->
  Sorted index_gap js -> Sorted time_gap_b64 ts.
Proof.
  intros HF. induction HF as [|j v js ts Hj HF IH]; intros Hgrid HS.
  - constructor.
  - apply Sorted_inv in HS as [HS Hhd].
    apply Forall_cons_iff in Hgrid as [(w & Hw & Ew) Hgrid]. constructor.
    + now apply IH.
    + destruct HF as [|j' v' js ts Hj' HF]; constructor.
      apply HdRel_inv in Hhd as [Hlt Hgap].
      apply Forall_cons_iff in Hgrid as [(w' & Hw' & Ew') _].
      apply item_in_range in Hw, Hw'.
      assert (w = v) as -> by congruence.
      assert (w' = v') as -> by congruence.
      unfold Detector.time_gap_b64. rewrite Ew, Ew'. exact Hgap.
Qed.

Lemma scan_row_inv (r : raster) (i : Z) (r' : raster) :
  scan_row r i = Ok r' ->
  dt_divides dt /\
  exists seg, r' = raster_app r seg /\ row_events i seg /\
    accepted i (samples_int dt t_start) (b64 t_start - b64 t_refractory)%float
             (raster_time_index seg).
Proof.
  unfold Detector.scan_row. intros H.
  apply bind_Ok in H as (k & Hk & H).
  pose proof (inv_dt_Ok k Hk) as Hdt. split; [exact Hdt|].
  assert (k = (1 / b64 dt)%float) as -> by (unfold dt_divides in Hdt; congruence).
  apply bind_Ok in H as ([r1 tl1] & Hrun & H). injection H as <-.
  eapply run_accepted in Hrun; [|reflexivity]. exact Hrun.
Qed.

Lemma detection_rows :
  forall (l : list Z) (r0 r : raster),
    for_each l scan_row r0 = Ok r ->
    exists segs,
      r = raster_app r0 (raster_concat segs) /\
      Forall2 (fun i seg =>
                 dt_divides dt /\ row_events i seg /\
                 accepted i (samples_int dt t_start)
                          (b64 t_start - b64 t_refractory)%float
                          (raster_time_index seg))
              l segs.
Proof.
  induction l as [|i l IH]; intros r0 r H.
  - injection H as <-. exists []. cbn.
    rewrite raster_app_empty_r. split; [reflexivity|constructor].
  - cbn [for_each] in H. apply bind_Ok in H as (r1 & H1 & H).
    apply scan_row_inv in H1 as (Hdt & seg & -> & Hev & Hacc).
    apply IH in H as (segs & -> & HF).
    exists (seg :: segs). cbn [raster_concat fold_right].
    rewrite raster_app_assoc. split; [reflexivity|].
    constructor; auto.
Qed.

(** C1 (amended): every scanned row [i] is scanned for [j] from
    [int(t_start*(1/dt))] (the product and the inverse rounded to binary64,
    then truncated towards zero) to [t_stop - 1]; a spike is recorded at [j]
    if and only if [Voltage[i][j] <= thr], [Voltage[i][j+1] >= thr],
    [Voltage[i][min(j + int(t_min_spike*(1/dt)), t_stop)] >= thr] and
    [j*dt - t_last_spike > t_refractory] (in binary64), where
    [t_last_spike] is [t_start - t_refractory] until a spike is recorded on
    the row and then [j'*dt] for the latest recorded [j']; each recorded
    spike adds [i], [x[i]], [j] and [t[j]] to the four output lists, in
    scan order.  This holds however the reads outside the arrays behave. *)
Theorem spike_detection_records (r : raster) :
  spike_detection mode Voltage t x list_to_parse thr dt t_start t_stop
                  t_refractory t_min_spike = Ok r ->
  records mode Voltage t x list_to_parse thr dt t_start t_stop
          t_refractory t_min_spike (samples_int dt) r.
Proof.
  intros H. apply detection_rows in H as (segs & -> & HF).
  exists segs. rewrite raster_app_empty_l. split; [reflexivity|].
  induction HF as [|i seg l segs (Hdt & Hev & Hacc) _ IH]; constructor;
    [|exact IH].
  split; [exact Hev|]. split.
  - exact (accepted_sorted Hacc).
  - intros j. unfold t_last_at. exact (accepted_iff Hdt Hacc j).
Qed.

(** C2 (amended): in every output, the sample indices recorded on one scan
    of a row are strictly increasing, and for two consecutive ones
    [j1 < j2] the value [j2*dt - j1*dt] (in binary64) is more than
    [t_refractory].  The recorded times are [t[j1]] and [t[j2]]: they are
    that far apart when the time vector holds [j*dt] at the recorded
    indices, and not in general. *)
Theorem spike_detection_refractory (r : raster) :
  spike_detection mode Voltage t x list_to_parse thr dt t_start t_stop
                  t_refractory t_min_spike = Ok r ->
  exists segs : list raster,
    r = raster_concat segs /\
    Forall2 (fun i seg =>
               row_events i seg /\
               Sorted index_gap (raster_time_index seg) /\
               (Forall on_grid (raster_time_index seg) ->
                Sorted time_gap_b64 (raster_time seg)))
            list_to_parse segs.
Proof.
  intros H. apply detection_rows in H as (segs & -> & HF).
  exists segs. rewrite raster_app_empty_l. split; [reflexivity|].
  induction HF as [|i seg l segs (_ & Hev & Hacc) _ IH]; constructor;
    [|exact IH].
  split; [exact Hev|]. split; [exact (accepted_gap Hacc)|].
  intros Hgrid. apply (gap_times (js := raster_time_index seg)).
  - apply Hev.
  - exact Hgrid.
  - exact (accepted_gap Hacc).
Qed.

(** A read that the checked run performs without fault is the same in
    every mode. *)
Lemma Voltage_at_checked (i j : Z) (v : Q) :
  Detector.Voltage_at Checked Voltage i j = Ok v -> Voltage_at i j = Ok v.
Proof.
  unfold Detector.Voltage_at.
  destruct (py_get "Voltage" Voltage i) as [row|]; [|discriminate].
  destruct (py_get "Voltage" row j); [auto|discriminate].
Qed.

Lemma item_checked (what : string) (a : list Q) (k : Z) (v : Q) :
  Detector.item Checked what a k = Ok v -> item what a k = Ok v.
Proof.
  unfold Detector.item. destruct (py_get what a k); [auto|discriminate].
Qed.

Lemma is_spike_checked (i j : Z) (tl : float) (b : bool) :
  Detector.is_spike Checked Voltage thr dt t_stop t_refractory t_min_spike
    i j tl = Ok b ->
  is_spike i j tl = Ok b.
Proof.
  unfold Detector.is_spike. intros H.
  apply bind_Ok in H as (v0 & E0 & H).
  rewrite (Voltage_at_checked _ _ _ E0); cbn [bind].
  destruct (Qle_bool v0 thr); [|exact H].
  apply bind_Ok in H as (v1 & E1 & H).
  rewrite (Voltage_at_checked _ _ _ E1); cbn [bind].
  destruct (Qgeb v1 thr); [|exact H].
  apply bind_Ok in H as (k & Ek & H). rewrite Ek; cbn [bind].
  apply bind_Ok in H as (v2 & E2 & H).
  rewrite (Voltage_at_checked _ _ _ E2); cbn [bind]. exact H.
Qed.

Lemma scan_sample_checked (i : Z) (st : raster * float) (j : Z) st' :
  Detector.scan_sample Checked Voltage t x thr dt t_stop t_refractory
    t_min_spike i st j = Ok st' ->
  scan_sample i st j = Ok st'.
Proof.
  unfold Detector.scan_sample. intros H.
  apply bind_Ok in H as (b & Hb & H).
  rewrite (is_spike_checked _ _ _ _ Hb); cbn [bind].
  destruct b; [|exact H].
  apply bind_Ok in H as (xi & Hx & H).
  rewrite (item_checked _ _ _ _ Hx); cbn [bind].
  apply bind_Ok in H as (tj & Ht & H).
  rewrite (item_checked _ _ _ _ Ht); cbn [bind]. exact H.
Qed.

Lemma for_each_checked {A S} (checked body : S -> A -> result S) :
  (forall st a st', checked st a = Ok st' -> body st a = Ok st') ->
  forall (l : list A) (st st' : S),
    for_each l checked st = Ok st' -> for_each l body st = Ok st'.
Proof.
  intros Hb l. induction l as [|a l IH]; intros st st' H; [exact H|].
  cbn [for_each] in *. apply bind_Ok in H as (st1 & H1 & H).
  rewrite (Hb _ _ _ H1); cbn [bind]. now apply IH.
Qed.

Lemma scan_row_checked (r : raster) (i : Z) (r' : raster) :
  Detector.scan_row Checked Voltage t x thr dt t_start t_stop t_refractory
    t_min_spike r i = Ok r' ->
  scan_row r i = Ok r'.
Proof.
  unfold Detector.scan_row. intros H.
  apply bind_Ok in H as (k & Hk & H). rewrite Hk; cbn [bind].
  apply bind_Ok in H as (st & Hrun & H).
  apply (for_each_checked _ (scan_sample i)) in Hrun;
    [|intros ? ? ?; apply scan_sample_checked].
  rewrite Hrun. exact H.
Qed.

(** When the run that checks its bounds returns a raster, no read was
    outside an array: the compiled detector returns the same raster,
    whatever the memory around the arrays holds. *)
Theorem spike_detection_in_bounds_any_memory (r : raster) :
  spike_detection Checked Voltage t x list_to_parse thr dt t_start t_stop
                  t_refractory t_min_spike = Ok r ->
  spike_detection mode Voltage t x list_to_parse thr dt t_start t_stop
                  t_refractory t_min_spike = Ok r.
Proof.
  unfold Detector.spike_detection.
  apply for_each_checked. intros ? ? ?. apply scan_row_checked.
Qed.

End DetectionFacts.

Section CompiledRun.

Import Detector.

Variable wild : string -> list Z -> Q.
Variable Voltage : list (list Q).
Variables t x : list Q.
Variable list_to_parse : list Z.
Variables thr dt t_start : Q.
Variable t_stop : Z.
Variables t_refractory t_min_spike : Q.

Local Abbreviation is_spike :=
  (is_spike (Unchecked wild) Voltage thr dt t_stop t_refractory t_min_spike).
Local Abbreviation scan_sample :=
  (scan_sample (Unchecked wild) Voltage t x thr dt t_stop t_refractory
               t_min_spike).
Local Abbreviation scan_row :=
  (scan_row (Unchecked wild) Voltage t x thr dt t_start t_stop t_refractory
            t_min_spike).








End CompiledRun.

Section BoundsFacts.

Import Detector.

Variable Voltage : list (list Q).
Variables t x : list Q.
Variable list_to_parse : list Z.
Variables thr dt t_start : Q.
Variable t_stop : Z.
Variables t_refractory t_min_spike : Q.

Local Abbreviation is_spike :=
  (is_spike Checked Voltage thr dt t_stop t_refractory t_min_spike).
Local Abbreviation Voltage_at := (Voltage_at Checked Voltage).
Local Abbreviation scan_sample :=
  (scan_sample Checked Voltage t x thr dt t_stop t_refractory t_min_spike).
Local Abbreviation scan_row :=
  (scan_row Checked Voltage t x thr dt t_start t_stop t_refractory
            t_min_spike).

Lemma Voltage_at_in_range (i k : Z) {row : list Q} :
  py_get "Voltage" Voltage i = Ok row ->
  (0 <= k < Z.of_nat (length row))%Z ->
  exists v, Voltage_at i k = Ok v.
Proof.
  intros Hrow Hk. unfold Detector.Voltage_at. rewrite Hrow.
  destruct (py_get_in_range "Voltage" row k Hk) as [v ->]. now exists v.
Qed.

Lemma Voltage_at_above (i k : Z) {row : list Q} :
  py_get "Voltage" Voltage i = Ok row ->
  (Z.of_nat (length row) <= k)%Z ->
  Voltage_at i k = Raise (IndexError "Voltage").
Proof.
  intros Hrow Hk. unfold Detector.Voltage_at. rewrite Hrow.
  now rewrite py_get_above.
Qed.

Lemma Voltage_at_cases (i k : Z) :
  Voltage_at i k = Raise (IndexError "Voltage") \/
  exists row v, In row Voltage /\ In v row /\ Voltage_at i k = Ok v.
Proof.
  unfold Detector.Voltage_at.
  destruct (py_get "Voltage" Voltage i) as [row|] eqn:Er; [|now left].
  destruct (py_get "Voltage" row k) as [v|] eqn:Ev; [|now left].
  right. exists row, v.
  split; [exact (py_get_In _ _ _ _ Er)|].
  split; [exact (py_get_In _ _ _ _ Ev)|reflexivity].
Qed.

Lemma item_fault (what : string) (a : list Q) (k : Z) (e : exn) :
  item Checked what a k = Raise e -> e = IndexError what.
Proof.
  unfold item. destruct (py_get what a k); cbn; congruence.
Qed.

Lemma is_spike_in_bounds (i : Z) {j : Z} (tl : float) {row : list Q} :
  py_get "Voltage" Voltage i = Ok row ->
  (t_stop + 1 <= Z.of_nat (length row))%Z ->
  (0 <= j < t_stop)%Z ->
  (0 <= samples_int dt t_min_spike)%Z ->
  ~ voltage_fault (is_spike i j tl).
Proof.
  intros Hrow Hlen Hj Hmin. unfold voltage_fault, Detector.is_spike.
  destruct (Voltage_at_in_range i j Hrow) as [v0 ->]; [lia|]. cbn.
  destruct (Qle_bool v0 thr); [|discriminate].
  destruct (Voltage_at_in_range i (j + 1) Hrow) as [v1 ->]; [lia|]. cbn.
  destruct (Qgeb v1 thr); [|discriminate].
  destruct (inv_dt dt) as [k|e] eqn:Ek; cbn [bind].
  - apply inv_dt_Ok in Ek as Hdt. unfold dt_divides in Hdt.
    assert (k = (1 / b64 dt)%float) as -> by congruence.
    fold (samples_int dt t_min_spike).
    destruct (Voltage_at_in_range i
                (Z.min (j + samples_int dt t_min_spike) t_stop) Hrow)
      as [v2 ->]; [lia|]. cbn.
    destruct (Qgeb v2 thr); discriminate.
  - unfold inv_dt, float_div in Ek.
    destruct (b64 dt =? 0)%float; [|discriminate]. congruence.
Qed.

Lemma scan_row_in_bounds (r : raster) (i : Z) {row : list Q} :
  py_get "Voltage" Voltage i = Ok row ->
  (t_stop + 1 <= Z.of_nat (length row))%Z ->
  (0 <= samples_int dt t_start)%Z ->
  (0 <= samples_int dt t_min_spike)%Z ->
  ~ voltage_fault (scan_row r i).
Proof.
  intros Hrow Hlen Hstart Hmin. unfold voltage_fault, Detector.scan_row.
  destruct (inv_dt dt) as [k|e] eqn:Ek; cbn [bind]; cycle 1.
  { unfold inv_dt, float_div in Ek.
    destruct (b64 dt =? 0)%float; [|discriminate]. congruence. }
  apply inv_dt_Ok in Ek as Hdt. unfold dt_divides in Hdt.
  assert (k = (1 / b64 dt)%float) as -> by congruence.
  fold (samples_int dt t_start).
  match goal with |- bind ?m _ <> _ => destruct m eqn:E end; cbn;
    [discriminate|].
  intros [= ->]. revert E.
  apply for_each_no_raise with
    (I := fun j => (samples_int dt t_start <= j < t_stop)%Z);
    [|apply py_range_bounds].
  intros st j Hj. unfold Detector.scan_sample.
  pose proof (is_spike_in_bounds i (snd st) Hrow Hlen
                (conj (Z.le_trans _ _ _ Hstart (proj1 Hj)) (proj2 Hj)) Hmin)
    as Hb.
  unfold voltage_fault in Hb.
  destruct (is_spike i j (snd st)) as [[|]|e]; cbn;
    [|discriminate|intros [= ->]; now apply Hb].
  destruct (item Checked "x" x i) eqn:Ex; cbn;
    [|apply item_fault in Ex as ->; discriminate].
  destruct (item Checked "t" t j) eqn:Et; cbn;
    [|apply item_fault in Et as ->]; discriminate.
Qed.

(** Below the threshold everywhere, the condition is false at the second
    test, unless a read is outside the matrix. *)
Lemma is_spike_below (i j : Z) (tl : float) :
  Forall (Forall (fun v => (v < thr)%Q)) Voltage ->
  is_spike i j tl = Ok false \/ voltage_fault (is_spike i j tl).
Proof.
  intros Hlow. unfold voltage_fault, Detector.is_spike.
  assert (forall k v, Voltage_at i k = Ok v -> (v < thr)%Q) as Hv.
  { intros k v E. destruct (Voltage_at_cases i k) as [F|(row & w & Hr & Hw & E')];
      [congruence|].
    assert (w = v) as -> by congruence.
    rewrite List.Forall_forall in Hlow. apply Hlow in Hr.
    rewrite List.Forall_forall in Hr. now apply Hr. }
  destruct (Voltage_at_cases i j) as [->|(_ & v0 & _ & _ & E0)]; [now right|].
  rewrite E0; cbn [bind].
  apply Hv in E0 as H0. apply Qlt_le_weak, Qle_bool_iff in H0 as ->.
  destruct (Voltage_at_cases i (j + 1)) as [->|(_ & v1 & _ & _ & E1)];
    [now right|].
  rewrite E1; cbn [bind]. apply Hv in E1 as H1.
  assert (Qgeb v1 thr = false) as ->; [|now left].
  apply not_true_iff_false. rewrite Qgeb_le. now apply Qlt_not_le.
Qed.

Lemma scan_samples_below (i : Z) (js : list Z) (st : raster * float) :
  Forall (Forall (fun v => (v < thr)%Q)) Voltage ->
  for_each js (scan_sample i) st = Ok st \/
  voltage_fault (for_each js (scan_sample i) st).
Proof.
  intros Hlow. induction js as [|j js IH]; [now left|].
  cbn [for_each]. unfold Detector.scan_sample at 1 3.
  destruct (is_spike_below i j (snd st) Hlow) as [-> | ->]; cbn [bind].
  - exact IH.
  - now right.
Qed.

Lemma scan_short_row (i : Z) {row : list Q} :
  py_get "Voltage" Voltage i = Ok row ->
  (Z.of_nat (length row) <= t_stop)%Z ->
  Forall (Forall (fun v => (v < thr)%Q)) Voltage ->
  forall (n : nat) (a : Z) (st : raster * float),
    (0 <= a < t_stop)%Z ->
    Z.to_nat (Z.of_nat (length row) - a) = n ->
    voltage_fault (for_each (py_range a t_stop) (scan_sample i) st).
Proof.
  intros Hrow Hlen Hlow. unfold voltage_fault.
  induction n as [|n IH]; intros a st Ha Hn;
    rewrite py_range_cons by lia; cbn [for_each];
    unfold Detector.scan_sample at 1.
  - unfold Detector.is_spike.
    now rewrite (Voltage_at_above i a Hrow) by lia.
  - destruct (is_spike_below i a (snd st) Hlow) as [E|E].
    + destruct (Z.le_gt_cases (Z.of_nat (length row)) (a + 1)) as [Hend|Hin].
      * exfalso. revert E. unfold Detector.is_spike.
        destruct (Voltage_at_in_range i a Hrow) as [v0 E0]; [lia|].
        rewrite E0; cbn [bind].
        destruct (Qle_bool v0 thr) eqn:C0.
        -- now rewrite (Voltage_at_above i (a + 1) Hrow) by lia.
        -- destruct (Voltage_at_cases i a) as [F|(r' & w & Hr & Hw & E')];
             [congruence|].
           assert (w = v0) as -> by congruence.
           rewrite List.Forall_forall in Hlow. apply Hlow in Hr.
           rewrite List.Forall_forall in Hr. apply Hr in Hw.
           apply Qlt_le_weak, Qle_bool_iff in Hw. congruence.
      * rewrite E; cbn [bind]. apply IH; lia.
    + unfold voltage_fault in E. now rewrite E.
Qed.

Lemma scan_row_below (r : raster) (i : Z) :
  Forall (Forall (fun v => (v < thr)%Q)) Voltage ->
  dt_divides dt ->
  scan_row r i = Ok r \/ voltage_fault (scan_row r i).
Proof.
  intros Hlow Hdt. unfold voltage_fault, Detector.scan_row.
  rewrite Hdt; cbn [bind].
  match goal with
  | |- context [for_each ?js (scan_sample i) ?st] =>
      destruct (scan_samples_below i js st Hlow) as [-> | ->]
  end; cbn; auto.
Qed.

Lemma scan_rows_short (i : Z) {row : list Q} :
  py_get "Voltage" Voltage i = Ok row ->
  (Z.of_nat (length row) < t_stop + 1)%Z ->
  Forall (Forall (fun v => (v < thr)%Q)) Voltage ->
  dt_divides dt ->
  (0 <= samples_int dt t_start < t_stop)%Z ->
  forall (l : list Z) (r : raster),
    In i l -> voltage_fault (for_each l scan_row r).
Proof.
  intros Hrow Hlen Hlow Hdt Hscan.
  assert (forall r, voltage_fault (scan_row r i)) as Hi.
  { intros r. unfold voltage_fault, Detector.scan_row.
    rewrite Hdt; cbn [bind]. fold (samples_int dt t_start).
    rewrite (scan_short_row i Hrow) with (n := Z.to_nat
      (Z.of_nat (length row) - samples_int dt t_start));
      [reflexivity|lia|assumption|lia|reflexivity]. }
  unfold voltage_fault in *.
  induction l as [|i' l IH]; intros r Hin; [destruct Hin|].
  cbn [for_each].
  destruct (Z.eq_dec i' i) as [->|Hne].
  - now rewrite Hi.
  - destruct (scan_row_below r i' Hlow Hdt) as [-> | ->]; cbn [bind];
      [|reflexivity].
    apply IH. destruct Hin; [contradiction|assumption].
Qed.

(** C10 (amended), for the run that checks its bounds, where a read of
    [Voltage] outside the matrix is the fault [IndexError]: no read is
    outside when every scanned row has at least [t_stop + 1] samples and
    neither the first index [int(t_start*(1/dt))] nor the look-ahead
    [int(t_min_spike*(1/dt))] is negative; and when a scanned row has fewer
    samples and the scan is not empty, a matrix that stays below the
    threshold is read outside: at [j = len - 1 <= t_stop - 1] the read of
    [Voltage[i][j+1]] is the faulty one. *)
Theorem spike_detection_voltage_bounds :
  (rows_cover_t_stop Voltage list_to_parse t_stop ->
   (0 <= samples_int dt t_start)%Z -> (0 <= samples_int dt t_min_spike)%Z ->
   ~ voltage_fault
       (spike_detection Checked Voltage t x list_to_parse thr dt t_start
          t_stop t_refractory t_min_spike))
  /\
  (forall (i : Z) (row : list Q),
     In i list_to_parse ->
     py_get "Voltage" Voltage i = Ok row ->
     (Z.of_nat (length row) < t_stop + 1)%Z ->
     Forall (Forall (fun v => (v < thr)%Q)) Voltage ->
     dt_divides dt ->
     (0 <= samples_int dt t_start < t_stop)%Z ->
     voltage_fault
       (spike_detection Checked Voltage t x list_to_parse thr dt t_start
          t_stop t_refractory t_min_spike)).
Proof.
  split.
  - intros Hrows Hstart Hmin. unfold Detector.spike_detection.
    apply for_each_no_raise with (I := fun i => In i list_to_parse).
    + intros r i Hin. destruct (Hrows i Hin) as (row & Hrow & Hlen).
      now apply (scan_row_in_bounds r i Hrow).
    + now apply List.Forall_forall.
  - intros i row Hin Hrow Hlen Hlow Hdt Hscan.
    unfold Detector.spike_detection.
    now apply (scan_rows_short i Hrow).
Qed.

End BoundsFacts.

(** The claim C1 as worded, with [round(d/dt)] where the source has
    [int(d*(1/dt))], fails: with [dt = 0.06] and [t_min_spike = 0.1] the
    source tests the sample [int(1.67) = 1] after the crossing and records
    the spike at [j = 1], where [round(1.67) = 2] samples would have
    rejected it. *)
Lemma spike_detection_round_counterexample :
  Detector.spike_detection (Detector.Unchecked (fun _ _ => 0%Q))
    [[-1; -1; 1; -1; -1]]%Q [0; 3 # 50; 6 # 50; 9 # 50; 12 # 50]%Q [5]%Q
    [0%Z] 0 (3 # 50) 0 4 2 (1 # 10)
  = Ok (Detector.mk_raster [0%Z] [5]%Q [1%Z] [3 # 50]%Q) /\
  ~ Detector.records (Detector.Unchecked (fun _ _ => 0%Q))
      [[-1; -1; 1; -1; -1]]%Q [0; 3 # 50; 6 # 50; 9 # 50; 12 # 50]%Q [5]%Q
      [0%Z] 0 (3 # 50) 0 4 2 (1 # 10) (Detector.samples_round (3 # 50))
      (Detector.mk_raster [0%Z] [5]%Q [1%Z] [3 # 50]%Q).
Proof.
  split; [vm_compute; reflexivity|].
  intros (segs & Hr & HF).
  inversion HF as [|i seg l segs' [_ [_ Hiff]] HF' E1 E2]; subst.
  inversion HF'; subst. cbn in Hr. rewrite raster_app_empty_r in Hr.
  subst seg. cbn in Hiff.
  destruct (proj1 (Hiff 1%Z) (or_introl eq_refl)) as [_ HS].
  destruct HS as (v0 & v1 & v2 & _ & _ & _ & _ & E2 & C2 & _).
  vm_compute in E2. injection E2 as <-.
  unfold Qle in C2. cbn in C2. lia.
Qed.

(** Two effects of the rounding.  The product of 49 by the inverse of 49
    is below 1, so a duration of 49 with [dt = 49] is 0 samples, not 1.
    With [t_start = 1], [t_refractory = 0.3] and [dt = 1],
    [t_start - t_refractory] is below 0.7 and [1*dt] is more than 0.3 after
    it: the crossing at the first scanned sample [j = 1] is recorded. *)
Example spike_detection_rounding :
  Detector.samples_int 49 49 = 0%Z /\
  Detector.spike_detection (Detector.Unchecked (fun _ _ => 0%Q))
    [[-1; -1; 1; 1; 1]]%Q [0; 1; 2; 3; 4]%Q [5]%Q [0%Z] 0 1 1 4 (3 # 10) 1
  = Ok (Detector.mk_raster [0%Z] [5]%Q [1%Z] [1]%Q).
Proof. split; vm_compute; reflexivity. Qed.

(** C1 on two rows: three spikes, the second row read through a refractory
    rejection at [j = 0]. *)
Lemma spike_detection_records_witness :
  Detector.spike_detection (Detector.Unchecked (fun _ _ => 0%Q))
    [[-1; -1; 1; 1; 1; -1; -1; -1; 1; 1]; [-1; 1; 1; 1; 1; -1; -1; -1; 1; 1]]%Q
    [0; 1; 2; 3; 4; 5; 6; 7; 8; 9]%Q [5; 7]%Q [0; 1]%Z 0 1 0 9 2 1
  = Ok (Detector.mk_raster [0; 0; 1]%Z [5; 5; 7]%Q [1; 7; 7]%Z [1; 7; 7]%Q) /\
  Detector.records (Detector.Unchecked (fun _ _ => 0%Q))
    [[-1; -1; 1; 1; 1; -1; -1; -1; 1; 1]; [-1; 1; 1; 1; 1; -1; -1; -1; 1; 1]]%Q
    [0; 1; 2; 3; 4; 5; 6; 7; 8; 9]%Q [5; 7]%Q [0; 1]%Z 0 1 0 9 2 1
    (Detector.samples_int 1)
    (Detector.mk_raster [0; 0; 1]%Z [5; 5; 7]%Q [1; 7; 7]%Z [1; 7; 7]%Q).
Proof.
  split; [vm_compute; reflexivity|].
  apply spike_detection_records. vm_compute. reflexivity.
Defined.

(** The claim C2 as worded fails: the refractory test is on [j*dt], and the
    recorded times are the samples [t[j]].  On a time vector that is not
    sampled with the step [dt], the crossings at [j = 1] and [j = 4] are
    three steps of [dt = 1] apart and both recorded, at the times 1 and
    2.8, which are less than [t_refractory = 2] apart. *)
Lemma spike_detection_refractory_counterexample :
  Detector.spike_detection (Detector.Unchecked (fun _ _ => 0%Q))
    [[-1; -1; 1; -1; -1; 1; 1]]%Q [0; 1; 2; 5 # 2; 14 # 5; 3]%Q [5]%Q [0%Z]
    0 1 0 6 2 1
  = Ok (Detector.mk_raster [0; 0]%Z [5; 5]%Q [1; 4]%Z [1; 14 # 5]%Q) /\
  ~ Sorted (Detector.time_gap 2) [1; 14 # 5]%Q.
Proof.
  split; [vm_compute; reflexivity|].
  intros H. apply Sorted_inv in H as [_ H]. apply HdRel_inv in H as [_ H].
  revert H. unfold Qlt. cbn. lia.
Qed.

(** C2 on a row with two crossings three samples apart, the time vector
    sampled with the step [dt]. *)
Lemma spike_detection_refractory_witness :
  exists segs : list Detector.raster,
    Detector.mk_raster [0; 0]%Z [5; 5]%Q [1; 4]%Z [1; 4]%Q
    = Detector.raster_concat segs /\
    Forall2 (fun i seg =>
               Detector.row_events (Detector.Unchecked (fun _ _ => 0%Q))
                 [0; 1; 2; 3; 4; 5]%Q [5]%Q i seg /\
               Sorted (Detector.index_gap 1 2)
                      (Detector.raster_time_index seg) /\
               (Forall (Detector.on_grid [0; 1; 2; 3; 4; 5]%Q 1)
                       (Detector.raster_time_index seg) ->
                Sorted (Detector.time_gap_b64 2) (Detector.raster_time seg)))
            [0%Z] segs.
Proof.
  apply (spike_detection_refractory (Detector.Unchecked (fun _ _ => 0%Q))
           [[-1; -1; 1; -1; -1; 1; 1]]%Q [0; 1; 2; 3; 4; 5]%Q [5]%Q [0%Z]
           0 1 0 6 2 1).
  vm_compute. reflexivity.
Defined.

(** The claim C10 as worded fails for a single run: a row of [t_stop = 4]
    samples that stays above the threshold is never read past its end, the
    first test being false at every [j]. *)
Lemma spike_detection_bounds_counterexample :
  Detector.spike_detection Detector.Checked
    [[1; 1; 1; 1]]%Q [0; 1; 2; 3]%Q [5]%Q [0%Z] 0 1 0 4 2 1
  = Ok Detector.empty_raster /\
  ~ Detector.rows_cover_t_stop [[1; 1; 1; 1]]%Q [0%Z] 4.
Proof.
  split; [vm_compute; reflexivity|].
  intros H. destruct (H 0%Z (or_introl eq_refl)) as (row & E & Hlen).
  vm_compute in E. injection E as <-. cbn in Hlen. lia.
Qed.

(** C10 on a row of five samples, and on a row of four that stays below the
    threshold, for [t_stop = 4]. *)
Lemma spike_detection_voltage_bounds_witness :
  ~ Detector.voltage_fault
      (Detector.spike_detection Detector.Checked
         [[-1; -1; 1; 1; -1]]%Q [0; 1; 2; 3; 4]%Q [5]%Q [0%Z]
         0 1 0 4 2 1) /\
  Detector.voltage_fault
    (Detector.spike_detection Detector.Checked
       [[-1; -1; -1; -1]]%Q [0; 1; 2; 3; 4]%Q [5]%Q [0%Z]
       0 1 0 4 2 1).
Proof.
  split.
  - apply (proj1 (spike_detection_voltage_bounds
                    [[-1; -1; 1; 1; -1]]%Q [0; 1; 2; 3; 4]%Q [5]%Q [0%Z]
                    0 1 0 4 2 1)).
    + intros i [<-|[]]. eexists. split; [reflexivity|]. simpl. lia.
    + vm_compute. discriminate.
    + vm_compute. discriminate.
  - apply (proj2 (spike_detection_voltage_bounds
                    [[-1; -1; -1; -1]]%Q [0; 1; 2; 3; 4]%Q [5]%Q [0%Z]
                    0 1 0 4 2 1) 0%Z [-1; -1; -1; -1]%Q).
    + now left.
    + reflexivity.
    + simpl. lia.
    + repeat constructor.
    + vm_compute. reflexivity.
    + vm_compute. split; [discriminate|reflexivity].
Defined.

(** A row of five samples scanned up to [t_stop = 4]: every read is in
    range, and the compiled detector records the spike at [j = 1] whatever
    lies outside the arrays. *)
Lemma spike_detection_in_bounds_any_memory_witness :
  Detector.spike_detection (Detector.Unchecked (fun _ _ => 7%Q))
    [[-1; -1; 1; 1; -1]]%Q [0; 1; 2; 3; 4]%Q [5]%Q [0%Z] 0 1 0 4 2 1
  = Ok (Detector.mk_raster [0%Z] [5]%Q [1%Z] [1]%Q).
Proof.
  apply spike_detection_in_bounds_any_memory. vm_compute. reflexivity.
Defined.

(** ** Queries and metrics on a concrete record *)

(** C4: with both directions the source returns the latest event of the
    lower partition alone.  On the raster with times [0.5, 1, 2, 3] at
    coordinates [0, 100, 200, 500] and [x_start = 200], the lower partition
    ends at (1, 100) and the upper one at (3, 500); the call returns the
    two 0-d values 1 and 100, and nothing of the upper partition. *)
Theorem last_occurance_both_returns_lower_only :
  Queries.find_spike_last_occurance
    (<["V_mem_raster_position" := VIntArr [0; 1; 2; 3]%Z]>
     (<["V_mem_raster_time" := VArr [1 # 2; 1; 2; 3]%Q]>
      (<["V_mem_raster_x_position" := VArr [0; 100; 200; 500]%Q]>
       (<["tstop" := VFloat 10]> ∅))))
    None 0 0 "both" 200
  = Ok (Queries.QFound (Scalar 1) (Scalar 100)).
Proof. vm_compute. reflexivity. Qed.

(** C5: the indices kept by the coordinate test are positions inside the
    time-filtered arrays, and the source intersects them with indices of
    the whole arrays.  With the first event before [t_start], the events in
    both windows are (1, 100), (2, 200), (3, 500), of velocity
    [400e-3 / 2]; the source keeps the indices 1 and 2 only and returns
    [100e-3 / 1]. *)
Theorem speed_mixes_index_spaces :
  Metrics.speed
    (<["V_mem_raster_position" := VIntArr [0; 1; 2; 3]%Z]>
     (<["V_mem_raster_time" := VArr [1 # 2; 1; 2; 3]%Q]>
      (<["V_mem_raster_x_position" := VArr [0; 100; 200; 500]%Q]>
       (<["tstop" := VFloat 10]> (<["L" := VFloat 1000]> ∅)))))
    None (7 # 10) 0 0 0
  = Ok (Metrics.SVal (Fin (100 # 1000))) /\
  Metrics.velocity_of
    (List.filter (Metrics.in_both_windows (7 # 10) 10 0 1000)
       (combine [1 # 2; 1; 2; 3]%Q [0; 100; 200; 500]%Q))
  = Ok (Metrics.SVal (Fin (400 # 2000))) /\
  ~ (100 # 1000 == 400 # 2000)%Q.
Proof.
  split; [vm_compute; reflexivity|].
  split; [vm_compute; reflexivity|].
  unfold Qeq. simpl. lia.
Qed.

(** The claim C6 as worded fails: with a single event in the window the
    source reports nothing, divides 0 by 0 and returns the float NaN. *)
Lemma speed_single_event_counterexample :
  Metrics.at_most_one_time 0 10 [1]%Q /\
  Metrics.speed
    (<["V_mem_raster_position" := VIntArr [0%Z]]>
     (<["V_mem_raster_time" := VArr [1]%Q]>
      (<["V_mem_raster_x_position" := VArr [100]%Q]>
       (<["tstop" := VFloat 10]> (<["L" := VFloat 1000]> ∅)))))
    None 0 0 0 0
  = Ok (Metrics.SVal NaN) /\
  Metrics.computes_a_float
    (Metrics.speed
       (<["V_mem_raster_position" := VIntArr [0%Z]]>
        (<["V_mem_raster_time" := VArr [1]%Q]>
         (<["V_mem_raster_x_position" := VArr [100]%Q]>
          (<["tstop" := VFloat 10]> (<["L" := VFloat 1000]> ∅)))))
       None 0 0 0 0).
Proof.
  split; [|split].
  - intros v w [<-|[]] [<-|[]] _ _. reflexivity.
  - vm_compute. reflexivity.
  - exists NaN. vm_compute. reflexivity.
Qed.

(** C3 on a raster with two events tied at the earliest time of the
    windows. *)
Lemma find_spike_origin_earliest_witness :
  Queries.find_spike_origin
    (<["V_mem_raster_position" := VIntArr [0; 1; 2; 3]%Z]>
     (<["V_mem_raster_time" := VArr [1 # 2; 1; 2; 1]%Q]>
      (<["V_mem_raster_x_position" := VArr [0; 100; 200; 300]%Q]>
       (<["tstop" := VFloat 10]> ∅))))
    None 0 0 (Some 50%Q) None
  = Ok (Queries.QFound (Arr1 [1; 1]%Q) (Arr1 [100; 300]%Q)).
Proof.
  etransitivity.
  - apply (find_spike_origin_earliest _ None "V_mem_raster"
             [1 # 2; 1; 2; 1]%Q [0; 100; 200; 300]%Q 10 0 0 (Some 50%Q) None);
      vm_compute; reflexivity.
  - vm_compute. reflexivity.
Defined.

(** C6 on a raster with a single event. *)
Lemma speed_degenerate_window_witness :
  Metrics.speed
    (<["V_mem_raster_position" := VIntArr [0%Z]]>
     (<["V_mem_raster_time" := VArr [1]%Q]>
      (<["V_mem_raster_x_position" := VArr [100]%Q]>
       (<["tstop" := VFloat 10]> (<["L" := VFloat 1000]> ∅)))))
    None 0 0 0 0
  = Raise (ValueError "attempt to get argmax of an empty sequence") \/
  Metrics.speed
    (<["V_mem_raster_position" := VIntArr [0%Z]]>
     (<["V_mem_raster_time" := VArr [1]%Q]>
      (<["V_mem_raster_x_position" := VArr [100]%Q]>
       (<["tstop" := VFloat 10]> (<["L" := VFloat 1000]> ∅)))))
    None 0 0 0 0
  = Ok (Metrics.SVal NaN).
Proof.
  apply (speed_degenerate_window _ "V_mem_raster" [1]%Q [100]%Q 0 10 1000);
    try (vm_compute; reflexivity).
  intros v w [<-|[]] [<-|[]] _ _. reflexivity.
Defined.

Lemma never_equal_to_empty_list (a : list Q) :
  np_truth (np_eq_list a []) = Ok false.
Proof. destruct a as [|v [|w a]]; reflexivity. Qed.


(** [rasterize] over the full duration asks for [t_stop = int(tstop/dt)]:
    with as many samples as that, a row below the threshold is read one
    sample past its end.  The run that checks its bounds stops there; the
    compiled detector reads what the memory holds and goes on. *)
Example rasterize_full_duration_reads_outside :
  rasterize Detector.Checked
    (<["V_mem" := VMat [[-70; -70; -70; -70]]%Q]>
     (<["t" := VArr [0; 1; 2; 3]%Q]>
      (<["x_rec" := VArr [0]%Q]>
       (<["myelinated" := VBool false]>
        (<["threshold" := VFloat (-30)]>
         (<["dt" := VFloat 1]> (<["tstop" := VFloat 4]> ∅)))))))
    "V_mem" 0 0 (1 # 10) 2 0
  = Raise (IndexError "Voltage") /\
  (do out <- rasterize (Detector.Unchecked (fun _ _ => 0%Q))
      (<["V_mem" := VMat [[-70; -70; -70; -70]]%Q]>
       (<["t" := VArr [0; 1; 2; 3]%Q]>
        (<["x_rec" := VArr [0]%Q]>
         (<["myelinated" := VBool false]>
          (<["threshold" := VFloat (-30)]>
           (<["dt" := VFloat 1]> (<["tstop" := VFloat 4]> ∅)))))))
      "V_mem" 0 0 (1 # 10) 2 0;
   Ok (out !! "V_mem_raster_time_index"))
  = Ok (Some (VIntArr [])).
Proof. split; vm_compute; reflexivity. Qed.

(** C8: no event lies in the time window (5, 10), the stimulation is
    proximal; the test against the empty list does not fire and [max] is
    applied to an empty sequence. *)
Theorem block_empty_window_raises :
  Metrics.block
    (<["V_mem_raster_position" := VIntArr [0%Z]]>
     (<["V_mem_raster_time" := VArr [1]%Q]>
      (<["V_mem_raster_x_position" := VArr [100]%Q]>
       (<["tstop" := VFloat 10]>
        (<["L" := VFloat 1000]>
         (<["intra_stim_positions" := VFloat 10]>
          (<["extracellular_electrode_x" := VFloat 500]> ∅)))))))
    None 5 0
  = Raise (ValueError "max() arg is an empty sequence").
Proof. vm_compute. reflexivity. Qed.

(** C7: with a sequence of frequencies the filter is given the single
    sample [new_sig[k,:][k]], not the row: whatever the two SciPy functions
    are, two matrices that agree on their diagonal get the same filtered
    matrix. *)
Theorem filter_freq_sequence_reads_diagonal
    (coeffs : Type) (iirnotch : Q -> Q -> Q -> result coeffs)
    (lfilter : coeffs -> ndarray -> result ndarray) (f Q_factor : Q) :
  (do r <- Filter.filter_freq coeffs iirnotch lfilter
             (<["V_mem" := VMat [[1; 2]; [3; 4]]%Q]>
              (<["dt" := VFloat (1 # 100)]> ∅))
             "V_mem" (Filter.FreqSeq [f]) Q_factor;
   Ok (snd r !! "V_mem_filtered"))
  =
  (do r <- Filter.filter_freq coeffs iirnotch lfilter
             (<["V_mem" := VMat [[1; 7]; [8; 4]]%Q]>
              (<["dt" := VFloat (1 # 100)]> ∅))
             "V_mem" (Filter.FreqSeq [f]) Q_factor;
   Ok (snd r !! "V_mem_filtered")).
Proof.
  unfold Filter.filter_freq, get_float, get_mat, get.
  repeat (rewrite lookup_insert_eq || rewrite lookup_insert_ne by done).
  cbn [bind]. change (Qeq_bool (1 # 100) 0) with false. cbn iota.
  match goal with
  | |- bind (bind ?X1 _) _ = bind (bind ?X2 _) _ =>
      replace X2 with X1 by (vm_compute; reflexivity); destruct X1
  end; cbn [bind snd]; [|reflexivity].
  change ("V_mem" +:+ "_filtered") with "V_mem_filtered".
  now rewrite !lookup_insert_eq.
Qed.

(** * Further properties *)

(** ** Spike detector: shape of the output, rows, short spikes *)

Lemma for_each_app {A S} (body : S -> A -> result S) (l1 l2 : list A) :
  forall st : S,
    for_each (l1 ++ l2) body st
    = (do st' <- for_each l1 body st; for_each l2 body st').
Proof.
  induction l1 as [|a l1 IH]; intros st; [reflexivity|].
  cbn. destruct (body st a); cbn; [apply IH|reflexivity].
Qed.

Lemma raster_concat_lengths (segs : list Detector.raster) :
  Forall (fun seg =>
            length (Detector.raster_position seg)
            = length (Detector.raster_time_index seg) /\
            length (Detector.raster_x_position seg)
            = length (Detector.raster_time_index seg) /\
            length (Detector.raster_time seg)
            = length (Detector.raster_time_index seg)) segs ->
  length (Detector.raster_position (Detector.raster_concat segs))
  = length (Detector.raster_time_index (Detector.raster_concat segs)) /\
  length (Detector.raster_x_position (Detector.raster_concat segs))
  = length (Detector.raster_time_index (Detector.raster_concat segs)) /\
  length (Detector.raster_time (Detector.raster_concat segs))
  = length (Detector.raster_time_index (Detector.raster_concat segs)).
Proof.
  induction 1 as [|seg segs (H1 & H2 & H3) _ (I1 & I2 & I3)];
    [repeat split|].
  cbn [Detector.raster_concat fold_right]. fold (Detector.raster_concat segs).
  unfold Detector.raster_app at 1 2 3 4 5 6. cbn [Detector.raster_position
    Detector.raster_x_position Detector.raster_time_index Detector.raster_time].
  rewrite !length_app. lia.
Qed.

Lemma raster_concat_position (P : Z -> Prop) (segs : list Detector.raster) :
  Forall (fun seg => Forall P (Detector.raster_position seg)) segs ->
  Forall P (Detector.raster_position (Detector.raster_concat segs)).
Proof.
  induction 1 as [|seg segs H _ IH]; [constructor|].
  cbn. apply Forall_app. now split.
Qed.

Section DetectionExtras.

Import Detector.

Variable mode : access.
Variable Voltage : list (list Q).
Variables t x : list Q.
Variable list_to_parse : list Z.
Variables thr dt t_start : Q.
Variable t_stop : Z.
Variables t_refractory t_min_spike : Q.

Local Abbreviation is_spike :=
  (is_spike mode Voltage thr dt t_stop t_refractory t_min_spike).
Local Abbreviation Voltage_at := (Voltage_at mode Voltage).
Local Abbreviation item := (item mode).
Local Abbreviation scan_sample :=
  (scan_sample mode Voltage t x thr dt t_stop t_refractory t_min_spike).
Local Abbreviation scan_row :=
  (scan_row mode Voltage t x thr dt t_start t_stop t_refractory t_min_spike).
Local Abbreviation accepted :=
  (accepted mode Voltage thr dt t_stop t_refractory t_min_spike).
Local Abbreviation row_events := (row_events mode t x).
Local Abbreviation spike_detection_on :=
  (fun l => spike_detection mode Voltage t x l thr dt t_start t_stop
              t_refractory t_min_spike).

Lemma segments_lengths (l : list Z) (segs : list raster) :
  Forall2 (fun i seg =>
             dt_divides dt /\ row_events i seg /\
             accepted i (samples_int dt t_start)
                      (b64 t_start - b64 t_refractory)%float
                      (raster_time_index seg))
          l segs ->
  length (raster_position (raster_concat segs))
  = length (raster_time_index (raster_concat segs)) /\
  length (raster_x_position (raster_concat segs))
  = length (raster_time_index (raster_concat segs)) /\
  length (raster_time (raster_concat segs))
  = length (raster_time_index (raster_concat segs)).
Proof.
  intros HF. apply raster_concat_lengths.
  induction HF as [|i seg l' segs' (_ & (Hp & Hx & Ht) & _) _ IH];
    constructor; [|exact IH].
  rewrite Hp, length_map.
  apply Forall2_length in Hx, Ht. auto.
Qed.

Lemma segments_positions (l : list Z) (segs : list raster) :
  Forall2 (fun i seg =>
             dt_divides dt /\ row_events i seg /\
             accepted i (samples_int dt t_start)
                      (b64 t_start - b64 t_refractory)%float
                      (raster_time_index seg))
          l segs ->
  Forall (fun p => In p l) (raster_position (raster_concat segs)).
Proof.
  intros HF. apply raster_concat_position.
  induction HF as [|i seg l' segs' (_ & (Hp & _) & _) _ IH]; constructor.
  - rewrite Hp. apply List.Forall_forall. intros p Hin.
    apply in_map_iff in Hin as (j & <- & _). now left.
  - eapply List.Forall_impl; [|exact IH]. cbn. intros seg' Hs.
    eapply List.Forall_impl; [|exact Hs]. cbn. intros p Hp'. now right.
Qed.

(** The four output sequences describe the same events: they have one
    length. *)
Theorem spike_detection_parallel_lists (r : raster) :
  spike_detection_on list_to_parse = Ok r ->
  length (raster_position r) = length (raster_time_index r) /\
  length (raster_x_position r) = length (raster_time_index r) /\
  length (raster_time r) = length (raster_time_index r).
Proof.
  intros H. apply detection_rows in H as (segs & -> & HF).
  rewrite raster_app_empty_l. exact (segments_lengths _ _ HF).
Qed.

(** Every recorded position is one of the rows asked for. *)
Theorem spike_detection_positions (r : raster) :
  spike_detection_on list_to_parse = Ok r ->
  Forall (fun p => In p list_to_parse) (raster_position r).
Proof.
  intros H. apply detection_rows in H as (segs & -> & HF).
  rewrite raster_app_empty_l. exact (segments_positions _ _ HF).
Qed.

Lemma scan_sample_shift (r0 r : raster) (i j : Z) (tl : float) :
  scan_sample i (raster_app r0 r, tl) j
  = (do st <- scan_sample i (r, tl) j; Ok (raster_app r0 (fst st), snd st)).
Proof.
  unfold Detector.scan_sample. cbn [fst snd].
  destruct (is_spike i j tl) as [[|]|e]; cbn [bind]; try reflexivity.
  destruct (item "x" x i); cbn [bind]; [|reflexivity].
  destruct (item "t" t j); cbn [bind fst snd]; [|reflexivity].
  now rewrite !record_spike_app, raster_app_assoc.
Qed.

Lemma scan_samples_shift (r0 : raster) (i : Z) (js : list Z) :
  forall (r : raster) (tl : float),
    for_each js (scan_sample i) (raster_app r0 r, tl)
    = (do st <- for_each js (scan_sample i) (r, tl);
       Ok (raster_app r0 (fst st), snd st)).
Proof.
  induction js as [|j js IH]; intros r tl; [reflexivity|].
  cbn [for_each]. rewrite scan_sample_shift.
  destruct (scan_sample i (r, tl) j) as [[r' tl']|e]; cbn [bind fst snd];
    [apply IH|reflexivity].
Qed.

Lemma scan_row_shift (r0 r : raster) (i : Z) :
  scan_row (raster_app r0 r) i
  = (do r' <- scan_row r i; Ok (raster_app r0 r')).
Proof.
  unfold Detector.scan_row. destruct (inv_dt dt); cbn [bind]; [|reflexivity].
  rewrite scan_samples_shift.
  now destruct (for_each _ (scan_sample i) (r, _)) as [[r' tl']|e].
Qed.

Lemma scan_rows_shift (r0 : raster) (l : list Z) :
  forall r : raster,
    for_each l scan_row (raster_app r0 r)
    = (do r' <- for_each l scan_row r; Ok (raster_app r0 r')).
Proof.
  induction l as [|i l IH]; intros r; [reflexivity|].
  cbn [for_each]. rewrite scan_row_shift.
  destruct (scan_row r i); cbn [bind]; [apply IH|reflexivity].
Qed.

(** Rows are scanned independently: the result on a list of rows cut in
    two is the result on the first part followed by the result on the
    second, and fails where either part fails. *)
Theorem spike_detection_app (l1 l2 : list Z) :
  spike_detection_on (l1 ++ l2)%list
  = (do r1 <- spike_detection_on l1;
     do r2 <- spike_detection_on l2;
     Ok (raster_app r1 r2)).
Proof.
  unfold Detector.spike_detection. rewrite for_each_app.
  destruct (for_each l1 scan_row empty_raster) as [r1|e]; cbn [bind];
    [|reflexivity].
  rewrite <- (raster_app_empty_r r1) at 1. apply scan_rows_shift.
Qed.

Lemma is_spike_at_threshold (i j : Z) (tl : float) :
  samples_int dt t_min_spike = 0%Z -> (j < t_stop)%Z ->
  is_spike i j tl = Ok true ->
  exists v, Voltage_at i j = Ok v /\ (v == thr)%Q.
Proof.
  intros Hm Hj H. unfold Detector.is_spike in H.
  apply bind_Ok in H as (v0 & E0 & H).
  destruct (Qle_bool v0 thr) eqn:C0; [|discriminate].
  apply bind_Ok in H as (v1 & _ & H).
  destruct (Qgeb v1 thr); [|discriminate].
  apply bind_Ok in H as (k & Ek & H).
  apply inv_dt_Ok in Ek as Hdt. unfold dt_divides in Hdt.
  assert (k = (1 / b64 dt)%float) as -> by congruence.
  fold (samples_int dt t_min_spike) in H. rewrite Hm in H.
  replace (Z.min (j + 0) t_stop) with j in H by lia.
  rewrite E0 in H. cbn [bind] in H.
  destruct (Qgeb v0 thr) eqn:C2; [|discriminate].
  exists v0. split; [exact E0|].
  apply Qle_bool_iff in C0. apply Qgeb_le in C2. now apply Qle_antisym.
Qed.

Lemma accepted_at_threshold {i : Z} {a tl js} :
  accepted i a tl js ->
  samples_int dt t_min_spike = 0%Z ->
  Forall (fun j => exists v, Voltage_at i j = Ok v /\ (v == thr)%Q) js.
Proof.
  induction 1 as [| a tl js Ha Hb Hacc IH | a tl js Ha Hb Hacc IH];
    intros Hm.
  - constructor.
  - now apply IH.
  - constructor; [|now apply IH].
    now apply (is_spike_at_threshold i a tl Hm Ha).
Qed.

(** When [t_min_spike] is shorter than one sample
    ([int(t_min_spike*(1/dt)) = 0]) the sustain test reads the sample [j]
    itself, so a spike is recorded only where the voltage equals the
    threshold exactly. *)
Theorem spike_detection_short_t_min_spike (r : raster) :
  samples_int dt t_min_spike = 0%Z ->
  spike_detection_on list_to_parse = Ok r ->
  exists segs : list raster,
    r = raster_concat segs /\
    Forall2 (fun i seg =>
               row_events i seg /\
               Forall (fun j => exists v,
                         Voltage_at i j = Ok v /\ (v == thr)%Q)
                      (raster_time_index seg))
            list_to_parse segs.
Proof.
  intros Hm H. apply detection_rows in H as (segs & -> & HF).
  exists segs. rewrite raster_app_empty_l. split; [reflexivity|].
  induction HF as [|i seg l segs (_ & Hev & Hacc) _ IH]; constructor;
    [|exact IH].
  split; [exact Hev|]. exact (accepted_at_threshold Hacc Hm).
Qed.

End DetectionExtras.

(** Two rows, three spikes: the four lists have three entries each. *)
Lemma spike_detection_parallel_lists_witness :
  length [0; 0; 1]%Z = length [1; 7; 7]%Z /\
  length [5; 5; 7]%Q = length [1; 7; 7]%Z /\
  length [1; 7; 7]%Q = length [1; 7; 7]%Z.
Proof.
  apply (spike_detection_parallel_lists
           (Detector.Unchecked (fun _ _ => 0%Q))
           [[-1; -1; 1; 1; 1; -1; -1; -1; 1; 1];
            [-1; 1; 1; 1; 1; -1; -1; -1; 1; 1]]%Q
           [0; 1; 2; 3; 4; 5; 6; 7; 8; 9]%Q [5; 7]%Q [0; 1]%Z 0 1 0 9 2 1
           (Detector.mk_raster [0; 0; 1]%Z [5; 5; 7]%Q [1; 7; 7]%Z [1; 7; 7]%Q)).
  vm_compute. reflexivity.
Defined.

Lemma spike_detection_positions_witness :
  Forall (fun p => In p [0; 1]%Z) [0; 0; 1]%Z.
Proof.
  apply (spike_detection_positions
           (Detector.Unchecked (fun _ _ => 0%Q))
           [[-1; -1; 1; 1; 1; -1; -1; -1; 1; 1];
            [-1; 1; 1; 1; 1; -1; -1; -1; 1; 1]]%Q
           [0; 1; 2; 3; 4; 5; 6; 7; 8; 9]%Q [5; 7]%Q [0; 1]%Z 0 1 0 9 2 1
           (Detector.mk_raster [0; 0; 1]%Z [5; 5; 7]%Q [1; 7; 7]%Z [1; 7; 7]%Q)).
  vm_compute. reflexivity.
Defined.

(** [dt = 1], [t_min_spike = 0.1]: the spike at [j = 1] sits on a sample
    equal to the threshold. *)
Lemma spike_detection_short_t_min_spike_witness :
  exists segs : list Detector.raster,
    Detector.mk_raster [0%Z] [5]%Q [1%Z] [1]%Q = Detector.raster_concat segs /\
    Forall2 (fun i seg =>
               Detector.row_events (Detector.Unchecked (fun _ _ => 0%Q))
                 [0; 1; 2; 3; 4]%Q [5]%Q i seg /\
               Forall (fun j => exists v,
                         Detector.Voltage_at
                           (Detector.Unchecked (fun _ _ => 0%Q))
                           [[-1; 0; 1; 1; -1]]%Q i j = Ok v
                         /\ (v == 0)%Q)
                      (Detector.raster_time_index seg))
            [0%Z] segs.
Proof.
  apply (spike_detection_short_t_min_spike
           (Detector.Unchecked (fun _ _ => 0%Q))
           [[-1; 0; 1; 1; -1]]%Q [0; 1; 2; 3; 4]%Q [5]%Q [0%Z]
           0 1 0 4 2 (1 # 10)).
  - vm_compute. reflexivity.
  - vm_compute. reflexivity.
Defined.

(** ** Rasterization *)

Lemma append_inj_r (s a b : string) : s +:+ a = s +:+ b -> a = b.
Proof.
  induction s as [|c s IH]; cbn; intros H; [exact H|].
  injection H as H. now apply IH.
Qed.

Lemma rec_is_all (v : pyval) :
  match v with VStr "all" => true | _ => false end = true -> v = VStr "all".
Proof.
  intros H. destruct v as [| |s| | | |]; try discriminate H. f_equal.
  repeat match type of H with
         | context [match ?u with _ => _ end] =>
             is_var u; destruct u; cbn in H; try discriminate H
         end.
  reflexivity.
Qed.

Lemma get_float_inv (my_dict : gmap string pyval) (key : string) (q : Q) :
  get_float my_dict key = Ok q -> my_dict !! key = Some (VFloat q).
Proof.
  unfold get_float, get. destruct (my_dict !! key) as [[]|]; cbn; congruence.
Qed.

Lemma get_arr_inv (my_dict : gmap string pyval) (key : string) (a : list Q) :
  get_arr my_dict key = Ok a -> my_dict !! key = Some (VArr a).
Proof.
  unfold get_arr, get. destruct (my_dict !! key) as [[]|]; cbn; congruence.
Qed.

Lemma get_mat_inv (my_dict : gmap string pyval) (key : string)
      (m : list (list Q)) :
  get_mat my_dict key = Ok m -> my_dict !! key = Some (VMat m).
Proof.
  unfold get_mat, get. destruct (my_dict !! key) as [[]|]; cbn; congruence.
Qed.

Lemma rasterize_inv (mode : Detector.access)
      (my_dict : gmap string pyval) (my_key : string)
      (t_start t_stop t_min_spike t_refractory threshold : Q)
      (out : gmap string pyval) :
  rasterize mode my_dict my_key t_start t_stop t_min_spike t_refractory
            threshold = Ok out ->
  exists (Voltage : list (list Q)) (t x : list Q) (list_to_parse : list Z)
         (thr dt stop : Q) (n_stop : Z) (r : Detector.raster),
    my_dict !! my_key = Some (VMat Voltage) /\
    my_dict !! "t" = Some (VArr t) /\
    my_dict !! "dt" = Some (VFloat dt) /\
    (if Qeq_bool threshold 0
     then my_dict !! "threshold" = Some (VFloat thr) else thr = threshold) /\
    (if Qeq_bool t_stop 0
     then my_dict !! "tstop" = Some (VFloat stop) else stop = t_stop) /\
    stop_index stop dt = Ok n_stop /\
    geometry_of my_dict list_to_parse x /\
    Detector.spike_detection mode Voltage t x list_to_parse thr dt t_start
      n_stop t_refractory t_min_spike = Ok r /\
    out = <[my_key +:+ "_raster_time" := VArr (Detector.raster_time r)]>
          (<[my_key +:+ "_raster_time_index" :=
               VIntArr (Detector.raster_time_index r)]>
          (<[my_key +:+ "_raster_x_position" :=
               VArr (Detector.raster_x_position r)]>
          (<[my_key +:+ "_raster_position" :=
               VIntArr (Detector.raster_position r)]> my_dict))).
Proof.
  unfold rasterize. intros H.
  apply bind_Ok in H as (stop & Hstop & H).
  apply bind_Ok in H as (dt & Hdt & H).
  apply bind_Ok in H as (n_stop & Hn_stop & H).
  apply bind_Ok in H as (thr & Hthr & H).
  apply bind_Ok in H as (myelinated & Hm & H).
  apply bind_Ok in H as (nodes & Hn & H).
  apply bind_Ok in H as ([list_to_parse x] & Hg & H).
  apply bind_Ok in H as (Voltage & HV & H).
  apply bind_Ok in H as (t & Ht & H).
  apply bind_Ok in H as (r & Hr & H). injection H as <-.
  exists Voltage, t, x, list_to_parse, thr, dt, stop, n_stop, r.
  split; [exact (get_mat_inv _ _ _ HV)|].
  split; [exact (get_arr_inv _ _ _ Ht)|].
  split; [exact (get_float_inv _ _ _ Hdt)|].
  split.
  { destruct (Qeq_bool threshold 0);
      [exact (get_float_inv _ _ _ Hthr)|congruence]. }
  split.
  { destruct (Qeq_bool t_stop 0);
      [exact (get_float_inv _ _ _ Hstop)|congruence]. }
  split; [exact Hn_stop|].
  split; [|split; [exact Hr|reflexivity]].
  unfold geometry_of.
  unfold get in Hm. destruct (my_dict !! "myelinated") as [vm|] eqn:Em;
    [|discriminate]. injection Hm as ->.
  destruct nodes.
  - left. destruct myelinated as [|[|]| | | | |]; try discriminate Hn.
    apply bind_Ok in Hn as (rec & Er & Hn). injection Hn as Hn.
    apply rec_is_all in Hn as ->.
    unfold get in Er. destruct (my_dict !! "rec"); [|discriminate].
    injection Er as ->.
    apply bind_Ok in Hg as (nodes & En & Hg).
    apply bind_Ok in Hg as (x' & Ex & Hg). injection Hg as <- <-.
    apply get_arr_inv in Ex.
    unfold get_int_arr, get in En.
    destruct (my_dict !! "node_index") as [[]|]; try discriminate En.
    injection En as ->. auto.
  - right. apply bind_Ok in Hg as (x_rec & Ex & Hg). injection Hg as <- <-.
    apply get_arr_inv in Ex. split; [|auto].
    intros [[= ->] Hrec]. cbn [bind] in Hn. unfold get in Hn.
    rewrite Hrec in Hn. discriminate Hn.
Qed.

(** A successful [rasterize] stores, under the four keys made from
    [my_key], the four sequences that the detector returns on the matrix
    [my_dict[my_key]], the time vector [my_dict['t']], the geometry of the
    record, the step [my_dict['dt']], the threshold (the argument, or
    [my_dict['threshold']] when it is 0) and the last index
    [int(t_stop/dt)] ([t_stop] being [my_dict['tstop']] when the argument
    is 0); the four sequences have one common length, and every other
    field of the record is as it was. *)
Theorem rasterize_adds_raster (mode : Detector.access)
    (my_dict : gmap string pyval) (my_key : string)
    (t_start t_stop t_min_spike t_refractory threshold : Q)
    (out : gmap string pyval) :
  rasterize mode my_dict my_key t_start t_stop t_min_spike t_refractory
            threshold = Ok out ->
  exists (Voltage : list (list Q)) (t x : list Q) (list_to_parse : list Z)
         (thr dt stop : Q) (n_stop : Z) (r : Detector.raster),
    my_dict !! my_key = Some (VMat Voltage) /\
    my_dict !! "t" = Some (VArr t) /\
    my_dict !! "dt" = Some (VFloat dt) /\
    (if Qeq_bool threshold 0
     then my_dict !! "threshold" = Some (VFloat thr) else thr = threshold) /\
    (if Qeq_bool t_stop 0
     then my_dict !! "tstop" = Some (VFloat stop) else stop = t_stop) /\
    stop_index stop dt = Ok n_stop /\
    geometry_of my_dict list_to_parse x /\
    Detector.spike_detection mode Voltage t x list_to_parse thr dt t_start
      n_stop t_refractory t_min_spike = Ok r /\
    out !! (my_key +:+ "_raster_position")
    = Some (VIntArr (Detector.raster_position r)) /\
    out !! (my_key +:+ "_raster_x_position")
    = Some (VArr (Detector.raster_x_position r)) /\
    out !! (my_key +:+ "_raster_time_index")
    = Some (VIntArr (Detector.raster_time_index r)) /\
    out !! (my_key +:+ "_raster_time")
    = Some (VArr (Detector.raster_time r)) /\
    length (Detector.raster_position r)
    = length (Detector.raster_time_index r) /\
    length (Detector.raster_x_position r)
    = length (Detector.raster_time_index r) /\
    length (Detector.raster_time r)
    = length (Detector.raster_time_index r) /\
    (forall k : string,
       ~ In k [my_key +:+ "_raster_position";
               my_key +:+ "_raster_x_position";
               my_key +:+ "_raster_time_index"; my_key +:+ "_raster_time"] ->
       out !! k = my_dict !! k).
Proof.
  intros H.
  apply rasterize_inv in H
    as (V & t & x & l & thr & dt & stop & n & r
        & HV & Ht & Hdt & Hthr & Hstop & Hn & Hg & Hr & ->).
  exists V, t, x, l, thr, dt, stop, n, r.
  do 8 (split; [assumption|]).
  repeat (rewrite lookup_insert_eq
          || rewrite lookup_insert_ne
               by (intros E; apply append_inj_r in E; discriminate E)).
  do 4 (split; [reflexivity|]).
  apply detection_rows in Hr as (segs & -> & HF).
  rewrite raster_app_empty_l.
  pose proof (segments_lengths _ _ _ _ _ _ _ _ _ _ _ _ HF) as (L1 & L2 & L3).
  do 3 (split; [assumption|]).
  intros k Hk. cbn [In] in Hk.
  rewrite !lookup_insert_ne by (intros E; apply Hk; auto). reflexivity.
Qed.

(** The recorded positions follow the geometry of the record: node indices
    of [node_index] on a myelinated fibre recorded in full, and otherwise
    indices into [x_rec]. *)
Theorem rasterize_positions (mode : Detector.access)
    (my_dict : gmap string pyval) (my_key : string)
    (t_start t_stop t_min_spike t_refractory threshold : Q)
    (out : gmap string pyval) :
  rasterize mode my_dict my_key t_start t_stop t_min_spike t_refractory
            threshold = Ok out ->
  exists position : list Z,
    out !! (my_key +:+ "_raster_position") = Some (VIntArr position) /\
    (my_dict !! "myelinated" = Some (VBool true) ->
     my_dict !! "rec" = Some (VStr "all") ->
     exists node_index,
       my_dict !! "node_index" = Some (VIntArr node_index) /\
       Forall (fun p => In p node_index) position) /\
    (~ (my_dict !! "myelinated" = Some (VBool true) /\
        my_dict !! "rec" = Some (VStr "all")) ->
     exists x_rec,
       my_dict !! "x_rec" = Some (VArr x_rec) /\
       Forall (fun p => (0 <= p < Z.of_nat (length x_rec))%Z) position).
Proof.
  intros H.
  apply rasterize_inv in H
    as (V & t & x & l & thr & dt & stop & n & r
        & _ & _ & _ & _ & _ & _ & Hg & Hr & ->).
  exists (Detector.raster_position r).
  split.
  { repeat (rewrite lookup_insert_eq
            || rewrite lookup_insert_ne
                 by (intros E; apply append_inj_r in E; discriminate E)).
    reflexivity. }
  assert (Forall (fun p => In p l) (Detector.raster_position r)) as Hp.
  { apply detection_rows in Hr as (segs & -> & HF).
    rewrite raster_app_empty_l.
    exact (segments_positions _ _ _ _ _ _ _ _ _ _ _ _ HF). }
  destruct Hg as [(Hm & Hrec & Hn & _)|(Hno & Hx & ->)].
  - split.
    + intros _ _. exists l. split; [exact Hn|exact Hp].
    + intros Hno. exfalso. apply Hno. now split.
  - split.
    + intros Hm Hrec. exfalso. apply Hno. now split.
    + intros _. exists x. split; [exact Hx|].
      eapply List.Forall_impl; [|exact Hp]. cbn. intros p Hin.
      pose proof (py_range_bounds 0 (Z.of_nat (length x))) as Hb.
      rewrite List.Forall_forall in Hb. now apply Hb.
Qed.

(** One row that crosses the threshold at the sample 1: the four fields
    hold the detector's raster on the fields of the record, and the seven
    fields of the record are kept. *)
Lemma rasterize_adds_raster_witness :
  exists r : Detector.raster,
    Detector.spike_detection (Detector.Unchecked (fun _ _ => 0%Q))
      [[-1; -1; 1; 1; 1]]%Q [0; 1; 2; 3; 4]%Q [5]%Q [0%Z] 0 1 0 4 2 1 = Ok r /\
    (<["V_mem_raster_time" := VArr [1]%Q]>
     (<["V_mem_raster_time_index" := VIntArr [1%Z]]>
      (<["V_mem_raster_x_position" := VArr [5]%Q]>
       (<["V_mem_raster_position" := VIntArr [0%Z]]>
        (<["V_mem" := VMat [[-1; -1; 1; 1; 1]]%Q]>
     (<["t" := VArr [0; 1; 2; 3; 4]%Q]>
      (<["x_rec" := VArr [5]%Q]>
       (<["myelinated" := VBool false]>
        (<["threshold" := VFloat 0]>
         (<["dt" := VFloat 1]> (<["tstop" := VFloat 4]> (∅ : gmap string pyval)))))))))))) !! "V_mem_raster_time"
    = Some (VArr (Detector.raster_time r)) /\
    (forall k : string,
       ~ In k ["V_mem" +:+ "_raster_position"; "V_mem" +:+ "_raster_x_position";
               "V_mem" +:+ "_raster_time_index"; "V_mem" +:+ "_raster_time"] ->
       (<["V_mem_raster_time" := VArr [1]%Q]>
     (<["V_mem_raster_time_index" := VIntArr [1%Z]]>
      (<["V_mem_raster_x_position" := VArr [5]%Q]>
       (<["V_mem_raster_position" := VIntArr [0%Z]]>
        (<["V_mem" := VMat [[-1; -1; 1; 1; 1]]%Q]>
     (<["t" := VArr [0; 1; 2; 3; 4]%Q]>
      (<["x_rec" := VArr [5]%Q]>
       (<["myelinated" := VBool false]>
        (<["threshold" := VFloat 0]>
         (<["dt" := VFloat 1]> (<["tstop" := VFloat 4]> (∅ : gmap string pyval)))))))))))) !! k
       = (<["V_mem" := VMat [[-1; -1; 1; 1; 1]]%Q]>
     (<["t" := VArr [0; 1; 2; 3; 4]%Q]>
      (<["x_rec" := VArr [5]%Q]>
       (<["myelinated" := VBool false]>
        (<["threshold" := VFloat 0]>
         (<["dt" := VFloat 1]> (<["tstop" := VFloat 4]> (∅ : gmap string pyval)))))))) !! k).
Proof.
  destruct (rasterize_adds_raster (Detector.Unchecked (fun _ _ => 0%Q))
              (<["V_mem" := VMat [[-1; -1; 1; 1; 1]]%Q]>
     (<["t" := VArr [0; 1; 2; 3; 4]%Q]>
      (<["x_rec" := VArr [5]%Q]>
       (<["myelinated" := VBool false]>
        (<["threshold" := VFloat 0]>
         (<["dt" := VFloat 1]> (<["tstop" := VFloat 4]> (∅ : gmap string pyval))))))))
              "V_mem" 0 0 1 2 0
              (<["V_mem_raster_time" := VArr [1]%Q]>
     (<["V_mem_raster_time_index" := VIntArr [1%Z]]>
      (<["V_mem_raster_x_position" := VArr [5]%Q]>
       (<["V_mem_raster_position" := VIntArr [0%Z]]>
        (<["V_mem" := VMat [[-1; -1; 1; 1; 1]]%Q]>
     (<["t" := VArr [0; 1; 2; 3; 4]%Q]>
      (<["x_rec" := VArr [5]%Q]>
       (<["myelinated" := VBool false]>
        (<["threshold" := VFloat 0]>
         (<["dt" := VFloat 1]> (<["tstop" := VFloat 4]> (∅ : gmap string pyval)))))))))))))
    as (V & t & x & l & thr & dt & stop & n & r
        & HV & Ht & Hdt & Hthr & Hstop & Hn & Hg & Hr
        & _ & _ & _ & Htime & _ & _ & _ & Hframe);
    [vm_compute; reflexivity|].
  exists r. split; [|split; [exact Htime|exact Hframe]].
  vm_compute in HV. injection HV as <-.
  vm_compute in Ht. injection Ht as <-.
  vm_compute in Hdt. injection Hdt as <-.
  change (Qeq_bool 0 0) with true in Hthr, Hstop. cbv iota in Hthr, Hstop.
  vm_compute in Hthr. injection Hthr as <-.
  vm_compute in Hstop. injection Hstop as <-.
  vm_compute in Hn. injection Hn as <-.
  destruct Hg as [(Hm & _)|(_ & Hx & ->)]; [vm_compute in Hm; discriminate Hm|].
  vm_compute in Hx. injection Hx as <-.
  exact Hr.
Defined.

(** The same record is not myelinated: the position 0 indexes [x_rec]. *)
Lemma rasterize_positions_witness :
  exists position : list Z,
    (<["V_mem_raster_time" := VArr [1]%Q]>
     (<["V_mem_raster_time_index" := VIntArr [1%Z]]>
      (<["V_mem_raster_x_position" := VArr [5]%Q]>
       (<["V_mem_raster_position" := VIntArr [0%Z]]>
        (<["V_mem" := VMat [[-1; -1; 1; 1; 1]]%Q]>
     (<["t" := VArr [0; 1; 2; 3; 4]%Q]>
      (<["x_rec" := VArr [5]%Q]>
       (<["myelinated" := VBool false]>
        (<["threshold" := VFloat 0]>
         (<["dt" := VFloat 1]> (<["tstop" := VFloat 4]> (∅ : gmap string pyval)))))))))))) !! ("V_mem" +:+ "_raster_position") = Some (VIntArr position) /\
    ((<["V_mem" := VMat [[-1; -1; 1; 1; 1]]%Q]>
     (<["t" := VArr [0; 1; 2; 3; 4]%Q]>
      (<["x_rec" := VArr [5]%Q]>
       (<["myelinated" := VBool false]>
        (<["threshold" := VFloat 0]>
         (<["dt" := VFloat 1]> (<["tstop" := VFloat 4]> (∅ : gmap string pyval)))))))) !! "myelinated" = Some (VBool true) ->
     (<["V_mem" := VMat [[-1; -1; 1; 1; 1]]%Q]>
     (<["t" := VArr [0; 1; 2; 3; 4]%Q]>
      (<["x_rec" := VArr [5]%Q]>
       (<["myelinated" := VBool false]>
        (<["threshold" := VFloat 0]>
         (<["dt" := VFloat 1]> (<["tstop" := VFloat 4]> (∅ : gmap string pyval)))))))) !! "rec" = Some (VStr "all") ->
     exists node_index,
       (<["V_mem" := VMat [[-1; -1; 1; 1; 1]]%Q]>
     (<["t" := VArr [0; 1; 2; 3; 4]%Q]>
      (<["x_rec" := VArr [5]%Q]>
       (<["myelinated" := VBool false]>
        (<["threshold" := VFloat 0]>
         (<["dt" := VFloat 1]> (<["tstop" := VFloat 4]> (∅ : gmap string pyval)))))))) !! "node_index" = Some (VIntArr node_index) /\
       Forall (fun p => In p node_index) position) /\
    (~ ((<["V_mem" := VMat [[-1; -1; 1; 1; 1]]%Q]>
     (<["t" := VArr [0; 1; 2; 3; 4]%Q]>
      (<["x_rec" := VArr [5]%Q]>
       (<["myelinated" := VBool false]>
        (<["threshold" := VFloat 0]>
         (<["dt" := VFloat 1]> (<["tstop" := VFloat 4]> (∅ : gmap string pyval)))))))) !! "myelinated" = Some (VBool true) /\
        (<["V_mem" := VMat [[-1; -1; 1; 1; 1]]%Q]>
     (<["t" := VArr [0; 1; 2; 3; 4]%Q]>
      (<["x_rec" := VArr [5]%Q]>
       (<["myelinated" := VBool false]>
        (<["threshold" := VFloat 0]>
         (<["dt" := VFloat 1]> (<["tstop" := VFloat 4]> (∅ : gmap string pyval)))))))) !! "rec" = Some (VStr "all")) ->
     exists x_rec,
       (<["V_mem" := VMat [[-1; -1; 1; 1; 1]]%Q]>
     (<["t" := VArr [0; 1; 2; 3; 4]%Q]>
      (<["x_rec" := VArr [5]%Q]>
       (<["myelinated" := VBool false]>
        (<["threshold" := VFloat 0]>
         (<["dt" := VFloat 1]> (<["tstop" := VFloat 4]> (∅ : gmap string pyval)))))))) !! "x_rec" = Some (VArr x_rec) /\
       Forall (fun p => (0 <= p < Z.of_nat (length x_rec))%Z) position).
Proof.
  apply (rasterize_positions (Detector.Unchecked (fun _ _ => 0%Q)) _ "V_mem" 0 0 1 2 0).
  vm_compute. reflexivity.
Defined.

(** ** Record clean-up *)

Lemma map_result_Forall2 {A B} (f : A -> result B) (l : list A) :
  forall out : list B,
    map_result f l = Ok out -> Forall2 (fun a b => f a = Ok b) l out.
Proof.
  induction l as [|a l IH]; intros out H.
  - injection H as <-. constructor.
  - cbn in H. apply bind_Ok in H as (b & Hb & H).
    apply bind_Ok in H as (bs & Hbs & H). injection H as <-.
    constructor; [exact Hb|now apply IH].
Qed.

Lemma axon_type_other (v : pyval) :
  v <> VStr "Myelinated" ->
  forall (T : Type) (X Y : T),
    match v with VStr "Myelinated" => X | _ => Y end = Y.
Proof.
  intros Hv T X Y. destruct v as [| |s| | | |]; try reflexivity.
  repeat match goal with
         | |- context [match ?u with _ => _ end] =>
             is_var u; destruct u; try reflexivity
         end.
  now contradiction Hv.
Qed.

(** On a myelinated axon and a key that names a membrane quantity,
    [remove_non_NoR_zones] raises no warning and replaces the field by the
    matrix whose rows are the rows of the old one at the indices of
    [Nodes_of_Ranvier_indexes], in that order; no other field changes. *)
Theorem remove_non_NoR_zones_keeps_nodes
    (my_dict : gmap string pyval) (key : string) (nodes : list Z)
    (warning : option string) (out : gmap string pyval) :
  names_V_mem key = true ->
  my_dict !! "Axon_type" = Some (VStr "Myelinated") ->
  my_dict !! "Nodes_of_Ranvier_indexes" = Some (VIntArr nodes) ->
  remove_non_NoR_zones my_dict key = Ok (warning, out) ->
  warning = None /\
  exists rows : list (list Q),
    out = <[key := VMat rows]> my_dict /\
    Forall2 (fun i row =>
               exists quantity,
                 my_dict !! key = Some (VMat quantity) /\
                 py_get key quantity i = Ok row)
            nodes rows.
Proof.
  intros Hk Ha Hn H. unfold remove_non_NoR_zones, get_int_arr, get in H.
  rewrite Hk, Ha, Hn in H. cbn [bind] in H.
  apply bind_Ok in H as (rows & Hr & H). injection H as <- <-.
  split; [reflexivity|]. exists rows. split; [reflexivity|].
  apply map_result_Forall2 in Hr.
  eapply Forall2_impl; [exact Hr|]. cbn. intros i row Hi.
  apply bind_Ok in Hi as (quantity & Hq & Hi). exists quantity.
  split; [|exact Hi]. unfold get_mat, get in Hq.
  destruct (my_dict !! key) as [[]|]; cbn in Hq; try discriminate Hq.
  congruence.
Qed.

(** On any other key, or on an axon that is not myelinated,
    [remove_non_NoR_zones] raises a warning and leaves the record as it
    is. *)
Theorem remove_non_NoR_zones_not_applicable
    (my_dict : gmap string pyval) (key : string)
    (warning : option string) (out : gmap string pyval) :
  names_V_mem key = false \/
  my_dict !! "Axon_type" <> Some (VStr "Myelinated") ->
  remove_non_NoR_zones my_dict key = Ok (warning, out) ->
  out = my_dict /\ warning <> None.
Proof.
  intros Hno H. unfold remove_non_NoR_zones in H.
  destruct (names_V_mem key).
  - destruct Hno as [Hno|Hno]; [discriminate|].
    apply bind_Ok in H as (axon & Ha & H).
    unfold get in Ha. destruct (my_dict !! "Axon_type") as [v|] eqn:Ev;
      [|discriminate]. injection Ha as ->.
    rewrite (axon_type_other axon) in H by congruence.
    injection H as <- <-. split; [reflexivity|discriminate].
  - injection H as <- <-. split; [reflexivity|discriminate].
Qed.

Lemma removed_key_lookups (my_dict : gmap string pyval) (key : string) :
  ~ In key query_fields ->
  Forall (fun k => delete key my_dict !! k = my_dict !! k) query_fields.
Proof.
  intros Hk. apply List.Forall_forall. intros k Hin.
  apply lookup_delete_ne. intros ->. contradiction.
Qed.

Ltac split_query_fields H :=
  unfold query_fields in H;
  repeat match type of H with
         | Forall _ (_ :: _) =>
             let E := fresh "E" in apply Forall_cons_iff in H as [E H]
         end.

Ltac rewrite_query_fields :=
  repeat match goal with
         | E : delete _ _ !! _ = _ |- _ => progress rewrite E
         end.

(** Removing a field that the queries do not read (the voltage matrix
    [V_mem], say, once it is rasterized) changes none of their results:
    origin, last occurrence, velocity and block give on the smaller record
    what they gave before. *)
Theorem queries_after_remove_key
    (my_dict out : gmap string pyval) (key : string) :
  ~ In key query_fields ->
  remove_key my_dict key = Ok out ->
  (forall t_start t_stop x_min x_max,
     Queries.find_spike_origin out None t_start t_stop x_min x_max
     = Queries.find_spike_origin my_dict None t_start t_stop x_min x_max) /\
  (forall t_start t_stop direction x_start,
     Queries.find_spike_last_occurance out None t_start t_stop direction
       x_start
     = Queries.find_spike_last_occurance my_dict None t_start t_stop direction
         x_start) /\
  (forall t_start t_stop x_start x_stop,
     Metrics.speed out None t_start t_stop x_start x_stop
     = Metrics.speed my_dict None t_start t_stop x_start x_stop) /\
  (forall t_start t_stop,
     Metrics.block out None t_start t_stop
     = Metrics.block my_dict None t_start t_stop).
Proof.
  intros Hk Hr. unfold remove_key in Hr.
  destruct (my_dict !! key); [|discriminate]. injection Hr as <-.
  pose proof (removed_key_lookups my_dict key Hk) as HF.
  split_query_fields HF.
  repeat split; intros;
    unfold Queries.find_spike_last_occurance, Queries.find_spike_origin,
      Metrics.speed, Metrics.block, default_t_stop, default_t_start,
      best_raster, get_float, get_arr, get;
    rewrite_query_fields;
    (destruct (my_dict !! "V_mem_filtered_raster_position");
     [|destruct (my_dict !! "V_mem_raster_position")]);
    cbv beta iota;
    change ("V_mem_filtered_raster" +:+ "_time")
      with "V_mem_filtered_raster_time";
    change ("V_mem_filtered_raster" +:+ "_x_position")
      with "V_mem_filtered_raster_x_position";
    change ("V_mem_raster" +:+ "_time") with "V_mem_raster_time";
    change ("V_mem_raster" +:+ "_x_position") with "V_mem_raster_x_position";
    rewrite_query_fields; reflexivity.
Qed.

(** A myelinated axon of three rows with nodes at the rows 0 and 2. *)
Lemma remove_non_NoR_zones_keeps_nodes_witness :
  exists rows : list (list Q),
    <["V_mem" := VMat [[1; 2]; [5; 6]]%Q]>
      (<["Axon_type" := VStr "Myelinated"]>
       (<["Nodes_of_Ranvier_indexes" := VIntArr [0; 2]%Z]>
        (∅ : gmap string pyval)))
    = <["V_mem" := VMat rows]>
        (<["V_mem" := VMat [[1; 2]; [3; 4]; [5; 6]]%Q]>
     (<["Axon_type" := VStr "Myelinated"]>
      (<["Nodes_of_Ranvier_indexes" := VIntArr [0; 2]%Z]>
       (∅ : gmap string pyval)))) /\
    Forall2 (fun i row =>
               exists quantity,
                 (<["V_mem" := VMat [[1; 2]; [3; 4]; [5; 6]]%Q]>
     (<["Axon_type" := VStr "Myelinated"]>
      (<["Nodes_of_Ranvier_indexes" := VIntArr [0; 2]%Z]>
       (∅ : gmap string pyval))))
                 !! "V_mem" = Some (VMat quantity) /\
                 py_get "V_mem" quantity i = Ok row)
            [0; 2]%Z rows.
Proof.
  apply (remove_non_NoR_zones_keeps_nodes _ "V_mem" [0; 2]%Z None).
  - reflexivity.
  - vm_compute. reflexivity.
  - vm_compute. reflexivity.
  - vm_compute. reflexivity.
Defined.

(** The key [x_rec] names no membrane quantity. *)
Lemma remove_non_NoR_zones_not_applicable_witness :
  <["x_rec" := VArr [1; 2]%Q]>
    (<["Axon_type" := VStr "Myelinated"]> (∅ : gmap string pyval))
  = <["x_rec" := VArr [1; 2]%Q]>
      (<["Axon_type" := VStr "Myelinated"]> (∅ : gmap string pyval)) /\
  Some "Warning, remove_non_NoR_zones only applicable to membrane voltage or current"
  <> None.
Proof.
  apply (remove_non_NoR_zones_not_applicable _ "x_rec").
  - left. reflexivity.
  - vm_compute. reflexivity.
Defined.

(** The voltage matrix is dropped after rasterization: the origin query
    answers as before. *)
Lemma queries_after_remove_key_witness :
  remove_key
    (<["V_mem" := VMat [[-1; -1; 1; 1; 1]]%Q]>
     (<["V_mem_raster_position" := VIntArr [0%Z]]>
      (<["V_mem_raster_time" := VArr [1]%Q]>
       (<["V_mem_raster_x_position" := VArr [5]%Q]>
        (<["tstop" := VFloat 4]> (∅ : gmap string pyval))))))
    "V_mem"
  = Ok (<["V_mem_raster_position" := VIntArr [0%Z]]>
        (<["V_mem_raster_time" := VArr [1]%Q]>
         (<["V_mem_raster_x_position" := VArr [5]%Q]>
          (<["tstop" := VFloat 4]> (∅ : gmap string pyval))))) /\
  Queries.find_spike_origin
    (<["V_mem_raster_position" := VIntArr [0%Z]]>
     (<["V_mem_raster_time" := VArr [1]%Q]>
      (<["V_mem_raster_x_position" := VArr [5]%Q]>
       (<["tstop" := VFloat 4]> (∅ : gmap string pyval)))))
    None 0 0 None None
  = Queries.find_spike_origin
      (<["V_mem" := VMat [[-1; -1; 1; 1; 1]]%Q]>
       (<["V_mem_raster_position" := VIntArr [0%Z]]>
        (<["V_mem_raster_time" := VArr [1]%Q]>
         (<["V_mem_raster_x_position" := VArr [5]%Q]>
          (<["tstop" := VFloat 4]> (∅ : gmap string pyval))))))
      None 0 0 None None.
Proof.
  assert (remove_key
            (<["V_mem" := VMat [[-1; -1; 1; 1; 1]]%Q]>
             (<["V_mem_raster_position" := VIntArr [0%Z]]>
              (<["V_mem_raster_time" := VArr [1]%Q]>
               (<["V_mem_raster_x_position" := VArr [5]%Q]>
                (<["tstop" := VFloat 4]> (∅ : gmap string pyval))))))
            "V_mem"
          = Ok (<["V_mem_raster_position" := VIntArr [0%Z]]>
                (<["V_mem_raster_time" := VArr [1]%Q]>
                 (<["V_mem_raster_x_position" := VArr [5]%Q]>
                  (<["tstop" := VFloat 4]> (∅ : gmap string pyval))))))
    as H by (vm_compute; reflexivity).
  split; [exact H|].
  apply (proj1 (queries_after_remove_key _ _ "V_mem"
                  ltac:(simpl; intuition discriminate) H)).
Defined.

(** ** Last occurrence *)

Lemma Qmax_list_ge (l : list Q) :
  forall (a v : Q), In v (a :: l) -> (v <= Qmax_list a l)%Q.
Proof.
  unfold Qmax_list. induction l as [|w l IH]; intros a v Hin.
  - destruct Hin as [<-|[]]. apply Qle_refl.
  - cbn [fold_left].
    pose proof (IH (if Qltb a w then w else a) _ (or_introl eq_refl)) as Hm.
    destruct Hin as [<-|[<-|Hin]].
    + eapply Qle_trans; [|exact Hm].
      destruct (Qltb a w) eqn:E; [|apply Qle_refl].
      apply Qltb_lt in E. now apply Qlt_le_weak.
    + eapply Qle_trans; [|exact Hm].
      destruct (Qltb a w) eqn:E; [apply Qle_refl|]. now apply Qltb_ge in E.
    + apply IH. now right.
Qed.

Lemma Qmax_list_In (l : list Q) :
  forall a : Q, In (Qmax_list a l) (a :: l).
Proof.
  unfold Qmax_list. induction l as [|w l IH]; intros a.
  - now left.
  - cbn [fold_left].
    destruct (IH (if Qltb a w then w else a)) as [E|Hin].
    + rewrite <- E. destruct (Qltb a w); [right; now left|now left].
    + right. now right.
Qed.

Lemma latest_is_maximum (e0 e : Q * Q) (rest : list (Q * Q)) :
  In e (e0 :: rest) ->
  Qeq_bool (fst e) (Qmax_list (fst e0) (map fst rest))
  = Queries.latest_in (e0 :: rest) e.
Proof.
  intros Hin. apply eq_true_iff_eq.
  unfold Queries.latest_in. rewrite Qeq_bool_iff, forallb_forall.
  split.
  - intros E e' Hin'. apply Qle_bool_iff. rewrite E.
    apply Qmax_list_ge. change (In (fst e') (map fst (e0 :: rest))).
    now apply in_map.
  - intros Hall. apply Qle_antisym.
    + apply Qmax_list_ge. change (In (fst e) (map fst (e0 :: rest))).
      now apply in_map.
    + pose proof (Qmax_list_In (map fst rest) (fst e0)) as Hm.
      change (In (Qmax_list (fst e0) (map fst rest)) (map fst (e0 :: rest)))
        in Hm.
      apply in_map_iff in Hm as (e' & <- & Hin').
      apply Qle_bool_iff. now apply Hall.
Qed.

Lemma latest_exists (e0 : Q * Q) (rest : list (Q * Q)) :
  List.filter (Queries.latest_in (e0 :: rest)) (e0 :: rest) <> [].
Proof.
  pose proof (Qmax_list_In (map fst rest) (fst e0)) as Hm.
  change (In (Qmax_list (fst e0) (map fst rest)) (map fst (e0 :: rest))) in Hm.
  apply in_map_iff in Hm as (e & E & Hin).
  assert (In e (List.filter (Queries.latest_in (e0 :: rest)) (e0 :: rest)))
    as Hf.
  { apply filter_In. split; [assumption|].
    rewrite <- (latest_is_maximum e0 e rest Hin), E.
    apply Qeq_bool_iff. reflexivity. }
  intros E'. rewrite E' in Hf. contradiction.
Qed.

Lemma last_of_selected (selected : list (Q * Q)) :
  Queries.last_of (map fst selected) (map snd selected)
  = match List.filter (Queries.latest_in selected) selected with
    | [] => Raise (ValueError "zero-size array to reduction operation")
    | found =>
        Ok (np_where
              (map (fun e => Queries.latest_in selected e) selected),
            map fst found, map snd found)
    end.
Proof.
  unfold Queries.last_of. destruct selected as [|e0 rest]; [reflexivity|].
  change (np_amax (map fst (e0 :: rest)))
    with (@Ok Q (Qmax_list (fst e0) (map fst rest))).
  cbn [bind]. rewrite map_map, !take_where. cbn [bind].
  rewrite (filter_ext_in _ _ _
             (fun e Hin => latest_is_maximum e0 e rest Hin)).
  rewrite (map_ext_in _ _ _
             (fun e Hin => latest_is_maximum e0 e rest Hin)).
  pose proof (latest_exists e0 rest) as Hne.
  destruct (List.filter _ (e0 :: rest)); [contradiction|reflexivity].
Qed.

(** With a starting coordinate that is not 0, the last-occurrence query
    towards increasing (decreasing) coordinates returns exactly the events
    strictly inside the time window and strictly above (below) [x_start]
    whose time is the maximum over these events, all of them when several
    tie; it raises when there is no such event. *)
Theorem find_spike_last_occurance_latest
    (my_dict : gmap string pyval) (my_key : option string) (prefix : string)
    (time x_position : list Q) (tstop t_start t_stop x_start : Q) :
  match my_key with None => best_raster my_dict | Some k => Some k end
  = Some prefix ->
  my_dict !! (prefix +:+ "_time") = Some (VArr time) ->
  my_dict !! (prefix +:+ "_x_position") = Some (VArr x_position) ->
  length time = length x_position ->
  my_dict !! "tstop" = Some (VFloat tstop) ->
  Qeq_bool x_start 0 = false ->
  Queries.find_spike_last_occurance my_dict my_key t_start t_stop "up" x_start
  = match
      Queries.last_events Qgtb t_start
        (if Qeq_bool t_stop 0 then tstop else t_stop) x_start
        (combine time x_position)
    with
    | [] => Raise (ValueError "zero-size array to reduction operation")
    | found =>
        Ok (Queries.QFound (Arr1 (map fst found)) (Arr1 (map snd found)))
    end /\
  Queries.find_spike_last_occurance my_dict my_key t_start t_stop "down"
    x_start
  = match
      Queries.last_events Qltb t_start
        (if Qeq_bool t_stop 0 then tstop else t_stop) x_start
        (combine time x_position)
    with
    | [] => Raise (ValueError "zero-size array to reduction operation")
    | found =>
        Ok (Queries.QFound (Arr1 (map fst found)) (Arr1 (map snd found)))
    end.
Proof.
  intros Hp Ht Hx Hlen Htstop Hx0.
  pose proof (map_fst_combine _ _ Hlen) as Ef.
  pose proof (map_snd_combine _ _ Hlen) as Es.
  set (es := combine time x_position) in *. clearbody es. subst time x_position.
  split;
    unfold Queries.find_spike_last_occurance, default_t_stop, get_float,
      get_arr, get;
    rewrite Hp, Htstop, Hx0;
    (destruct (Qeq_bool t_stop 0)); cbn [bind fst snd]; rewrite Ht;
    cbn [bind np_where_cmp]; cbv zeta;
    rewrite !map_map, intersect_np_where, take_where; cbn [bind];
    rewrite Hx; cbn [bind]; rewrite take_where; cbn [bind];
    match goal with
    | |- context [String.eqb ?a ?b] =>
        let v := eval vm_compute in (String.eqb a b) in
        change (String.eqb a b) with v
    end;
    cbv iota;
    try match goal with
    | |- context [String.eqb ?a ?b] =>
        let v := eval vm_compute in (String.eqb a b) in
        change (String.eqb a b) with v
    end;
    cbv iota; cbn [bind np_where_cmp];
    rewrite !map_map, !take_where; cbn [bind];
    rewrite filter_twice, last_of_selected;
    unfold Queries.last_events; cbv zeta;
    (destruct (List.filter (Queries.latest_in _) _); reflexivity).
Qed.

(** Above 150 the latest events are the two at the time 3; below, the one
    at the time 1. *)
Lemma find_spike_last_occurance_latest_witness :
  Queries.find_spike_last_occurance
    (<["V_mem_raster_position" := VIntArr [0; 1; 2; 3]%Z]>
     (<["V_mem_raster_time" := VArr [1 # 2; 1; 3; 3]%Q]>
      (<["V_mem_raster_x_position" := VArr [0; 100; 200; 300]%Q]>
       (<["tstop" := VFloat 10]> (∅ : gmap string pyval)))))
    None 0 0 "up" 150
  = Ok (Queries.QFound (Arr1 [3; 3]%Q) (Arr1 [200; 300]%Q)) /\
  Queries.find_spike_last_occurance
    (<["V_mem_raster_position" := VIntArr [0; 1; 2; 3]%Z]>
     (<["V_mem_raster_time" := VArr [1 # 2; 1; 3; 3]%Q]>
      (<["V_mem_raster_x_position" := VArr [0; 100; 200; 300]%Q]>
       (<["tstop" := VFloat 10]> (∅ : gmap string pyval)))))
    None 0 0 "down" 150
  = Ok (Queries.QFound (Arr1 [1]%Q) (Arr1 [100]%Q)).
Proof.
  destruct (find_spike_last_occurance_latest
              (<["V_mem_raster_position" := VIntArr [0; 1; 2; 3]%Z]>
               (<["V_mem_raster_time" := VArr [1 # 2; 1; 3; 3]%Q]>
                (<["V_mem_raster_x_position" := VArr [0; 100; 200; 300]%Q]>
                 (<["tstop" := VFloat 10]> (∅ : gmap string pyval)))))
              None "V_mem_raster" [1 # 2; 1; 3; 3]%Q [0; 100; 200; 300]%Q
              10 0 0 150)
    as [Hup Hdown]; try (vm_compute; reflexivity).
  split.
  - etransitivity; [exact Hup|]. vm_compute. reflexivity.
  - etransitivity; [exact Hdown|]. vm_compute. reflexivity.
Defined.

(** With [x_start = 0] the query starts from the origin of the spike: when
    the origin query finds a single event, at a coordinate that is not 0,
    the answer is the one for that event's time and coordinate. *)
Theorem find_spike_last_occurance_from_origin
    (my_dict : gmap string pyval) (my_key : option string) (prefix : string)
    (T t0 x0 t_start t_stop x_start : Q) (direction : string) :
  default_t_stop my_dict t_stop = Ok T ->
  match my_key with None => best_raster my_dict | Some k => Some k end
  = Some prefix ->
  Queries.find_spike_origin my_dict (Some prefix) t_start T None None
  = Ok (Queries.QFound (Arr1 [t0]) (Arr1 [x0])) ->
  Qeq_bool x_start 0 = true ->
  Qeq_bool x0 0 = false ->
  Queries.find_spike_last_occurance my_dict my_key t_start t_stop direction
    x_start
  = Queries.find_spike_last_occurance my_dict my_key t0 t_stop direction x0.
Proof.
  intros HT Hp Ho Hx Hx0. unfold Queries.find_spike_last_occurance.
  rewrite HT, Hp. cbn [bind]. rewrite Ho, Hx, Hx0. reflexivity.
Qed.

Lemma find_spike_last_occurance_from_origin_witness :
  Queries.find_spike_last_occurance
    (<["V_mem_raster_position" := VIntArr [0; 1; 2; 3]%Z]>
     (<["V_mem_raster_time" := VArr [1 # 2; 1; 3; 3]%Q]>
      (<["V_mem_raster_x_position" := VArr [50; 100; 200; 300]%Q]>
       (<["tstop" := VFloat 10]> (∅ : gmap string pyval)))))
    None 0 0 "up" 0
  = Queries.find_spike_last_occurance
      (<["V_mem_raster_position" := VIntArr [0; 1; 2; 3]%Z]>
       (<["V_mem_raster_time" := VArr [1 # 2; 1; 3; 3]%Q]>
        (<["V_mem_raster_x_position" := VArr [50; 100; 200; 300]%Q]>
         (<["tstop" := VFloat 10]> (∅ : gmap string pyval)))))
      None (1 # 2) 0 "up" 50.
Proof.
  apply (find_spike_last_occurance_from_origin _ None "V_mem_raster" 10);
    vm_compute; reflexivity.
Defined.

(** ** Choice of the raster *)

(** Called without a key, the two queries read the filtered raster when
    the record has one, whether or not it has a raw one, and the raw raster
    otherwise. *)
Theorem query_raster_choice (my_dict : gmap string pyval) :
  (is_Some (my_dict !! "V_mem_filtered_raster_position") ->
   (forall t_start t_stop x_min x_max,
      Queries.find_spike_origin my_dict None t_start t_stop x_min x_max
      = Queries.find_spike_origin my_dict (Some "V_mem_filtered_raster")
          t_start t_stop x_min x_max) /\
   (forall t_start t_stop direction x_start,
      Queries.find_spike_last_occurance my_dict None t_start t_stop
        direction x_start
      = Queries.find_spike_last_occurance my_dict
          (Some "V_mem_filtered_raster") t_start t_stop direction x_start))
  /\
  (my_dict !! "V_mem_filtered_raster_position" = None ->
   is_Some (my_dict !! "V_mem_raster_position") ->
   (forall t_start t_stop x_min x_max,
      Queries.find_spike_origin my_dict None t_start t_stop x_min x_max
      = Queries.find_spike_origin my_dict (Some "V_mem_raster")
          t_start t_stop x_min x_max) /\
   (forall t_start t_stop direction x_start,
      Queries.find_spike_last_occurance my_dict None t_start t_stop
        direction x_start
      = Queries.find_spike_last_occurance my_dict
          (Some "V_mem_raster") t_start t_stop direction x_start)).
Proof.
  split.
  - intros [v Hv]. split; intros;
      unfold Queries.find_spike_last_occurance, Queries.find_spike_origin,
        best_raster; rewrite Hv; reflexivity.
  - intros Hf [v Hv]. split; intros;
      unfold Queries.find_spike_last_occurance, Queries.find_spike_origin,
        best_raster; rewrite Hf, Hv; reflexivity.
Qed.

Lemma query_raster_choice_witness :
  Queries.find_spike_origin
    (<["V_mem_filtered_raster_position" := VIntArr [0%Z]]>
     (<["V_mem_filtered_raster_time" := VArr [2]%Q]>
      (<["V_mem_filtered_raster_x_position" := VArr [7]%Q]>
       (<["V_mem_raster_position" := VIntArr [0%Z]]>
        (<["V_mem_raster_time" := VArr [1]%Q]>
         (<["V_mem_raster_x_position" := VArr [5]%Q]>
          (<["tstop" := VFloat 4]> (∅ : gmap string pyval))))))))
    None 0 0 None None
  = Queries.find_spike_origin
      (<["V_mem_filtered_raster_position" := VIntArr [0%Z]]>
       (<["V_mem_filtered_raster_time" := VArr [2]%Q]>
        (<["V_mem_filtered_raster_x_position" := VArr [7]%Q]>
         (<["V_mem_raster_position" := VIntArr [0%Z]]>
          (<["V_mem_raster_time" := VArr [1]%Q]>
           (<["V_mem_raster_x_position" := VArr [5]%Q]>
            (<["tstop" := VFloat 4]> (∅ : gmap string pyval))))))))
      (Some "V_mem_filtered_raster") 0 0 None None.
Proof.
  apply (proj1 (query_raster_choice _)).
  exists (VIntArr [0%Z]). vm_compute. reflexivity.
Defined.

(** On a record without raster, the four functions called without a key
    return [False]: for [block] this is the value that also says "not
    blocked", not [None]. *)
Theorem queries_without_raster
    (my_dict : gmap string pyval) (T0 T1 L t_start t_stop : Q) :
  my_dict !! "V_mem_filtered_raster_position" = None ->
  my_dict !! "V_mem_raster_position" = None ->
  default_t_stop my_dict t_stop = Ok T1 ->
  default_t_start my_dict t_start = Ok T0 ->
  my_dict !! "L" = Some (VFloat L) ->
  (forall x_min x_max,
     Queries.find_spike_origin my_dict None t_start t_stop x_min x_max
     = Ok Queries.QFalse) /\
  (forall direction x_start,
     Queries.find_spike_last_occurance my_dict None t_start t_stop direction
       x_start = Ok Queries.QFalse) /\
  (forall x_start x_stop,
     Metrics.speed my_dict None t_start t_stop x_start x_stop
     = Ok Metrics.SFalse) /\
  Metrics.block my_dict None t_start t_stop = Ok (Some false).
Proof.
  intros Hf Hr Hstop Hstart HL.
  assert (best_raster my_dict = None) as Hb
    by (unfold best_raster; now rewrite Hf, Hr).
  repeat split; intros;
    unfold Queries.find_spike_last_occurance, Queries.find_spike_origin,
      Metrics.speed, Metrics.block;
    rewrite Hstop, ?Hstart, Hb; cbn [bind]; try reflexivity.
  destruct (speed_window my_dict L x_start x_stop HL) as [w ->].
  reflexivity.
Qed.

Lemma queries_without_raster_witness :
  Metrics.block
    (<["tstop" := VFloat 4]> (<["L" := VFloat 1000]> (∅ : gmap string pyval)))
    None 0 0
  = Ok (Some false).
Proof.
  apply (queries_without_raster _ 0 4 1000 0 0); vm_compute; reflexivity.
Defined.

(** [speed] and [block] cannot be given a key: once the defaults of the
    windows are resolved, any [position_key] other than [None] ends in a
    [NameError], the prefix of the raster being read from a name that the
    function never assigns. *)
Theorem explicit_position_key_fails
    (my_dict : gmap string pyval) (key : string)
    (T0 T1 L t_start t_stop : Q) :
  default_t_stop my_dict t_stop = Ok T1 ->
  default_t_start my_dict t_start = Ok T0 ->
  my_dict !! "L" = Some (VFloat L) ->
  (forall x_start x_stop, exists name,
     Metrics.speed my_dict (Some key) t_start t_stop x_start x_stop
     = Raise (NameError name)) /\
  (exists name,
     Metrics.block my_dict (Some key) t_start t_stop
     = Raise (NameError name)).
Proof.
  intros Hstop Hstart HL. split; [intros x_start x_stop|];
    unfold Metrics.speed, Metrics.block; rewrite Hstop, Hstart; cbn [bind];
    [|eauto].
  destruct (speed_window my_dict L x_start x_stop HL) as [w ->].
  cbn [bind]. eauto.
Qed.

Lemma explicit_position_key_fails_witness :
  exists name,
    Metrics.block
      (<["V_mem_raster_position" := VIntArr [0%Z]]>
       (<["V_mem_raster_time" := VArr [1]%Q]>
        (<["V_mem_raster_x_position" := VArr [5]%Q]>
         (<["tstop" := VFloat 4]>
          (<["L" := VFloat 1000]> (∅ : gmap string pyval))))))
      (Some "V_mem_raster") 0 0
    = Raise (NameError name).
Proof.
  refine (proj2 (explicit_position_key_fails _ "V_mem_raster" 0 4 1000 0 0
                   _ _ _));
    vm_compute; reflexivity.
Defined.

(** ** Velocity and block on a raster inside the time window *)

Lemma argmax_from_range (a : list Q) :
  forall (best_i : Z) (best : Q) (i : Z),
    (0 <= best_i < i)%Z ->
    (0 <= argmax_from best_i best i a < i + Z.of_nat (length a))%Z.
Proof.
  induction a as [|v a IH]; intros best_i best i Hi; cbn [argmax_from length].
  - lia.
  - destruct (Qltb best v).
    + specialize (IH i v (i + 1)%Z). lia.
    + specialize (IH best_i best (i + 1)%Z). lia.
Qed.

Lemma argmin_from_range (a : list Q) :
  forall (best_i : Z) (best : Q) (i : Z),
    (0 <= best_i < i)%Z ->
    (0 <= argmin_from best_i best i a < i + Z.of_nat (length a))%Z.
Proof.
  induction a as [|v a IH]; intros best_i best i Hi; cbn [argmin_from length].
  - lia.
  - destruct (Qltb v best).
    + specialize (IH i v (i + 1)%Z). lia.
    + specialize (IH best_i best (i + 1)%Z). lia.
Qed.

Lemma np_argmax_range (a : list Q) (k : Z) :
  np_argmax a = Ok k -> (0 <= k < Z.of_nat (length a))%Z.
Proof.
  destruct a as [|v a]; [discriminate|]. intros [= <-].
  pose proof (argmax_from_range a 0 v 1). cbn [length]. lia.
Qed.

Lemma np_argmin_range (a : list Q) (k : Z) :
  np_argmin a = Ok k -> (0 <= k < Z.of_nat (length a))%Z.
Proof.
  destruct a as [|v a]; [discriminate|]. intros [= <-].
  pose proof (argmin_from_range a 0 v 1). cbn [length]. lia.
Qed.

Lemma py_get_map {A B} (what : string) (f : A -> B) (d : A) (l : list A)
      (k : Z) :
  (0 <= k < Z.of_nat (length l))%Z ->
  py_get what (map f l) k = Ok (f (nth (Z.to_nat k) l d)).
Proof.
  intros Hk. rewrite <- (Z2Nat.id k) at 1 by lia.
  rewrite (py_get_nat what _ _ (f d)) by (rewrite length_map; lia).
  now rewrite map_nth.
Qed.

Lemma py_get_valid {A} (what : string) (d : A) (l : list A) (k : Z) :
  (0 <= k < Z.of_nat (length l))%Z ->
  py_get what l k = Ok (nth (Z.to_nat k) l d).
Proof.
  intros Hk. rewrite <- (Z2Nat.id k) at 1 by lia.
  apply py_get_nat. lia.
Qed.

Lemma filter_all {A} (p : A -> bool) (l : list A) :
  Forall (fun a => p a = true) l -> List.filter p l = l.
Proof.
  induction 1 as [|a l Ha _ IH]; [reflexivity|]. cbn. now rewrite Ha, IH.
Qed.

Lemma velocity_of_arrays (events : list (Q * Q)) :
  (do max_time <- np_argmax (map fst events);
   do min_time <- np_argmin (map fst events);
   do x_max <- py_get "x_position" (map snd events) max_time;
   do x_min <- py_get "x_position" (map snd events) min_time;
   do t_max <- py_get "time" (map fst events) max_time;
   do t_min <- py_get "time" (map fst events) min_time;
   Ok (Metrics.SVal (np_div ((x_max - x_min) * (1 # 1000)) (t_max - t_min))))
  = Metrics.velocity_of events.
Proof.
  unfold Metrics.velocity_of.
  destruct (np_argmax (map fst events)) as [kmax|] eqn:Emax; [|reflexivity].
  destruct (np_argmin (map fst events)) as [kmin|] eqn:Emin; [|reflexivity].
  apply np_argmax_range in Emax. apply np_argmin_range in Emin.
  rewrite length_map in Emax, Emin. cbn [bind].
  rewrite !(py_get_map _ _ (0, 0)%Q) by assumption.
  rewrite !(py_get_valid _ (0, 0)%Q) by assumption.
  reflexivity.
Qed.

Lemma speed_window_value (my_dict : gmap string pyval) (L x_start x_stop : Q) :
  my_dict !! "L" = Some (VFloat L) ->
  (if Qeq_bool x_start 0 then
     do L <- get_float my_dict "L"; Ok (x_start, L)
   else if Qeq_bool x_stop 0 then
     do L <- get_float my_dict "L"; Ok (L, x_stop)
   else Ok (x_start, x_stop))
  = Ok (Metrics.coordinate_window L x_start x_stop).
Proof.
  intros HL. unfold get_float, get, Metrics.coordinate_window. rewrite HL.
  cbn [bind]. destruct (Qeq_bool x_start 0); [reflexivity|].
  now destruct (Qeq_bool x_stop 0).
Qed.

(** When every event of the raster is strictly inside the time window,
    [speed] is the velocity between the earliest and the latest of the
    events that are also inside the coordinate window. *)
Theorem speed_on_full_time_window
    (my_dict : gmap string pyval) (prefix : string)
    (time x_position : list Q) (T0 T1 L t_start t_stop x_start x_stop : Q) :
  best_raster my_dict = Some prefix ->
  my_dict !! (prefix +:+ "_time") = Some (VArr time) ->
  my_dict !! (prefix +:+ "_x_position") = Some (VArr x_position) ->
  length time = length x_position ->
  default_t_stop my_dict t_stop = Ok T1 ->
  default_t_start my_dict t_start = Ok T0 ->
  my_dict !! "L" = Some (VFloat L) ->
  Forall (fun v => Metrics.in_time_window T0 T1 v = true) time ->
  Metrics.speed my_dict None t_start t_stop x_start x_stop
  = Metrics.velocity_of
      (List.filter
         (Metrics.in_both_windows T0 T1
            (fst (Metrics.coordinate_window L x_start x_stop))
            (snd (Metrics.coordinate_window L x_start x_stop)))
         (combine time x_position)).
Proof.
  intros Hp Ht Hx Hlen Hstop Hstart HL Hall.
  pose proof (map_fst_combine _ _ Hlen) as Ef.
  pose proof (map_snd_combine _ _ Hlen) as Es.
  set (es := combine time x_position) in *. clearbody es. subst time x_position.
  assert (Forall (fun e => Qgtb (fst e) T0 && Qltb (fst e) T1 = true) es)
    as Hall'.
  { apply List.Forall_forall. intros e Hin.
    rewrite List.Forall_forall in Hall. apply (Hall (fst e)).
    now apply in_map. }
  unfold Metrics.speed. rewrite Hstop, Hstart. cbn [bind].
  rewrite (speed_window_value my_dict L x_start x_stop HL).
  set (w := Metrics.coordinate_window L x_start x_stop).
  cbn [bind]. cbv zeta. rewrite Hp. unfold get_arr, get.
  rewrite Ht. cbn [bind]. rewrite Hx. cbn [bind].
  rewrite !map_map, intersect_np_where, take_where. cbn [bind].
  rewrite (filter_all _ es Hall').
  rewrite !map_map, !intersect_np_where, !take_where. cbn [bind].
  rewrite velocity_of_arrays. f_equal.
  apply filter_ext. intros e. unfold Metrics.in_both_windows.
  destruct (Qgtb (fst e) T0), (Qltb (fst e) T1), (Qgeb (snd e) (fst w)),
    (Qle_bool (snd e) (snd w)); reflexivity.
Qed.

(** The four events are after [t_start = 0.25]; the window of coordinates
    [50, 400] keeps the last three. *)
Lemma speed_on_full_time_window_witness :
  Metrics.speed
    (<["V_mem_raster_position" := VIntArr [0; 1; 2; 3]%Z]>
     (<["V_mem_raster_time" := VArr [1 # 2; 1; 2; 3]%Q]>
      (<["V_mem_raster_x_position" := VArr [0; 100; 200; 400]%Q]>
       (<["tstop" := VFloat 10]>
        (<["L" := VFloat 1000]> (∅ : gmap string pyval))))))
    None (1 # 4) 0 50 400
  = Metrics.velocity_of [(1, 100); (2, 200); (3, 400)]%Q.
Proof.
  etransitivity.
  - apply (speed_on_full_time_window _ "V_mem_raster"
             [1 # 2; 1; 2; 3]%Q [0; 100; 200; 400]%Q (1 # 4) 10 1000);
      try (vm_compute; reflexivity).
    repeat constructor.
  - vm_compute. reflexivity.
Defined.


(** Without the field [intra_stim_positions], [block] on a record with a
    raster returns [None] whatever the events are: the function ends
    without a [return]. *)
Theorem block_without_stimulation
    (my_dict : gmap string pyval) (prefix : string)
    (time x_position : list Q) (T0 T1 t_start t_stop : Q) :
  best_raster my_dict = Some prefix ->
  my_dict !! (prefix +:+ "_time") = Some (VArr time) ->
  my_dict !! (prefix +:+ "_x_position") = Some (VArr x_position) ->
  length time = length x_position ->
  default_t_stop my_dict t_stop = Ok T1 ->
  default_t_start my_dict t_start = Ok T0 ->
  my_dict !! "intra_stim_positions" = None ->
  Metrics.block my_dict None t_start t_stop = Ok None.
Proof.
  intros Hp Ht Hx Hlen Hstop Hstart Hs.
  pose proof (map_fst_combine _ _ Hlen) as Ef.
  pose proof (map_snd_combine _ _ Hlen) as Es.
  set (es := combine time x_position) in *. clearbody es. subst time x_position.
  unfold Metrics.block. rewrite Hstop, Hstart. cbn [bind].
  rewrite Hp. unfold get_arr, get.
  rewrite Ht. cbn [bind]. cbv zeta.
  rewrite !map_map, intersect_np_where, take_where. cbn [bind].
  rewrite Hx. cbn [bind]. rewrite take_where. cbn [bind].
  rewrite never_equal_to_empty_list. cbn [bind].
  now rewrite Hs.
Qed.

Lemma block_without_stimulation_witness :
  Metrics.block
    (<["V_mem_raster_position" := VIntArr [0; 1]%Z]>
     (<["V_mem_raster_time" := VArr [1; 2]%Q]>
      (<["V_mem_raster_x_position" := VArr [100; 500]%Q]>
       (<["tstop" := VFloat 10]> (∅ : gmap string pyval)))))
    None 0 0
  = Ok None.
Proof.
  apply (block_without_stimulation _ "V_mem_raster" [1; 2]%Q [100; 500]%Q
           0 10);
    vm_compute; reflexivity.
Defined.

(** ** Spike counter: bounds *)

Lemma Qmin_list_is_minimum (a : Q) (l : list Q) :
  Counter.is_minimum (Qmin_list a l) (a :: l).
Proof.
  split.
  - exists (Qmin_list a l). split; [apply Qmin_list_In|reflexivity].
  - intros v Hin. now apply Qmin_list_le.
Qed.

(** On a non-empty list [count_spike] returns a number between 1 and the
    length of the list. *)
Theorem count_spike_bounds (onset_position : list Q) :
  onset_position <> [] ->
  exists n : Z,
    Counter.count_spike onset_position = Ok n /\
    (1 <= n <= Z.of_nat (length onset_position))%Z.
Proof.
  destruct onset_position as [|a l]; [congruence|]. intros _.
  unfold Counter.count_spike. cbn [length Nat.eqb].
  replace (Z.of_nat (S (length l)) - 1)%Z with (Z.of_nat (length l)) by lia.
  rewrite py_range_nat, (count_loop (Qmin_list_is_minimum a l))
    by (cbn; lia).
  eexists. split; [reflexivity|].
  match goal with
  | |- context [length (List.filter ?p ?s)] =>
      pose proof (filter_length_le p s) as Hle
  end.
  rewrite length_seq in Hle. lia.
Qed.

Lemma count_spike_bounds_witness :
  exists n : Z,
    Counter.count_spike [3; 1; 1; 2]%Q = Ok n /\
    (1 <= n <= Z.of_nat (length [3; 1; 1; 2]%Q))%Z.
Proof. apply count_spike_bounds. discriminate. Defined.

(** When all the onsets are at one position, every one of them is
    counted. *)
Theorem count_spike_constant (onset_position : list Q) (c : Q) :
  onset_position <> [] ->
  Forall (fun v => (v == c)%Q) onset_position ->
  Counter.count_spike onset_position
  = Ok (Z.of_nat (length onset_position)).
Proof.
  destruct onset_position as [|a l]; [congruence|]. intros _ Hc.
  assert (Counter.is_minimum c (a :: l)) as Hmin.
  { rewrite List.Forall_forall in Hc. split.
    - exists a. split; [now left|]. apply Hc. now left.
    - intros v Hin. rewrite (Hc v Hin). apply Qle_refl. }
  unfold Counter.count_spike. cbn [length Nat.eqb].
  replace (Z.of_nat (S (length l)) - 1)%Z with (Z.of_nat (length l)) by lia.
  rewrite py_range_nat, (count_loop Hmin) by (cbn; lia).
  rewrite filter_all, length_seq; [f_equal; lia|].
  apply List.Forall_forall. intros i Hi. apply in_seq in Hi.
  rewrite List.Forall_forall in Hc.
  assert (forall k, (k < length (a :: l))%nat -> (nth k (a :: l) 0 == c)%Q)
    as Hn by (intros k Hk; apply Hc, nth_In, Hk).
  apply andb_true_iff. split; apply Qeq_bool_iff.
  - apply Hn. cbn [length]. lia.
  - rewrite !Hn by (cbn [length]; lia). reflexivity.
Qed.

Lemma count_spike_constant_witness :
  Counter.count_spike [5; 5; 5]%Q = Ok (Z.of_nat (length [5; 5; 5]%Q)).
Proof.
  apply (count_spike_constant [5; 5; 5]%Q 5).
  - discriminate.
  - repeat constructor.
Defined.

(** ** Notch filter stage *)

Lemma rows_enumerated {B} (what : string) (body : Z -> list Q -> result B)
      (sig : list (list Q)) :
  forall pre : list (list Q),
    map_result (fun k => do row <- py_get what (pre ++ sig) k; body k row)
               (map Z.of_nat (seq (length pre) (length sig)))
    = rows_from body (Z.of_nat (length pre)) sig.
Proof.
  induction sig as [|row sig IH]; intros pre; [reflexivity|].
  cbn [length seq map map_result rows_from].
  rewrite (py_get_nat what _ _ row) by (rewrite length_app; cbn; lia).
  rewrite app_nth2, Nat.sub_diag by lia. cbn [nth bind].
  destruct (body (Z.of_nat (length pre)) row); cbn [bind]; [|reflexivity].
  specialize (IH (pre ++ [row])%list).
  rewrite <- app_assoc, length_app in IH. cbn [length app] in IH.
  rewrite Nat.add_1_r in IH. rewrite IH.
  now replace (Z.of_nat (S (length pre))) with (Z.of_nat (length pre) + 1)%Z
    by lia.
Qed.

Lemma rows_of_matrix {B} (what : string) (body : Z -> list Q -> result B)
      (sig : list (list Q)) :
  map_result (fun k => do row <- py_get what sig k; body k row)
             (py_range 0 (Z.of_nat (length sig)))
  = rows_from body 0 sig.
Proof. rewrite py_range_nat. exact (rows_enumerated what body sig []). Qed.

Lemma rows_from_Forall2 {B} (body : Z -> list Q -> result B)
      (P : list Q -> B -> Prop) :
  (forall k row new, body k row = Ok new -> P row new) ->
  forall (sig : list (list Q)) (k : Z) (out : list B),
    rows_from body k sig = Ok out -> Forall2 P sig out.
Proof.
  intros HP. induction sig as [|row sig IH]; intros k out H.
  - injection H as <-. constructor.
  - cbn in H. apply bind_Ok in H as (new & Hn & H).
    apply bind_Ok in H as (rest & Hr & H). injection H as <-.
    constructor; [eapply HP; exact Hn|eapply IH; exact Hr].
Qed.

Lemma rows_from_copy (sig : list (list Q)) :
  forall k : Z, rows_from (fun _ row => Ok row) k sig = Ok sig.
Proof.
  induction sig as [|row sig IH]; intros k; [reflexivity|].
  cbn. now rewrite IH.
Qed.

Section FilterFacts.

Variable coeffs : Type.
Variable iirnotch : Q -> Q -> Q -> result coeffs.
Variable lfilter : coeffs -> ndarray -> result ndarray.

Local Abbreviation filter_freq := (Filter.filter_freq coeffs iirnotch lfilter).
Local Abbreviation notch_step := (Filter.notch_step coeffs iirnotch lfilter).

Lemma assign_row_length (n : nat) (value : ndarray) (row : list Q) :
  Filter.assign_row n value = Ok row -> length row = n.
Proof.
  unfold Filter.assign_row. intros H.
  destruct value as [q|[|q [|q' a]]].
  - injection H as <-. apply repeat_length.
  - destruct (Nat.eqb_spec (length (@nil Q)) n) as [E|]; [|discriminate H].
    injection H as <-. exact E.
  - injection H as <-. apply repeat_length.
  - destruct (Nat.eqb_spec (length (q :: q' :: a)) n) as [E|];
      [|discriminate H].
    injection H as <-. exact E.
Qed.

Lemma notch_steps_length (Q_factor fs : Q) (k : Z) (f0 : list Q) :
  forall row new : list Q,
    for_each f0 (notch_step Q_factor fs k) row = Ok new ->
    length new = length row.
Proof.
  induction f0 as [|f f0 IH]; intros row new H.
  - now injection H as <-.
  - cbn [for_each] in H. apply bind_Ok in H as (mid & Hm & H).
    apply IH in H. rewrite H.
    unfold Filter.notch_step in Hm.
    apply bind_Ok in Hm as (c & _ & Hm).
    apply bind_Ok in Hm as (sample & _ & Hm).
    apply bind_Ok in Hm as (y & _ & Hm).
    now apply assign_row_length in Hm.
Qed.

(** With [dt = 0] [filter_freq] returns [False] and leaves the record as it
    is; otherwise it returns [None] and the record differs by the field
    [my_key + '_filtered'] only, which holds a matrix of the shape of the
    input: as many rows, each of the length of the row it comes from. *)
Theorem filter_freq_shape (my_dict : gmap string pyval) (my_key : string)
    (freq : Filter.freq_arg) (Q_factor : Q)
    (ret : option bool) (out : gmap string pyval) :
  filter_freq my_dict my_key freq Q_factor = Ok (ret, out) ->
  exists dt : Q,
    my_dict !! "dt" = Some (VFloat dt) /\
    if Qeq_bool dt 0 then ret = Some false /\ out = my_dict
    else
      ret = None /\
      exists sig new_sig : list (list Q),
        my_dict !! my_key = Some (VMat sig) /\
        out = <[my_key +:+ "_filtered" := VMat new_sig]> my_dict /\
        Forall2 (fun row new => length new = length row) sig new_sig.
Proof.
  unfold Filter.filter_freq. intros H.
  apply bind_Ok in H as (dt & Hdt & H). exists dt. split.
  { unfold get_float, get in Hdt.
    destruct (my_dict !! "dt") as [[]|]; cbn in Hdt; congruence. }
  destruct (Qeq_bool dt 0); [injection H as <- <-; now split|].
  apply bind_Ok in H as (new_sig & Hs & H). injection H as <- <-.
  split; [reflexivity|].
  assert (forall sig, get_mat my_dict my_key = Ok sig ->
                      my_dict !! my_key = Some (VMat sig)) as Hget.
  { intros sig Hg. unfold get_mat, get in Hg.
    destruct (my_dict !! my_key) as [[]|]; cbn in Hg; congruence. }
  destruct freq as [f|f0].
  - apply bind_Ok in Hs as (c & _ & Hs).
    apply bind_Ok in Hs as (sig & Hg & Hs).
    exists sig, new_sig. repeat split; [now apply Hget|].
    rewrite rows_of_matrix in Hs.
    eapply rows_from_Forall2; [|exact Hs]. cbn. intros k row new Hn.
    apply bind_Ok in Hn as (y & _ & Hn). now apply assign_row_length in Hn.
  - apply bind_Ok in Hs as (sig & Hg & Hs).
    exists sig, new_sig. repeat split; [now apply Hget|].
    rewrite rows_of_matrix in Hs.
    eapply rows_from_Forall2; [|exact Hs]. cbn. intros k row new Hn.
    now apply notch_steps_length in Hn.
Qed.

(** With a single frequency, and a filter that returns a signal of the
    length of its input, every row of the filtered matrix is the output of
    [lfilter] on the whole corresponding row, with the coefficients that
    [iirnotch] gives for this frequency at the sample rate [1/dt]. *)
Theorem filter_freq_single_frequency
    (my_dict : gmap string pyval) (my_key : string) (f Q_factor dt : Q)
    (ret : option bool) (out : gmap string pyval) :
  (forall c a y, lfilter c (Arr1 a) = Ok y ->
                 exists b, y = Arr1 b /\ length b = length a) ->
  my_dict !! "dt" = Some (VFloat dt) ->
  Qeq_bool dt 0 = false ->
  filter_freq my_dict my_key (Filter.FreqScalar f) Q_factor = Ok (ret, out) ->
  exists (c : coeffs) (sig new_sig : list (list Q)),
    iirnotch f Q_factor (1 / dt) = Ok c /\
    my_dict !! my_key = Some (VMat sig) /\
    out = <[my_key +:+ "_filtered" := VMat new_sig]> my_dict /\
    Forall2 (fun row new => lfilter c (Arr1 row) = Ok (Arr1 new)) sig new_sig.
Proof.
  intros Hlen Hdt Hnz H. unfold Filter.filter_freq, get_float, get in H.
  rewrite Hdt in H. cbn [bind] in H. rewrite Hnz in H.
  apply bind_Ok in H as (new_sig & Hs & H). injection H as <- <-.
  apply bind_Ok in Hs as (c & Hc & Hs).
  apply bind_Ok in Hs as (sig & Hg & Hs).
  exists c, sig, new_sig. repeat split; [exact Hc| |].
  { unfold get_mat, get in Hg.
    destruct (my_dict !! my_key) as [[]|]; cbn in Hg; congruence. }
  rewrite rows_of_matrix in Hs.
  eapply rows_from_Forall2; [|exact Hs]. cbn. intros k row new Hn.
  apply bind_Ok in Hn as (y & Hy & Hn).
  destruct (Hlen _ _ _ Hy) as (b & -> & Hb). rewrite Hy. f_equal. f_equal.
  unfold Filter.assign_row in Hn.
  destruct b as [|q [|q' b]].
  - rewrite <- Hb in Hn. now injection Hn as <-.
  - rewrite <- Hb in Hn. now injection Hn as <-.
  - rewrite Hb, Nat.eqb_refl in Hn. now injection Hn as <-.
Qed.

(** With an empty sequence of frequencies the filtered field is a copy of
    the input matrix. *)
Theorem filter_freq_no_frequency
    (my_dict : gmap string pyval) (my_key : string) (Q_factor dt : Q)
    (sig : list (list Q)) :
  my_dict !! "dt" = Some (VFloat dt) ->
  Qeq_bool dt 0 = false ->
  my_dict !! my_key = Some (VMat sig) ->
  filter_freq my_dict my_key (Filter.FreqSeq []) Q_factor
  = Ok (None, <[my_key +:+ "_filtered" := VMat sig]> my_dict).
Proof.
  intros Hdt Hnz Hs. unfold Filter.filter_freq, get_float, get_mat, get.
  rewrite Hdt, Hs. cbn [bind]. rewrite Hnz. cbn [bind].
  rewrite rows_of_matrix. cbn [for_each].
  now rewrite rows_from_copy.
Qed.

End FilterFacts.

(** The witnesses below run the stage with a stand-in for the two SciPy
    functions: coefficients reduced to one gain, and a filter that scales
    a 1-d signal by it and rejects a 0-d one. *)
Lemma filter_freq_shape_witness :
  exists dt : Q,
    (<["V_mem" := VMat [[1; 2]; [3; 4]]%Q]>
     (<["dt" := VFloat (1 # 100)]> (∅ : gmap string pyval)))
    !! "dt" = Some (VFloat dt) /\
    if Qeq_bool dt 0
    then @None bool = Some false /\
         <["V_mem_filtered" := VMat [[2; 4]; [6; 8]]%Q]>
           (<["V_mem" := VMat [[1; 2]; [3; 4]]%Q]>
            (<["dt" := VFloat (1 # 100)]> (∅ : gmap string pyval)))
         = <["V_mem" := VMat [[1; 2]; [3; 4]]%Q]>
             (<["dt" := VFloat (1 # 100)]> (∅ : gmap string pyval))
    else
      @None bool = None /\
      exists sig new_sig : list (list Q),
        (<["V_mem" := VMat [[1; 2]; [3; 4]]%Q]>
         (<["dt" := VFloat (1 # 100)]> (∅ : gmap string pyval)))
        !! "V_mem" = Some (VMat sig) /\
        <["V_mem_filtered" := VMat [[2; 4]; [6; 8]]%Q]>
          (<["V_mem" := VMat [[1; 2]; [3; 4]]%Q]>
           (<["dt" := VFloat (1 # 100)]> (∅ : gmap string pyval)))
        = <["V_mem" +:+ "_filtered" := VMat new_sig]>
            (<["V_mem" := VMat [[1; 2]; [3; 4]]%Q]>
             (<["dt" := VFloat (1 # 100)]> (∅ : gmap string pyval))) /\
        Forall2 (fun row new => length new = length row) sig new_sig.
Proof.
  apply (filter_freq_shape Q
           (fun f _ _ => Ok f)
           (fun c x =>
              match x with
              | Arr1 a => Ok (Arr1 (map (Qmult c) a))
              | Scalar _ => Raise (ValueError "selected axis is out of range")
              end)
           _ "V_mem" (Filter.FreqScalar 2) 10).
  vm_compute. reflexivity.
Defined.

Lemma filter_freq_single_frequency_witness :
  exists (c : Q) (sig new_sig : list (list Q)),
    @Ok Q 2%Q = Ok c /\
    (<["V_mem" := VMat [[1; 2]; [3; 4]]%Q]>
     (<["dt" := VFloat (1 # 100)]> (∅ : gmap string pyval)))
    !! "V_mem" = Some (VMat sig) /\
    <["V_mem_filtered" := VMat [[2; 4]; [6; 8]]%Q]>
      (<["V_mem" := VMat [[1; 2]; [3; 4]]%Q]>
       (<["dt" := VFloat (1 # 100)]> (∅ : gmap string pyval)))
    = <["V_mem" +:+ "_filtered" := VMat new_sig]>
        (<["V_mem" := VMat [[1; 2]; [3; 4]]%Q]>
         (<["dt" := VFloat (1 # 100)]> (∅ : gmap string pyval))) /\
    Forall2 (fun row new => Ok (Arr1 (map (Qmult c) row)) = Ok (Arr1 new))
            sig new_sig.
Proof.
  apply (filter_freq_single_frequency Q
           (fun f _ _ => Ok f)
           (fun c x =>
              match x with
              | Arr1 a => Ok (Arr1 (map (Qmult c) a))
              | Scalar _ => Raise (ValueError "selected axis is out of range")
              end)
           _ "V_mem" 2 10 (1 # 100) None).
  - intros c a y H. injection H as <-. eexists. split; [reflexivity|].
    apply length_map.
  - vm_compute. reflexivity.
  - reflexivity.
  - vm_compute. reflexivity.
Defined.

Lemma filter_freq_no_frequency_witness :
  Filter.filter_freq Q
    (fun f _ _ => Ok f)
    (fun c x =>
       match x with
       | Arr1 a => Ok (Arr1 (map (Qmult c) a))
       | Scalar _ => Raise (ValueError "selected axis is out of range")
       end)
    (<["V_mem" := VMat [[1; 2]; [3; 4]]%Q]>
     (<["dt" := VFloat (1 # 100)]> (∅ : gmap string pyval)))
    "V_mem" (Filter.FreqSeq []) 10
  = Ok (None,
        <["V_mem" +:+ "_filtered" := VMat [[1; 2]; [3; 4]]%Q]>
          (<["V_mem" := VMat [[1; 2]; [3; 4]]%Q]>
           (<["dt" := VFloat (1 # 100)]> (∅ : gmap string pyval)))).
Proof.
  apply filter_freq_no_frequency with (dt := (1 # 100)%Q);
    vm_compute; reflexivity.
Defined.
